(** * naija-lingo: the catalogue pipeline, enrolment, uploads, quizzes,
      lessons and notifications of the course marketplace front-end

    A shallow embedding of the TypeScript sources.  JavaScript strings are
    [string] (the UTF-8 bytes of the text), numbers are [Z] where the code
    holds counts and sizes, [Q] where it holds finite fractions, and
    [number] where a NaN or an infinity can arise ([parseFloat]).  Arrays
    are lists; where the code mutates an array in place the arrays live in
    a store ([gmap]) and are named by reference. *)

From Stdlib Require Import ZArith QArith Qround List String Ascii Bool Lia Lqa.
From Stdlib Require Import Permutation Sorted DecimalString.
From stdpp Require Import gmap.

Import ListNotations.
Local Open Scope string_scope.
Local Open Scope list_scope.

(** ** JavaScript strings *)

Module Js.

(** [s.length === 0], the falsy string. *)
Definition isEmpty (s : string) : bool :=
  match s with EmptyString => true | _ => false end.

(** A string in a condition: [if (s)] holds for every non-empty string. *)
Definition truthy (s : string) : bool := negb (isEmpty s).

(** [String.prototype.toLowerCase] on ASCII text: the letters A-Z are
    folded, the other bytes are kept as they are.  The builtin also folds
    the cased letters beyond ASCII; where a statement depends on what it
    does there, the folding is a function [lower] of which only
    [foldsAscii] below is known. *)
Definition lowerChar (c : ascii) : ascii :=
  let n := nat_of_ascii c in
  if ((65 <=? n) && (n <=? 90))%nat then ascii_of_nat (n + 32) else c.

Fixpoint toLowerCase (s : string) : string :=
  match s with
  | EmptyString => EmptyString
  | String c r => String (lowerChar c) (toLowerCase r)
  end.

(** Every character of [s] is ASCII. *)
Fixpoint isAscii (s : string) : bool :=
  match s with
  | EmptyString => true
  | String c r => (nat_of_ascii c <? 128)%nat && isAscii r
  end.

(** [lower] folds ASCII text as [String.prototype.toLowerCase] does. *)
Definition foldsAscii (lower : string -> string) : Prop :=
  forall s, isAscii s = true -> lower s = toLowerCase s.

Fixpoint startsWith (s p : string) {struct p} : bool :=
  match p, s with
  | EmptyString, _ => true
  | String _ _, EmptyString => false
  | String a p', String b s' => Ascii.eqb a b && startsWith s' p'
  end.

(** [s.includes(sub)]: [sub] occurs in [s] at some position. *)
Fixpoint includes (s sub : string) : bool :=
  startsWith s sub ||
  match s with
  | EmptyString => false
  | String _ r => includes r sub
  end.

(** White space that [trim] and [parseFloat] skip: the WhiteSpace and
    LineTerminator characters of ECMAScript.  On the ASCII range these are
    tab, line feed, vertical tab, form feed, carriage return and space. *)
Definition isWhiteSpace (c : ascii) : bool :=
  let n := nat_of_ascii c in
  ((9 <=? n) && (n <=? 13) || (n =? 32))%nat.

(** The others take two or three bytes in UTF-8:
    U+00A0 (C2 A0); U+1680 (E1 9A 80); U+2000..U+200A (E2 80 80..8A);
    U+2028, U+2029, U+202F (E2 80 A8, A9, AF); U+205F (E2 81 9F);
    U+3000 (E3 80 80); U+FEFF (EF BB BF). *)
Definition isLead (c : ascii) : bool :=
  let n := nat_of_ascii c in
  ((n =? 194) || (n =? 225) || (n =? 226) || (n =? 227) || (n =? 239))%nat.

Definition isWhiteSpace2 (a b : ascii) : bool :=
  ((nat_of_ascii a =? 194) && (nat_of_ascii b =? 160))%nat.

Definition isWhiteSpace3 (a b c : ascii) : bool :=
  let x := nat_of_ascii a in
  let y := nat_of_ascii b in
  let z := nat_of_ascii c in
  ((x =? 225) && (y =? 154) && (z =? 128) ||
   (x =? 226) && (y =? 128) &&
     ((128 <=? z) && (z <=? 138) || (z =? 168) || (z =? 169) || (z =? 175)) ||
   (x =? 226) && (y =? 129) && (z =? 159) ||
   (x =? 227) && (y =? 128) && (z =? 128) ||
   (x =? 239) && (y =? 187) && (z =? 191))%nat.

(** [trimStart]: white space characters are dropped from the head until a
    character that is not white space. *)
Fixpoint trimStart (s : string) : string :=
  match s with
  | String c r =>
      if isWhiteSpace c then trimStart r
      else if isLead c then
        match r with
        | String c2 r2 =>
            if isWhiteSpace2 c c2 then trimStart r2
            else match r2 with
                 | String c3 r3 =>
                     if isWhiteSpace3 c c2 c3 then trimStart r3 else s
                 | EmptyString => s
                 end
        | EmptyString => s
        end
      else s
  | EmptyString => EmptyString
  end.

(** [s] is white space from here to its end. *)
Definition allWhiteSpace (s : string) : bool := isEmpty (trimStart s).

(** [trimEnd], written by recursion from the left: a byte is kept unless
    only white space follows from it on.  (No white space character starts
    with a continuation byte, so a character is kept or dropped whole.) *)
Fixpoint trimEnd (s : string) : string :=
  match s with
  | EmptyString => EmptyString
  | String c r => if allWhiteSpace s then EmptyString else String c (trimEnd r)
  end.

Definition trim (s : string) : string := trimEnd (trimStart s).

(** U+00A0, for the examples. *)
Definition noBreakSpace : string :=
  String (ascii_of_nat 194) (String (ascii_of_nat 160) EmptyString).

(** [s.split(sep)] for a one-character separator; the result is never
    empty. *)
Fixpoint split (sep : ascii) (s : string) : list string :=
  match s with
  | EmptyString => [EmptyString]
  | String c r =>
      if Ascii.eqb c sep then EmptyString :: split sep r
      else match split sep r with
           | w :: ws => String c w :: ws
           | [] => [String c EmptyString]
           end
  end.

(** [arr.pop()] as a value: the last element. *)
Definition pop (l : list string) : option string := last l.

(** ** JavaScript numbers *)

(** A number that may be NaN or infinite.  Both zeros are [Fin 0]: no code
    below tells them apart. *)
Inductive number : Type :=
  | NaN
  | Fin (q : Q)
  | Inf (negative : bool).

Definition ofZ (z : Z) : number := Fin (inject_Z z).

(** [a - b] *)
Definition sub (a b : number) : number :=
  match a, b with
  | NaN, _ | _, NaN => NaN
  | Fin x, Fin y => Fin (x - y)%Q
  | Fin _, Inf s => Inf (negb s)
  | Inf s, Fin _ => Inf s
  | Inf s, Inf t => if Bool.eqb s t then NaN else Inf s
  end.

(** [v > 0]; false for NaN. *)
Definition isPositive (v : number) : bool :=
  match v with
  | Fin q => match (0 ?= q)%Q with Lt => true | _ => false end
  | Inf negative => negb negative
  | NaN => false
  end.

(** [a <= b] and [a == b] on numbers; false when either side is NaN. *)
Definition le (a b : number) : Prop :=
  match a, b with
  | NaN, _ | _, NaN => False
  | Fin x, Fin y => (x <= y)%Q
  | Inf s, Fin _ => s = true
  | Fin _, Inf s => s = false
  | Inf s, Inf t => s = true \/ t = false
  end.

Definition eqb (a b : number) : bool :=
  match a, b with
  | Fin x, Fin y => Qeq_bool x y
  | Inf s, Inf t => Bool.eqb s t
  | _, _ => false
  end.

(** [q] is a number that a binary64 holds: [m * 2^e] with [|m| < 2^53]
    and [-1074 <= e <= 971]. *)
Definition isBinary64 (q : Q) : Prop :=
  exists m e : Z,
    (Z.abs m < 2 ^ 53)%Z /\ (-1074 <= e <= 971)%Z /\
    (q == inject_Z m * Qpower 2 e)%Q.

(** A finite value that needs no rounding. *)
Definition exact (v : number) : Prop :=
  match v with
  | Fin q => isBinary64 q
  | _ => False
  end.

(** *** [parseFloat] *)

Definition digitOf (c : ascii) : option Z :=
  let n := nat_of_ascii c in
  if ((48 <=? n) && (n <=? 57))%nat then Some (Z.of_nat (n - 48)) else None.

(** The longest run of decimal digits at the head of [s], and the rest. *)
Fixpoint digits (s : string) : list Z * string :=
  match s with
  | EmptyString => ([], EmptyString)
  | String c r =>
      match digitOf c with
      | Some d => let (ds, rest) := digits r in (d :: ds, rest)
      | None => ([], s)
      end
  end.

Definition decimal (ds : list Z) : Z :=
  fold_left (fun acc d => 10 * acc + d)%Z ds 0%Z.

(** An optional sign: [(negative, rest)]. *)
Definition sign (s : string) : bool * string :=
  match s with
  | String "-" r => (true, r)
  | String "+" r => (false, r)
  | _ => (false, s)
  end.

(** The value of an exponent part [e±ddd] at the head of [s]; 0 when there
    is none (an [e] that no digit follows is not part of the number). *)
Definition exponent (s : string) : Z :=
  match s with
  | String c r =>
      if Ascii.eqb c "e" || Ascii.eqb c "E" then
        let (negative, r') := sign r in
        match fst (digits r') with
        | [] => 0%Z
        | ds => if negative then (- decimal ds)%Z else decimal ds
        end
      else 0%Z
  | EmptyString => 0%Z
  end.

(** [parseFloat(s)]: leading white space is skipped, then the longest
    prefix that is a decimal literal ([±Infinity], or digits with an
    optional fraction and exponent) gives the value; NaN when there is no
    such prefix.  The value is the exact decimal.  The code's value is that
    decimal rounded to the nearest binary64: the same number whenever a
    binary64 holds the decimal ([exact] above), which for a whole number
    means up to 2^53 and beyond it the multiples of the spacing there.  A
    statement that reads a parsed value says for which prices it does. *)
Definition parseFloat (s : string) : number :=
  let (negative, s1) := sign (trimStart s) in
  if startsWith s1 "Infinity" then Inf negative else
  let (ip, s2) := digits s1 in
  let (fp, s3) :=
    match s2 with
    | String "." r => digits r
    | _ => ([], s2)
    end in
  match ip ++ fp with
  | [] => NaN
  | ds =>
      let m := inject_Z (if negative then (- decimal ds)%Z else decimal ds) in
      Fin (Qred (m * Qpower 10 (exponent s3 - Z.of_nat (List.length fp)))%Q)
  end.

End Js.

(** ** The catalogue page: [src/pages/Index.tsx] *)

Module Index.

Import Js.

(** A course as the page holds it (the shape of [mockCourses] and of the
    rows mapped in [fetchRealCourses]). *)
Record Course : Type := mkCourse {
  id : Z;
  title : string;
  instructor : string;
  language : string;
  level : string;
  duration : string;
  students : Z;
  rating : Q;
  price : string;
  description : string
}.

(** [price.replace(/[₦,]/g, '')]: every naira sign (three bytes in UTF-8)
    and every comma is removed. *)
Fixpoint stripNairaComma (s : string) : string :=
  match s with
  | EmptyString => EmptyString
  | String c r =>
      if startsWith s "₦" then
        match r with
        | String _ (String _ r') => stripNairaComma r'
        | _ => EmptyString
        end
      else if Ascii.eqb c "," then stripNairaComma r
      else String c (stripNairaComma r)
  end.

(** [a.price === 'Free' ? 0 : parseFloat(a.price.replace(/[₦,]/g, ''))] *)
Definition parsePrice (p : string) : number :=
  if String.eqb p "Free" then ofZ 0 else parseFloat (stripNairaComma p).

(** The comparators handed to [sort]. *)
Definition byStudents (a b : Course) : number :=
  sub (ofZ (students b)) (ofZ (students a)).

Definition byRating (a b : Course) : number :=
  sub (Fin (rating b)) (Fin (rating a)).

Definition byPriceLow (a b : Course) : number :=
  let priceA := parsePrice (price a) in
  let priceB := parsePrice (price b) in
  sub priceA priceB.

Definition byPriceHigh (a b : Course) : number :=
  let priceA := parsePrice (price a) in
  let priceB := parsePrice (price b) in
  sub priceB priceA.

(** *** [Array.prototype.sort]

    ECMAScript makes the sort stable and lets it use the comparator's
    result only through its sign, NaN counting as 0.  For a comparator
    that is consistent on the array this fixes the result; [sort] computes
    it by stable insertion: an element moves behind a later one only when
    the comparator is positive on the pair.  For a comparator that is not
    consistent (a price that parses to NaN among three or more courses)
    the language leaves the order to the engine, and a statement about the
    order that [sort] gives says that the comparator is consistent. *)
Section Sort.
Context {A : Type} (comparefn : A -> A -> number).

Fixpoint insert (x : A) (l : list A) : list A :=
  match l with
  | [] => [x]
  | y :: l' =>
      if isPositive (comparefn x y) then y :: insert x l' else x :: l
  end.

Definition sort (l : list A) : list A := fold_right insert [] l.

(** The comparator does not ask for [a] to move behind [b]. *)
Definition inPlace (a b : A) : Prop := isPositive (comparefn a b) = false.
End Sort.

(** *** [applyFilters] *)

Definition matchesQuery (searchQuery : string) (course : Course) : bool :=
  includes (toLowerCase (title course)) (toLowerCase searchQuery) ||
  includes (toLowerCase (instructor course)) (toLowerCase searchQuery) ||
  includes (toLowerCase (language course)) (toLowerCase searchQuery).

Definition matchesLanguage (selectedLanguage : string) (course : Course) : bool :=
  String.eqb (toLowerCase (language course)) (toLowerCase selectedLanguage).

Definition matchesLevel (selectedLevel : string) (course : Course) : bool :=
  String.eqb (toLowerCase (level course)) (toLowerCase selectedLevel).

(** [selectedLanguage && selectedLanguage !== 'all'] *)
Definition isSet (selected : string) : bool :=
  truthy selected && negb (String.eqb selected "all").

(** The three [filter] steps, lines 131-149. *)
Definition filterCourses (courses : list Course)
    (searchQuery selectedLanguage selectedLevel : string) : list Course :=
  let filtered := courses in
  let filtered :=
    if truthy searchQuery
    then List.filter (matchesQuery searchQuery) filtered else filtered in
  let filtered :=
    if isSet selectedLanguage
    then List.filter (matchesLanguage selectedLanguage) filtered else filtered in
  let filtered :=
    if isSet selectedLevel
    then List.filter (matchesLevel selectedLevel) filtered else filtered in
  filtered.

(** The [switch (sortBy)], lines 152-178. *)
Definition sortCourses (sortBy : string) (filtered : list Course) : list Course :=
  if String.eqb sortBy "popular" then sort byStudents filtered
  else if String.eqb sortBy "rating" then sort byRating filtered
  else if String.eqb sortBy "newest" then filtered
  else if String.eqb sortBy "price-low" then sort byPriceLow filtered
  else if String.eqb sortBy "price-high" then sort byPriceHigh filtered
  else filtered.

(** The list that [applyFilters] hands to [setFilteredCourses]. *)
Definition applyFilters (courses : list Course)
    (searchQuery selectedLanguage selectedLevel sortBy : string) : list Course :=
  sortCourses sortBy
    (filterCourses courses searchQuery selectedLanguage selectedLevel).

(** *** [applyFilters] over the builtin's folding

    The filters call [toLowerCase] on text that need not be ASCII (course
    titles, instructor names).  The same three [filter] steps and the same
    [switch], with the folding as a function [lower]: *)
Section Folding.
Variable lower : string -> string.

Definition matchesQueryWith (searchQuery : string) (course : Course) : bool :=
  includes (lower (title course)) (lower searchQuery) ||
  includes (lower (instructor course)) (lower searchQuery) ||
  includes (lower (language course)) (lower searchQuery).

Definition matchesLanguageWith (selectedLanguage : string) (course : Course) : bool :=
  String.eqb (lower (language course)) (lower selectedLanguage).

Definition matchesLevelWith (selectedLevel : string) (course : Course) : bool :=
  String.eqb (lower (level course)) (lower selectedLevel).

Definition filterCoursesWith (courses : list Course)
    (searchQuery selectedLanguage selectedLevel : string) : list Course :=
  let filtered := courses in
  let filtered :=
    if truthy searchQuery
    then List.filter (matchesQueryWith searchQuery) filtered else filtered in
  let filtered :=
    if isSet selectedLanguage
    then List.filter (matchesLanguageWith selectedLanguage) filtered else filtered in
  let filtered :=
    if isSet selectedLevel
    then List.filter (matchesLevelWith selectedLevel) filtered else filtered in
  filtered.

Definition applyFiltersWith (courses : list Course)
    (searchQuery selectedLanguage selectedLevel sortBy : string) : list Course :=
  sortCourses sortBy
    (filterCoursesWith courses searchQuery selectedLanguage selectedLevel).
End Folding.

(** [mockCourses], lines 19-59 (the imported images left out). *)
Definition mockCourses : list Course :=
  [ mkCourse 1 "Complete Yoruba for Beginners" "Adebayo Olumide" "Yoruba"
      "Beginner" "8 weeks" 2547 (49 # 10) "₦15,000"
      "Learn Yoruba from scratch with native speakers. Master greetings, daily conversations, and cultural context.";
    mkCourse 2 "Business Igbo Essentials" "Chioma Okafor" "Igbo"
      "Intermediate" "6 weeks" 1832 (48 # 10) "₦18,000"
      "Professional Igbo for business settings. Learn formal communication and cultural business practices.";
    mkCourse 3 "Hausa Conversation Mastery" "Musa Abdullahi" "Hausa"
      "Intermediate" "10 weeks" 1456 (47 # 10) "Free"
      "Advanced conversational Hausa for fluent communication in Northern Nigeria and beyond." ].

End Index.

(** ** The catalogue the page builds: [fetchRealCourses] and the handlers
       of [src/pages/Index.tsx] *)

Module Catalog.

Import Js Index.

(** A row of the [courses] query, lines 90-98, with the joined profile
    name and enrolment count.  [full_name] is [None] when the profile or
    its name is missing, [enrollmentCount] when the count is.  Prices are
    whole numbers. *)
Record DbCourse : Type := mkDbCourse {
  db_id : Z;
  db_title : string;
  full_name : option string;
  db_language : string;
  db_level : string;
  duration_weeks : Z;
  enrollmentCount : option Z;
  db_price : Z;
  db_description : string
}.

(** The decimal digits of a non-negative whole number, most significant
    first; [fuel] bounds their number. *)
Fixpoint digitsFuel (fuel : nat) (n : Z) (acc : list nat) : list nat :=
  match fuel with
  | O => acc
  | S fuel' =>
      let acc' := Z.to_nat (n mod 10) :: acc in
      if (n / 10 =? 0)%Z then acc' else digitsFuel fuel' (n / 10) acc'
  end.

Definition decimalDigits (n : Z) : list nat :=
  digitsFuel (S (Z.to_nat (Z.log2 n))) n [].

Definition digitChar (d : nat) : ascii := ascii_of_nat (48 + d).

(** Digits in groups of three from the right, with commas between. *)
Fixpoint grouped (ds : list nat) : string :=
  match ds with
  | [] => EmptyString
  | d :: r =>
      String (digitChar d)
        (if (0 <? List.length r)%nat && (List.length r mod 3 =? 0)%nat
         then String "," (grouped r) else grouped r)
  end.

(** [n.toLocaleString()] of a whole number in a locale that groups by
    thousands with commas (en-US, en-NG), the grouping that
    [price.replace(/[₦,]/g, '')] undoes. *)
Definition toLocaleString (n : Z) : string :=
  if (n <? 0)%Z then String "-" (grouped (decimalDigits (- n)))
  else grouped (decimalDigits n).

(** [course.price === 0 ? "Free" : `₦${course.price.toLocaleString()}`] *)
Definition formatPrice (p : Z) : string :=
  if (p =? 0)%Z then "Free" else ("₦" ++ toLocaleString p)%string.

(** The mapping of lines 102-114 (the image left out). *)
Definition mapCourse (course : DbCourse) : Course :=
  mkCourse (db_id course) (db_title course)
    (match full_name course with
     | Some n => if truthy n then n else "Unknown Instructor"
     | None => "Unknown Instructor"
     end)
    (db_language course) (db_level course)
    (NilZero.string_of_int (Z.to_int (duration_weeks course)) ++ " weeks")%string
    (match enrollmentCount course with
     | Some c => c
     | None => 0%Z
     end)
    (48 # 10)
    (formatPrice (db_price course))
    (db_description course).

(** [fetchRealCourses], lines 88-126, as the list it hands to
    [setCourses]; [data] is [None] when the query gave no data or threw. *)
Definition fetchRealCourses (data : option (list DbCourse)) : list Course :=
  match data with
  | Some rows =>
      if (0 <? List.length rows)%nat then map mapCourse rows else mockCourses
  | None => mockCourses
  end.

End Catalog.

Module SearchAndFilter.

Import Js.

(** The [filters] object; an absent or [undefined] key is [None]. *)
Record Filters : Type := mkFilters {
  language : option string;
  level : option string;
  price : option string
}.

(** A value in a condition. *)
Definition truthyOpt (v : option string) : bool :=
  match v with
  | Some s => truthy s
  | None => false
  end.

(** [value === 'all' ? undefined : value] *)
Definition unlessAll (value : string) : option string :=
  if String.eqb value "all" then None else Some value.

(** The three [onValueChange] handlers, as the object they hand to
    [onFilter]. *)
Definition selectLanguage (filters : Filters) (value : string) : Filters :=
  mkFilters (unlessAll value) (level filters) (price filters).

Definition selectLevel (filters : Filters) (value : string) : Filters :=
  mkFilters (language filters) (unlessAll value) (price filters).

Definition selectPrice (filters : Filters) (value : string) : Filters :=
  mkFilters (language filters) (level filters) (unlessAll value).

(** [clearFilters] hands [{}] to [onFilter]. *)
Definition clearFilters : Filters := mkFilters None None None.

Definition isActive (v : option string) : bool :=
  match v with
  | Some s => truthy s && negb (String.eqb s "all")
  | None => false
  end.

Definition hasActiveFilters (filters : Filters) : bool :=
  existsb isActive [language filters; level filters; price filters].

(** The values of the sort [Select]. *)
Definition sortOptions : list string :=
  ["newest"; "oldest"; "title_asc"; "title_desc"; "price_low"; "price_high"].

End SearchAndFilter.

Module IndexPage.

Import Js Index.

(** The state of the page that the pipeline reads. *)
Record Page : Type := mkPage {
  catalogue : list Course;
  searchQuery : string;
  selectedLanguage : string;
  selectedLevel : string;
  sortBy : string
}.

(** What the effect of lines 75-77 leaves in [filteredCourses]. *)
Definition displayed (p : Page) : list Course :=
  applyFilters (catalogue p) (searchQuery p) (selectedLanguage p)
    (selectedLevel p) (sortBy p).

(** The [filters] prop handed to [SearchAndFilter], lines 264-267. *)
Definition filtersProp (p : Page) : SearchAndFilter.Filters :=
  SearchAndFilter.mkFilters (Some (selectedLanguage p)) (Some (selectedLevel p))
    None.

(** The [onFilter] prop, lines 258-261. *)
Definition onFilter (p : Page) (filters : SearchAndFilter.Filters) : Page :=
  let p1 :=
    match SearchAndFilter.language filters with
    | Some l => if truthy l
                then mkPage (catalogue p) (searchQuery p) l (selectedLevel p)
                       (sortBy p)
                else p
    | None => p
    end in
  match SearchAndFilter.level filters with
  | Some l => if truthy l
              then mkPage (catalogue p1) (searchQuery p1) (selectedLanguage p1)
                     l (sortBy p1)
              else p1
  | None => p1
  end.

(** [onSort] and [onLanguageChange] are the state setters. *)
Definition onSort (p : Page) (value : string) : Page :=
  mkPage (catalogue p) (searchQuery p) (selectedLanguage p) (selectedLevel p)
    value.

Definition onLanguageChange (p : Page) (value : string) : Page :=
  mkPage (catalogue p) (searchQuery p) value (selectedLevel p) (sortBy p).

(** The "Clear Filters" button of the empty result, lines 290-294. *)
Definition clearFilters (p : Page) : Page :=
  mkPage (catalogue p) "" "" "" (sortBy p).

End IndexPage.

(** ** The orders that the sort keys stand for *)

Module Ordering.

Import Js Index.

(** The number a sort key compares courses by; the keys that do not sort
    have none. *)
Definition keyOf (sortBy : string) (c : Course) : number :=
  if String.eqb sortBy "popular" then ofZ (students c)
  else if String.eqb sortBy "rating" then Fin (rating c)
  else if String.eqb sortBy "price-low" then parsePrice (price c)
  else if String.eqb sortBy "price-high" then parsePrice (price c)
  else ofZ 0.

Definition isPriceKey (sortBy : string) : bool :=
  String.eqb sortBy "price-low" || String.eqb sortBy "price-high".

(** The price of [c] holds a number. *)
Definition parses (c : Course) : Prop := parsePrice (price c) <> NaN.

(** The ordering relation of each sort key between the list that was
    filtered, [input], and the list that is displayed, [out]. *)
Definition ordered (sortBy : string) (input out : list Course) : Prop :=
  if String.eqb sortBy "popular" then
    StronglySorted (fun a b => (students b <= students a)%Z) out
  else if String.eqb sortBy "rating" then
    StronglySorted (fun a b => (rating b <= rating a)%Q) out
  else if String.eqb sortBy "newest" then out = input
  else if String.eqb sortBy "price-low" then
    StronglySorted (fun a b => le (parsePrice (price a)) (parsePrice (price b))) out
  else if String.eqb sortBy "price-high" then
    StronglySorted (fun a b => le (parsePrice (price b)) (parsePrice (price a))) out
  else out = input.

(** Stability: the courses of any one key value come out in the order they
    went in. *)
Definition stable (sortBy : string) (input out : list Course) : Prop :=
  forall k : number,
    List.filter (fun c => eqb (keyOf sortBy c) k) out =
    List.filter (fun c => eqb (keyOf sortBy c) k) input.

(** The price parse in the words of the specification, to compare with
    [parsePrice]: "Free" is 0, everything that is not a digit is stripped,
    and a string that leaves no digit is 0. *)
Fixpoint keepDigits (s : string) : list Z :=
  match s with
  | EmptyString => []
  | String c r =>
      match digitOf c with
      | Some d => d :: keepDigits r
      | None => keepDigits r
      end
  end.

Definition specParsePrice (p : string) : number :=
  if String.eqb p "Free" then ofZ 0 else ofZ (decimal (keepDigits p)).

(** The condition of the three filter steps taken together. *)
Definition passes (searchQuery selectedLanguage selectedLevel : string)
    (c : Course) : bool :=
  (negb (truthy searchQuery) || matchesQuery searchQuery c) &&
  (negb (isSet selectedLanguage) || matchesLanguage selectedLanguage c) &&
  (negb (isSet selectedLevel) || matchesLevel selectedLevel c).

(** The "price-low" comparator over the specification's parse. *)
Definition specByPriceLow (a b : Course) : number :=
  sub (specParsePrice (price a)) (specParsePrice (price b)).

(** Two courses for the examples: one priced in naira, one whose price
    holds no number. *)
Definition naira200 : Course :=
  mkCourse 10 "Pidgin for Travellers" "Ngozi Eze" "Pidgin" "Beginner"
    "4 weeks" 120 (48 # 10) "₦200" "Everyday Pidgin.".

Definition unpriced : Course :=
  mkCourse 11 "Hausa Proverbs" "Musa Abdullahi" "Hausa" "Advanced"
    "2 weeks" 80 (48 # 10) "N/A" "Proverbs and their use.".

(** A price as [fetchRealCourses] formats it: naira signs, commas and
    decimal digits. *)
Inductive PriceToken : Type :=
  | Naira
  | Comma
  | Digit (d : nat).

Definition renderToken (t : PriceToken) : string :=
  match t with
  | Naira => "₦"
  | Comma => ","
  | Digit d => String (ascii_of_nat (48 + d)) EmptyString
  end.

Definition render (ts : list PriceToken) : string :=
  fold_right (fun t s => String.append (renderToken t) s) EmptyString ts.

Definition tokenDigits (ts : list PriceToken) : list Z :=
  flat_map (fun t => match t with Digit d => [Z.of_nat d] | _ => [] end) ts.

Definition isDigitToken (t : PriceToken) : bool :=
  match t with Digit _ => true | _ => false end.

Definition wellFormed (ts : list PriceToken) : Prop :=
  Forall (fun t => match t with Digit d => (d <= 9)%nat | _ => True end) ts.

End Ordering.

(** ** [applyFilters] on the store

    [courses] and [filteredCourses] are state variables that hold arrays
    by reference.  [[...courses]] and [filter] allocate a new array;
    [sort] rewrites the array it is called on. *)

Module IndexState.

Import Js Index.

(** A reference is an address of the store. *)
Abbreviation ref := nat (only parsing).

Record State : Type := mkState {
  store : gmap nat (list Course);
  courses : ref;
  filteredCourses : ref
}.

(** Steps that read and write the store; [None] is a dangling reference. *)
Definition M (A : Type) : Type :=
  gmap nat (list Course) -> option (A * gmap nat (list Course)).

Definition ret {A} (a : A) : M A := fun h => Some (a, h).

Definition bind {A B} (m : M A) (k : A -> M B) : M B :=
  fun h => match m h with
           | Some (a, h') => k a h'
           | None => None
           end.

Notation "x <- m ;; k" := (bind m (fun x => k))
  (at level 100, m at next level, right associativity).

Definition alloc (l : list Course) : M ref :=
  fun h => let r := fresh (dom h) in Some (r, <[r := l]> h).

Definition read (r : ref) : M (list Course) :=
  fun h => match h !! r with
           | Some l => Some (l, h)
           | None => None
           end.

Definition write (r : ref) (l : list Course) : M unit :=
  fun h => match h !! r with
           | Some _ => Some (tt, <[r := l]> h)
           | None => None
           end.

(** [[...arr]] *)
Definition spread (r : ref) : M ref := l <- read r ;; alloc l.

(** [arr.filter(p)] *)
Definition filterArray (p : Course -> bool) (r : ref) : M ref :=
  l <- read r ;; alloc (List.filter p l).

(** [arr.sort(comparefn)]: in place, the same reference. *)
Definition sortArray (comparefn : Course -> Course -> number) (r : ref) : M ref :=
  l <- read r ;; _ <- write r (sort comparefn l) ;; ret r.

Definition applyFiltersM (coursesRef : ref)
    (searchQuery selectedLanguage selectedLevel sortBy : string) : M ref :=
  filtered <- spread coursesRef ;;
  filtered <- (if truthy searchQuery
               then filterArray (matchesQuery searchQuery) filtered
               else ret filtered) ;;
  filtered <- (if isSet selectedLanguage
               then filterArray (matchesLanguage selectedLanguage) filtered
               else ret filtered) ;;
  filtered <- (if isSet selectedLevel
               then filterArray (matchesLevel selectedLevel) filtered
               else ret filtered) ;;
  filtered <- (if String.eqb sortBy "popular" then sortArray byStudents filtered
               else if String.eqb sortBy "rating" then sortArray byRating filtered
               else if String.eqb sortBy "newest" then ret filtered
               else if String.eqb sortBy "price-low" then sortArray byPriceLow filtered
               else if String.eqb sortBy "price-high" then sortArray byPriceHigh filtered
               else ret filtered) ;;
  ret filtered.

(** [applyFilters] with its last line, [setFilteredCourses(filtered)]. *)
Definition applyFilters (st : State)
    (searchQuery selectedLanguage selectedLevel sortBy : string) : option State :=
  match applyFiltersM (courses st) searchQuery selectedLanguage selectedLevel
          sortBy (store st) with
  | Some (filtered, h) => Some (mkState h (courses st) filtered)
  | None => None
  end.

(** What holds of the working array [r] while [applyFiltersM] runs from
    the store [h0]: it holds [content], it was not allocated in [h0], and
    every array of [h0] is as it was. *)
Definition working (h0 : gmap nat (list Course)) (content : list Course)
    (res : ref * gmap nat (list Course)) : Prop :=
  let (r, h) := res in
  h !! r = Some content /\
  h0 !! r = None /\
  (forall r' v, h0 !! r' = Some v -> h !! r' = Some v).

End IndexState.

(** The tokens of a grouped number, to compare [Catalog.grouped] with
    [Ordering.render]. *)

Module CatalogTokens.

Import Ordering.

Fixpoint groupTokens (ds : list nat) : list PriceToken :=
  match ds with
  | [] => []
  | d :: r =>
      Digit d ::
      (if (0 <? List.length r)%nat && (List.length r mod 3 =? 0)%nat
       then Comma :: groupTokens r else groupTokens r)
  end.

End CatalogTokens.

(** ** The file uploader: [src/components/FileUploader.tsx] *)

Module FileUploader.

Import Js.

(** A browser [File]; [handle] stands for the identity of the object,
    which [f.file === file] compares. *)
Record File : Type := mkFile {
  handle : nat;
  name : string;
  size : Z;
  type : string
}.

(** The props that the upload reads; [maxSize] is in MB (100 by default),
    [accept] is ["*/*"] by default. *)
Record Props : Type := mkProps {
  bucket : string;
  folder : string;
  accept : string;
  maxSize : Z
}.

Inductive Status : Type := uploading | completed | error.

Record UploadingFile : Type := mkUploadingFile {
  file : File;
  progress : Z;
  status : Status;
  url : option string;
  errorText : option string
}.

(** What the component does to the outside, in the order it does it.
    [OnUploadError] and [OnUploadComplete] are the calls of the optional
    callbacks. *)
Inductive Event : Type :=
  | ToastError (message : string)
  | ToastSuccess (message : string)
  | OnUploadError (message : string)
  | OnUploadComplete (publicUrl fileName : string)
  | StorageUpload (bucketName filePath : string) (f : File)
  | GetPublicUrl (bucketName filePath : string).

Definition isTransfer (e : Event) : bool :=
  match e with StorageUpload _ _ _ => true | _ => false end.

(** A whole number in a template literal. *)
Definition showZ (z : Z) : string := NilZero.string_of_int (Z.to_int z).

(** The [some] of lines 49-51. *)
Definition isAccepted (acceptText : string) (f : File) : bool :=
  let acceptedTypes := map trim (split "," acceptText) in
  let fileExtension :=
    ("." ++ match pop (split "." (name f)) with
            | Some ext => toLowerCase ext
            | None => "undefined"
            end)%string in
  let mimeType := type f in
  existsb (fun t => String.eqb t mimeType || String.eqb t fileExtension
                    || String.eqb t "*/*") acceptedTypes.

Definition validateFile (props : Props) (f : File) : option string :=
  if (maxSize props * 1024 * 1024 <? size f)%Z then
    Some ("File size exceeds " ++ showZ (maxSize props) ++ "MB limit")%string
  else if negb (String.eqb (accept props) "*/*") then
    if negb (isAccepted (accept props) f) then
      Some ("File type not supported. Accepted types: " ++ accept props)%string
    else None
  else None.

(** The check that [validateFile] makes of the type, lines 44-57: it is
    passed when [accept] is ["*/*"] or [isAccepted] holds. *)
Definition inAcceptedSet (props : Props) (f : File) : bool :=
  String.eqb (accept props) "*/*" || isAccepted (accept props) f.

(** The accepted set in the words of the specification, to compare with
    the check above.  The extension of a file is the text after the last
    dot of its name; a name without a dot has none. *)
Definition extension (f : File) : option string :=
  if includes (name f) "." then pop (split "." (name f)) else None.

(** The file's MIME type, or the dot and its extension in lower case, is
    one of the accepted types; every file is in the set ["*/*"]. *)
Definition inConfiguredSet (props : Props) (f : File) : bool :=
  String.eqb (accept props) "*/*" ||
  existsb (fun t => String.eqb t (type f)
                    || match extension f with
                       | Some ext => String.eqb t ("." ++ toLowerCase ext)
                       | None => false
                       end
                    || String.eqb t "*/*")
    (map trim (split "," (accept props))).

(** A file without an extension, for the examples: the browser gives such
    a file the empty MIME type. *)
Definition dotless : File := mkFile 1 "pdf" 2048 "".

Definition documents : Props := mkProps "course-materials" "docs" ".pdf,.docx" 100.

(** What [supabase.storage.upload] answers. *)
Inductive UploadResult : Type :=
  | Stored (publicUrl : string)
  | Failed (message : string).

Definition sameFile (a b : File) : bool := Nat.eqb (handle a) (handle b).

(** One run of [uploadFile], lines 61-120, from the tracked list
    [uploadingFiles]: the updated list and the events.  [random] is
    [Math.random().toString(36).substring(2)] and [result] the answer of
    the storage service. *)
Definition uploadFile (props : Props) (f : File) (random : string)
    (result : UploadResult) (uploadingFiles : list UploadingFile)
    : list UploadingFile * list Event :=
  match validateFile props f with
  | Some validation =>
      (uploadingFiles, [ToastError validation; OnUploadError validation])
  | None =>
      let fileExt := match pop (split "." (name f)) with
                     | Some ext => ext
                     | None => "undefined"
                     end in
      let fileName := (random ++ "." ++ fileExt)%string in
      let filePath :=
        if truthy (folder props) then (folder props ++ "/" ++ fileName)%string
        else fileName in
      let newFile := mkUploadingFile f 0 uploading None None in
      let tracked := uploadingFiles ++ [newFile] in
      match result with
      | Stored publicUrl =>
          (map (fun u => if sameFile (file u) f
                         then mkUploadingFile (file u) 100 completed
                                (Some publicUrl) (errorText u)
                         else u) tracked,
           [StorageUpload (bucket props) filePath f;
            GetPublicUrl (bucket props) filePath;
            ToastSuccess (name f ++ " uploaded successfully")%string;
            OnUploadComplete publicUrl (name f)])
      | Failed message =>
          let errorMessage :=
            if truthy message then message else "Upload failed" in
          (map (fun u => if sameFile (file u) f
                         then mkUploadingFile (file u) 0 error (url u)
                                (Some errorMessage)
                         else u) tracked,
           [StorageUpload (bucket props) filePath f;
            ToastError ("Failed to upload " ++ name f ++ ": " ++ errorMessage)%string;
            OnUploadError errorMessage])
      end
  end.

(** [removeFile], lines 134-136. *)
Definition removeFile (f : File) (uploadingFiles : list UploadingFile)
    : list UploadingFile :=
  List.filter (fun u => negb (sameFile (file u) f)) uploadingFiles.

(** The [fileExtension] of line 46. *)
Definition fileExtension (f : File) : string :=
  ("." ++ match pop (split "." (name f)) with
          | Some ext => toLowerCase ext
          | None => "undefined"
          end)%string.

Definition isUpperCase (c : ascii) : bool :=
  let n := nat_of_ascii c in ((65 <=? n) && (n <=? 90))%nat.

Fixpoint hasUpperCase (s : string) : bool :=
  match s with
  | EmptyString => false
  | String c r => isUpperCase c || hasUpperCase r
  end.

Definition isComplete (e : Event) : bool :=
  match e with OnUploadComplete _ _ => true | _ => false end.

End FileUploader.

(** ** The quiz form: [src/components/QuizManager.tsx] *)

Module QuizManager.

Import Js.

Record Question : Type := mkQuestion {
  qid : string;
  question : string;
  options : list string;
  correctAnswer : Z;
  explanation : option string
}.

Record Quiz : Type := mkQuiz {
  id : string;
  title : string;
  description : option string;
  questions : list Question;
  passing_score : Z;
  time_limit_minutes : option Z
}.

(** The form state that [handleSubmit] reads. *)
Record Form : Type := mkForm {
  lessonId : string;
  formTitle : string;
  formDescription : string;
  passingScore : Z;
  timeLimit : option Z;
  formQuestions : list Question;
  editingQuiz : option Quiz
}.

(** The row sent to the [quizzes] table. *)
Record QuizData : Type := mkQuizData {
  lesson_id : string;
  dataTitle : string;
  dataDescription : option string;
  dataQuestions : list Question;
  dataPassingScore : Z;
  dataTimeLimit : option Z
}.

Inductive Event : Type :=
  | ToastError (message : string)
  | ToastSuccess (message : string)
  | Update (quizId : string) (data : QuizData)
  | Insert (data : QuizData)
  | SetDialogOpen (open : bool)
  | FetchQuizzes
  | OnQuizCreated.

(** The calls that reach the data service. *)
Definition isNetwork (e : Event) : bool :=
  match e with
  | Update _ _ | Insert _ | FetchQuizzes => true
  | _ => false
  end.

(** The calls that save the draft. *)
Definition isSave (e : Event) : bool :=
  match e with
  | Update _ _ | Insert _ => true
  | _ => false
  end.

(** [!q.question.trim() || q.options.some(opt => !opt.trim())] *)
Definition invalid (q : Question) : bool :=
  isEmpty (trim (question q)) ||
  existsb (fun opt => isEmpty (trim opt)) (options q).

(** [x || null] for a string and for a number. *)
Definition orNullString (s : string) : option string :=
  if truthy s then Some s else None.

Definition orNullNumber (n : option Z) : option Z :=
  match n with
  | Some z => if (z =? 0)%Z then None else Some z
  | None => None
  end.

(** [handleSubmit], lines 131-182; [serviceError] tells whether the data
    service answered the save with an error. *)
Definition handleSubmit (form : Form) (serviceError : bool) : list Event :=
  if (List.length (formQuestions form) =? 0)%nat then
    [ToastError "Please add at least one question"]
  else
    let invalidQuestions := List.filter invalid (formQuestions form) in
    if (0 <? List.length invalidQuestions)%nat then
      [ToastError "Please fill in all question fields"]
    else
      let quizData :=
        mkQuizData (lessonId form) (formTitle form)
          (orNullString (formDescription form)) (formQuestions form)
          (passingScore form) (orNullNumber (timeLimit form)) in
      let save :=
        match editingQuiz form with
        | Some quiz => Update (id quiz) quizData
        | None => Insert quizData
        end in
      if serviceError then [save; ToastError "Failed to save quiz"]
      else
        [save;
         ToastSuccess (match editingQuiz form with
                       | Some _ => "Quiz updated successfully"
                       | None => "Quiz created successfully"
                       end);
         SetDialogOpen false; FetchQuizzes; OnQuizCreated].

Definition withQuestions (form : Form) (qs : list Question) : Form :=
  mkForm (lessonId form) (formTitle form) (formDescription form)
    (passingScore form) (timeLimit form) qs (editingQuiz form).

(** [addQuestion], lines 95-104; [newId] is the random id. *)
Definition addQuestion (form : Form) (newId : string) : Form :=
  let newQuestion := mkQuestion newId "" [""; ""; ""; ""] 0 (Some "") in
  withQuestions form (formQuestions form ++ [newQuestion]).

(** The [field] and [value] of [updateQuestion]. *)
Inductive FieldValue : Type :=
  | SetId (value : string)
  | SetQuestion (value : string)
  | SetOptions (value : list string)
  | SetCorrectAnswer (value : Z)
  | SetExplanation (value : string).

(** [{ ...q, [field]: value }] *)
Definition setField (q : Question) (fv : FieldValue) : Question :=
  match fv with
  | SetId v => mkQuestion v (question q) (options q) (correctAnswer q)
                 (explanation q)
  | SetQuestion v => mkQuestion (qid q) v (options q) (correctAnswer q)
                       (explanation q)
  | SetOptions v => mkQuestion (qid q) (question q) v (correctAnswer q)
                      (explanation q)
  | SetCorrectAnswer v => mkQuestion (qid q) (question q) (options q) v
                            (explanation q)
  | SetExplanation v => mkQuestion (qid q) (question q) (options q)
                          (correctAnswer q) (Some v)
  end.

(** [updateQuestion], lines 106-112. *)
Definition updateQuestion (form : Form) (index : nat) (fv : FieldValue) : Form :=
  withQuestions form
    (imap (fun i q => if Nat.eqb i index then setField q fv else q)
       (formQuestions form)).

(** [arr.filter((_, i) => keep i)], counting from [i]. *)
Fixpoint filterIndex {A} (keep : nat -> bool) (i : nat) (l : list A) : list A :=
  match l with
  | [] => []
  | x :: r =>
      if keep i then x :: filterIndex keep (S i) r
      else filterIndex keep (S i) r
  end.

(** [removeQuestion], lines 114-116. *)
Definition removeQuestion (form : Form) (index : nat) : Form :=
  withQuestions form
    (filterIndex (fun i => negb (Nat.eqb i index)) 0 (formQuestions form)).

(** [updateQuestionOption], lines 118-129. *)
Definition updateQuestionOption (form : Form) (questionIndex optionIndex : nat)
    (value : string) : Form :=
  withQuestions form
    (imap (fun i q =>
             if Nat.eqb i questionIndex then
               mkQuestion (qid q) (question q)
                 (imap (fun oi opt => if Nat.eqb oi optionIndex then value
                                      else opt) (options q))
                 (correctAnswer q) (explanation q)
             else q)
       (formQuestions form)).

(** [openEditDialog], lines 85-93: the form it fills in. *)
Definition openEditDialog (form : Form) (quiz : Quiz) : Form :=
  mkForm (lessonId form) (title quiz)
    (match description quiz with
     | Some d => d
     | None => ""
     end)
    (passing_score quiz) (orNullNumber (time_limit_minutes quiz))
    (questions quiz) (Some quiz).

(** [resetForm], lines 71-78. *)
Definition resetForm (form : Form) : Form :=
  mkForm (lessonId form) "" "" 70 None [] None.

(** Every question has four options. *)
Definition fourOptions (form : Form) : Prop :=
  Forall (fun q => List.length (options q) = 4%nat) (formQuestions form).

End QuizManager.

(** ** The notification list: [NotificationCenter] *)

Module NotificationCenter.

Inductive NotificationType : Type :=
  | course_enrollment | lesson_completed | achievement | course_updated
  | system.

Record Notification : Type := mkNotification {
  id : string;
  type : NotificationType;
  title : string;
  message : string;
  read : bool;
  created_at : string;
  action_url : option string
}.

Record State : Type := mkState {
  notifications : list Notification;
  unreadCount : Z
}.

(** The handler of the INSERT subscription, lines 37-41: the two state
    updates (the toast is left out). *)
Definition onInsert (payloadNew : Notification) (st : State) : State :=
  mkState (payloadNew :: notifications st) (unreadCount st + 1).

(** [markAsRead], lines 96-103. *)
Definition markAsRead (notificationId : string) (st : State) : State :=
  mkState
    (map (fun n => if String.eqb (id n) notificationId
                   then mkNotification (id n) (type n) (title n) (message n)
                          true (created_at n) (action_url n)
                   else n) (notifications st))
    (Z.max 0 (unreadCount st - 1)).

(** [markAllAsRead], lines 105-109. *)
Definition markAllAsRead (st : State) : State :=
  mkState
    (map (fun n => mkNotification (id n) (type n) (title n) (message n) true
                     (created_at n) (action_url n)) (notifications st))
    0.

(** [deleteNotification], lines 111-118. *)
Definition deleteNotification (notificationId : string) (st : State) : State :=
  let wasUnread :=
    match List.find (fun n => String.eqb (id n) notificationId)
            (notifications st) with
    | Some n => negb (read n)
    | None => false
    end in
  mkState
    (List.filter (fun n => negb (String.eqb (id n) notificationId))
       (notifications st))
    (if wasUnread then Z.max 0 (unreadCount st - 1) else unreadCount st).

(** The number of unread notifications in the list, which the badge is
    meant to show. *)
Definition unread (st : State) : Z :=
  Z.of_nat (List.length (List.filter (fun n => negb (read n)) (notifications st))).

Definition consistent (st : State) : Prop := unreadCount st = unread st.

(** [formatTimeAgo], lines 135-145, from the two times in milliseconds;
    [localeDate] is [date.toLocaleDateString()]. *)
Definition formatTimeAgo (nowMs dateMs : Z) (localeDate : string) : string :=
  let diffInSeconds := ((nowMs - dateMs) / 1000)%Z in
  if (diffInSeconds <? 60)%Z then "Just now"
  else if (diffInSeconds <? 3600)%Z then
    (NilZero.string_of_int (Z.to_int (diffInSeconds / 60)) ++ " minutes ago")%string
  else if (diffInSeconds <? 86400)%Z then
    (NilZero.string_of_int (Z.to_int (diffInSeconds / 3600)) ++ " hours ago")%string
  else if (diffInSeconds <? 604800)%Z then
    (NilZero.string_of_int (Z.to_int (diffInSeconds / 86400)) ++ " days ago")%string
  else localeDate.

Definition isUnread (n : Notification) : bool := negb (read n).

(** [{ ...n, read: true }] *)
Definition markRead (n : Notification) : Notification :=
  mkNotification (id n) (type n) (title n) (message n) true (created_at n)
    (action_url n).

(** A notification for the examples. *)
Definition sampleNotification (i : string) (isRead : bool) : Notification :=
  mkNotification i system "Update" "..." isRead "2025-01-01T00:00:00Z" None.

End NotificationCenter.

(** ** Enrolment: [EnrollmentButton] and [src/pages/CourseDetail.tsx] *)

Module Enrollments.

Import Js.

Record Profile : Type := mkProfile {
  id : string;
  role : string
}.

Record Row : Type := mkRow {
  course_id : string;
  student_id : string;
  progress : Z
}.

(** The values of an [insert]; a column that is left out takes the
    table's default. *)
Record Values : Type := mkValues {
  v_course_id : string;
  v_student_id : string;
  v_progress : option Z
}.

Definition samePair (courseId studentId : string) (r : Row) : bool :=
  String.eqb (course_id r) courseId && String.eqb (student_id r) studentId.

(** The rows of one (course, student) pair. *)
Definition rowsOf (courseId studentId : string) (table : list Row) : list Row :=
  List.filter (samePair courseId studentId) table.

(** Modelled from the spec: the [enrollments] table of the data service,
    which is not in the sources.  It holds at most one row per (course,
    student) pair and rejects a duplicate creation; a new row starts with
    progress 0.  The rejection carries the code 23505 that
    [EnrollmentButton.handleEnroll] tests for.  [fault] is a failure of
    the service itself (network, authorisation), with its code. *)
Definition insert (fault : option string) (values : Values) (table : list Row)
    : list Row * option string :=
  match fault with
  | Some code => (table, Some code)
  | None =>
      if existsb (samePair (v_course_id values) (v_student_id values)) table
      then (table, Some "23505")
      else (table ++ [mkRow (v_course_id values) (v_student_id values)
                        (match v_progress values with
                         | Some p => p
                         | None => 0%Z
                         end)],
            None)
  end.

Inductive Event : Type :=
  | ToastError (message : string)
  | ToastSuccess (message : string)
  | Navigate (path : string)
  | ConsoleError (code : string)
  | CheckEnrollment
  | GetEnrollmentCount
  | OnEnrollmentChange.

End Enrollments.

Module EnrollmentButton.

Import Js Enrollments.

(** The props and the auth context of the button. *)
Record Props : Type := mkProps {
  courseId : string;
  courseName : string;
  isPublished : bool;
  user : bool;
  userProfile : option Profile
}.

(** [handleEnroll], lines 347-391 of the file that holds
    [EnrollmentButton]: the table after the click and the events. *)
Definition handleEnroll (props : Props) (fault : option string)
    (table : list Row) : list Row * list Event :=
  if negb (user props) then
    (table, [ToastError "Please sign in to enroll"; Navigate "/auth"])
  else
    match userProfile props with
    | None => (table, [ToastError "Only students can enroll in courses"])
    | Some profile =>
        if negb (String.eqb (role profile) "student") then
          (table, [ToastError "Only students can enroll in courses"])
        else if negb (isPublished props) then
          (table, [ToastError "This course is not yet published"])
        else
          match insert fault (mkValues (courseId props) (id profile) (Some 0%Z))
                  table with
          | (table', None) =>
              (table',
               [ToastSuccess ("Successfully enrolled in " ++ courseName props
                              ++ "!")%string;
                CheckEnrollment; GetEnrollmentCount; OnEnrollmentChange])
          | (table', Some code) =>
              (table',
               [ConsoleError code;
                if String.eqb code "23505"
                then ToastError "You are already enrolled in this course"
                else ToastError "Failed to enroll in course"])
          end
    end.

(** The local state that the render reads, and the [price] prop. *)
Record Local : Type := mkLocal {
  loading : bool;
  enrolling : bool;
  enrollment : option Row;
  completed_at : option string;
  price : Z
}.

(** The text of the button: "Enrolling...", "Not Published", "Enroll for
    ₦" followed by the amount, or "Enroll for Free". *)
Inductive Label : Type :=
  | Enrolling
  | NotPublished
  | EnrollFor (amount : string)
  | EnrollForFree.

(** What the component renders, lines 397-531: the spinner, the sign-in
    button, the teacher badge, the enrolled view (whether the progress bar
    shows, whether the button says "Continue Learning" rather than "Start
    Course", whether the completion badge shows), or the button that calls
    [handleEnroll]. *)
Inductive View : Type :=
  | Spinner
  | SignInButton (disabled : bool) (label : Label)
  | TeacherView
  | EnrolledView (progressBar continue completedBadge : bool)
  | EnrollButton (disabled : bool) (label : Label).

Definition isTeacher (profile : option Profile) : bool :=
  match profile with
  | Some p => String.eqb (role p) "teacher"
  | None => false
  end.

Definition view (props : Props) (st : Local) : View :=
  if loading st then Spinner
  else if negb (user props) then
    SignInButton (negb (isPublished props))
      (if negb (isPublished props) then NotPublished
       else if (0 <? price st)%Z
            then EnrollFor (NilZero.string_of_int (Z.to_int (price st)))
            else EnrollForFree)
  else if isTeacher (userProfile props) then TeacherView
  else
    match enrollment st with
    | Some row =>
        EnrolledView (0 <? progress row)%Z (0 <? progress row)%Z
          (match completed_at st with
           | Some t => truthy t
           | None => false
           end)
    | None =>
        EnrollButton (enrolling st || negb (isPublished props))
          (if enrolling st then Enrolling
           else if negb (isPublished props) then NotPublished
           else if (0 <? price st)%Z
                then EnrollFor (Catalog.toLocaleString (price st))
                else EnrollForFree)
    end.

End EnrollmentButton.

Module CourseDetail.

Import Js Enrollments.

(** The course row that the page has fetched. *)
Record Course : Type := mkCourse {
  id : string;
  teacher_id : string;
  is_published : bool
}.

Record Page : Type := mkPage {
  courseId : string;
  course : Course;
  user : bool;
  userProfile : option Profile
}.

(** [handleEnroll], lines 79-107. *)
Definition handleEnroll (page : Page) (fault : option string)
    (table : list Row) : list Row * list Event :=
  if negb (user page) then (table, [Navigate "/auth"])
  else
    match userProfile page with
    | None => (table, [ToastError "Only students can enroll in courses"])
    | Some profile =>
        if negb (String.eqb (role profile) "student") then
          (table, [ToastError "Only students can enroll in courses"])
        else
          match insert fault
                  (mkValues (courseId page) (Enrollments.id profile) None)
                  table with
          | (table', Some _) =>
              (table', [ToastError "Failed to enroll in course"])
          | (table', None) =>
              (table',
               [ToastSuccess "Successfully enrolled in course!";
                CheckEnrollment])
          end
    end.

(** The sidebar, lines 291-341, and [canAccessLessons], lines 122-124.
    [enrollment] is the row that [checkEnrollment] found, [enrolling] the
    flag of a click in progress. *)
Inductive View : Type :=
  | SignUpToEnroll
  | ManageCourse
  | SwitchToStudent
  | Enrolled
  | EnrollNow (disabled : bool).

Definition isOwner (page : Page) : bool :=
  match userProfile page with
  | Some p => String.eqb (Enrollments.id p) (teacher_id (course page))
  | None => false
  end.

Definition isStudent (page : Page) : bool :=
  match userProfile page with
  | Some p => String.eqb (role p) "student"
  | None => false
  end.

Definition view (page : Page) (enrollment : option Row) (enrolling : bool) : View :=
  if negb (user page) then SignUpToEnroll
  else if isOwner page then ManageCourse
  else if negb (isStudent page) then SwitchToStudent
  else match enrollment with
       | Some _ => Enrolled
       | None => EnrollNow enrolling
       end.

Definition canAccessLessons (page : Page) (enrollment : option Row) : bool :=
  isOwner page ||
  match enrollment with
  | Some _ => true
  | None => false
  end.

End CourseDetail.

(** ** Lesson management: [LessonManagement] *)

Module LessonManagement.

Import Js.

Record Lesson : Type := mkLesson {
  id : string;
  course_id : string;
  title : string;
  description : string;
  type : string;
  order_index : Z;
  video_url : option string;
  duration_minutes : option Z;
  content : option string
}.

(** The fields of the form.  [duration] is
    [parseInt(formData.get('duration_minutes')) || null]. *)
Record FormData : Type := mkFormData {
  f_title : string;
  f_description : string;
  f_type : string;
  f_video_url : string;
  f_duration : option Z;
  f_content : string
}.

(** The page: the [lessons] table of the data service, and the state of
    the component. *)
Record Page : Type := mkPage {
  table : list Lesson;
  courseId : string;
  lessons : list Lesson;
  editingLesson : option Lesson
}.

Definition byOrderIndex (a b : Lesson) : number :=
  sub (ofZ (order_index a)) (ofZ (order_index b)).

(** [select('*').eq('course_id', courseId).order('order_index')]: the rows
    of the course by ascending index.  Rows of one index come in the order
    of the table here; the service does not say in which order it returns
    them, so what is said of the order of a fetched list is said of rows
    with distinct indexes or of their indexes only. *)
Definition selectLessons (courseId : string) (table : list Lesson) : list Lesson :=
  Index.sort byOrderIndex
    (List.filter (fun l => String.eqb (course_id l) courseId) table).

(** [fetchLessons], lines 77-85. *)
Definition fetchLessons (page : Page) : Page :=
  mkPage (table page) (courseId page)
    (selectLessons (courseId page) (table page)) (editingLesson page).

(** [lessonData], lines 95-115, as the row it makes of the lesson [lid];
    the form's type is one of "video", "text" and "quiz". *)
Definition lessonData (page : Page) (form : FormData) (lid : string) : Lesson :=
  let order :=
    match editingLesson page with
    | Some editing => order_index editing
    | None => Z.of_nat (List.length (lessons page))
    end in
  if String.eqb (f_type form) "video" then
    mkLesson lid (courseId page) (f_title form) (f_description form)
      (f_type form) order (Some (f_video_url form)) (f_duration form)
      (Some (f_content form))
  else if String.eqb (f_type form) "text" then
    mkLesson lid (courseId page) (f_title form) (f_description form)
      (f_type form) order None None (Some (f_content form))
  else
    mkLesson lid (courseId page) (f_title form) (f_description form)
      (f_type form) order None None None.

(** [handleSubmit], lines 87-145.  [newId] is the id the service gives to
    an inserted row, [serviceError] whether it answers with an error. *)
Definition handleSubmit (page : Page) (form : FormData) (newId : string)
    (serviceError : bool) : Page :=
  if serviceError then page
  else
    match editingLesson page with
    | Some editing =>
        fetchLessons
          (mkPage
             (map (fun l => if String.eqb (id l) (id editing)
                            then lessonData page form (id l) else l)
                (table page))
             (courseId page) (lessons page) None)
    | None =>
        fetchLessons
          (mkPage (table page ++ [lessonData page form newId])
             (courseId page) (lessons page) None)
    end.

(** [handleDelete], lines 147-162; [confirmed] is the answer to the
    [confirm] dialog. *)
Definition handleDelete (page : Page) (lessonId : string)
    (confirmed serviceError : bool) : Page :=
  if negb confirmed then page
  else if serviceError then page
  else
    fetchLessons
      (mkPage
         (List.filter (fun l => negb (String.eqb (id l) lessonId)) (table page))
         (courseId page) (lessons page) (editingLesson page)).

(** One [update({ order_index }).eq('id', id)]. *)
Definition setOrderIndex (lid : string) (index : Z) (table : list Lesson)
    : list Lesson :=
  map (fun l => if String.eqb (id l) lid
                then mkLesson (id l) (course_id l) (title l) (description l)
                       (type l) index (video_url l) (duration_minutes l)
                       (content l)
                else l) table.

(** [reorderLessons], lines 164-179: the argument's lessons take their
    positions as indexes, one update after the other. *)
Definition reorderLessons (page : Page) (ordered : list Lesson) : Page :=
  let updates := combine (map id ordered)
                   (map Z.of_nat (seq 0 (List.length ordered))) in
  fetchLessons
    (mkPage
       (fold_left (fun t update => setOrderIndex (fst update) (snd update) t)
          updates (table page))
       (courseId page) (lessons page) (editingLesson page)).

(** The ordering indexes of the course's lessons, in index order. *)
Definition indexes (page : Page) : list Z :=
  map order_index (selectLessons (courseId page) (table page)).

(** Unique and contiguous from 0: the indexes are 0, 1, ..., n-1. *)
Definition contiguous (l : list Z) : Prop :=
  l = map Z.of_nat (seq 0 (List.length l)).

(** Three lessons of one course, and the form of a fourth. *)
Definition lessonAt (lid : string) (index : Z) : Lesson :=
  mkLesson lid "course-1" lid "" "text" index None None (Some "...").

Definition threeLessons : Page :=
  let rows := [lessonAt "a" 0; lessonAt "b" 1; lessonAt "c" 2] in
  mkPage rows "course-1" rows None.

Definition newLesson : FormData :=
  mkFormData "d" "" "text" "" None "...".

(** The page shows what the table holds. *)
Definition inSync (page : Page) : Prop :=
  lessons page = selectLessons (courseId page) (table page).

(** Where an id stands in a list of ids, counting from [start]; the
    lesson with the index of its place, to state what [reorderLessons]
    does to a row. *)
Fixpoint position (i : string) (ids : list string) (start : nat) : option nat :=
  match ids with
  | [] => None
  | j :: r => if String.eqb j i then Some start else position i r (S start)
  end.

Definition withIndex (l : Lesson) (index : Z) : Lesson :=
  mkLesson (id l) (course_id l) (title l) (description l) (type l) index
    (video_url l) (duration_minutes l) (content l).

Definition renumber (ids : list string) (start : nat) (l : Lesson) : Lesson :=
  match position (id l) ids start with
  | Some k => withIndex l (Z.of_nat k)
  | None => l
  end.

End LessonManagement.

(** ** Properties of the sort *)

Module SortFacts.

Import Js Index.

Section Generic.
Context {A : Type} (comparefn : A -> A -> number).

Lemma insert_perm (x : A) (l : list A) :
  Permutation (insert comparefn x l) (x :: l).
Proof.
  induction l as [|y l IH]; simpl; [reflexivity|].
  destruct (isPositive (comparefn x y)); [|reflexivity].
  rewrite IH. apply perm_swap.
Qed.

Lemma sort_perm (l : list A) : Permutation (sort comparefn l) l.
Proof.
  induction l as [|x l IH]; simpl; [constructor|].
  rewrite insert_perm. now constructor.
Qed.

(** Elements that the comparator never orders among themselves keep the
    order they came in: the sort is stable. *)
Lemma insert_stable (p : A -> bool) (x : A) (l : list A) :
  (forall a b, p a = true -> p b = true -> isPositive (comparefn a b) = false) ->
  List.filter p (insert comparefn x l) = List.filter p (x :: l).
Proof.
  intros tie. induction l as [|y l IH]; [reflexivity|].
  simpl insert. destruct (isPositive (comparefn x y)) eqn:E; [|reflexivity].
  simpl in *. rewrite IH.
  destruct (p x) eqn:Px, (p y) eqn:Py; try reflexivity.
  rewrite (tie x y Px Py) in E. discriminate.
Qed.

Lemma sort_stable (p : A -> bool) (l : list A) :
  (forall a b, p a = true -> p b = true -> isPositive (comparefn a b) = false) ->
  List.filter p (sort comparefn l) = List.filter p l.
Proof.
  intros tie. induction l as [|x l IH]; [reflexivity|].
  simpl sort. rewrite insert_stable by exact tie.
  simpl. now rewrite IH.
Qed.

(** The order the comparator asks for, [R], on the elements that
    satisfy [P]. *)
Lemma insert_sorted (P : A -> Prop) (R : A -> A -> Prop) (x : A) (l : list A) :
  (forall a b, P a -> P b -> isPositive (comparefn a b) = false -> R a b) ->
  (forall a b, P a -> P b -> isPositive (comparefn a b) = true -> R b a) ->
  (forall a b c, R a b -> R b c -> R a c) ->
  P x -> Forall P l ->
  StronglySorted R l -> StronglySorted R (insert comparefn x l).
Proof.
  intros keep move trans Px Pl Sl.
  induction l as [|y l IH]; simpl.
  - repeat constructor.
  - inversion Pl as [|? ? Py Pl']; subst.
    inversion Sl as [|? ? Sl' Hy]; subst.
    destruct (isPositive (comparefn x y)) eqn:E.
    + constructor; [now apply IH|].
      eapply Permutation_Forall; [symmetry; apply insert_perm|].
      constructor; [now apply (move x y)|exact Hy].
    + constructor; [exact Sl|].
      assert (Rxy : R x y) by now apply keep.
      constructor; [exact Rxy|].
      eapply List.Forall_impl; [|exact Hy]. intros z Ryz. now apply (trans x y z).
Qed.

Lemma sort_sorted (P : A -> Prop) (R : A -> A -> Prop) (l : list A) :
  (forall a b, P a -> P b -> isPositive (comparefn a b) = false -> R a b) ->
  (forall a b, P a -> P b -> isPositive (comparefn a b) = true -> R b a) ->
  (forall a b c, R a b -> R b c -> R a c) ->
  Forall P l -> StronglySorted R (sort comparefn l).
Proof.
  intros keep move trans Pl.
  induction l as [|x l IH]; simpl; [constructor|].
  inversion Pl as [|? ? Px Pl']; subst.
  apply (insert_sorted P R); auto.
  eapply Permutation_Forall; [symmetry; apply sort_perm|exact Pl'].
Qed.

(** A list on which the comparator is positive on no adjacent pair is
    left as it is; the output of [sort] is such a list as soon as the
    comparator is never positive both ways. *)
Lemma sort_inPlace (l : list A) : Sorted (inPlace comparefn) l -> sort comparefn l = l.
Proof.
  induction 1 as [|x l Sl IH Hd]; [reflexivity|].
  simpl. rewrite IH.
  destruct Hd as [|y l' Hxy]; [reflexivity|].
  simpl. unfold inPlace in Hxy. now rewrite Hxy.
Qed.

Lemma insert_inPlace (x : A) (l : list A) :
  (forall a b, isPositive (comparefn a b) = true ->
               isPositive (comparefn b a) = false) ->
  Sorted (inPlace comparefn) l -> Sorted (inPlace comparefn) (insert comparefn x l).
Proof.
  intros asym. induction 1 as [|y l Sl IH Hd]; simpl.
  - repeat constructor.
  - destruct (isPositive (comparefn x y)) eqn:E.
    + constructor; [exact IH|].
      destruct Hd as [|z l' Hyz]; simpl.
      * constructor. now apply asym.
      * destruct (isPositive (comparefn x z)); constructor;
          [exact Hyz | now apply asym].
    + constructor; [now constructor|]. now constructor.
Qed.

Lemma sort_idempotent (l : list A) :
  (forall a b, isPositive (comparefn a b) = true ->
               isPositive (comparefn b a) = false) ->
  sort comparefn (sort comparefn l) = sort comparefn l.
Proof.
  intros asym. apply sort_inPlace.
  induction l as [|x l IH]; simpl; [constructor|].
  now apply insert_inPlace.
Qed.
End Generic.

End SortFacts.

(** ** Facts about numbers and the comparators *)

Module NumberFacts.

Import Js Index.

Lemma isPositive_Fin (q : Q) : isPositive (Fin q) = true <-> (0 < q)%Q.
Proof.
  simpl. rewrite Qlt_alt. destruct (0 ?= q)%Q; split; congruence.
Qed.

Lemma isPositive_Fin_false (q : Q) : isPositive (Fin q) = false <-> (q <= 0)%Q.
Proof.
  rewrite <- not_true_iff_false, isPositive_Fin. split.
  - apply Qnot_lt_le.
  - apply Qle_not_lt.
Qed.

(** A comparator that subtracts is never positive both ways. *)
Lemma sub_asym (a b : number) :
  isPositive (sub a b) = true -> isPositive (sub b a) = false.
Proof.
  destruct a as [|x|s], b as [|y|t]; simpl sub; try (simpl; congruence).
  - rewrite isPositive_Fin, isPositive_Fin_false. lra.
  - simpl. destruct t; simpl; congruence.
  - simpl. destruct s; simpl; congruence.
  - destruct s, t; simpl; congruence.
Qed.

(** Away from NaN the sign of the difference is the order. *)
Lemma sub_keep (a b : number) :
  a <> NaN -> b <> NaN -> isPositive (sub a b) = false -> le a b.
Proof.
  destruct a as [|x|s], b as [|y|t]; try congruence; intros _ _; simpl sub.
  - rewrite isPositive_Fin_false. simpl. lra.
  - simpl. destruct t; simpl; congruence.
  - simpl. destruct s; simpl; congruence.
  - destruct s, t; simpl; auto; congruence.
Qed.

Lemma sub_move (a b : number) :
  isPositive (sub a b) = true -> le b a.
Proof.
  destruct a as [|x|s], b as [|y|t]; simpl sub; try (simpl; congruence).
  - rewrite isPositive_Fin. simpl. lra.
  - simpl. destruct t; simpl; congruence.
  - simpl. destruct s; simpl; congruence.
  - destruct s, t; simpl; auto; congruence.
Qed.

Lemma le_trans (a b c : number) : le a b -> le b c -> le a c.
Proof.
  destruct a as [|x|s], b as [|y|t], c as [|z|u]; simpl; intros H1 H2;
    try contradiction; try lra; intuition (subst; auto; congruence).
Qed.

(** Equal keys tie. *)
Lemma sub_tie (a b : number) :
  (exists k, eqb a k = true /\ eqb b k = true) -> isPositive (sub a b) = false.
Proof.
  intros [k [Ha Hb]].
  destruct a as [|x|s], k as [|z|u]; try discriminate;
    destruct b as [|y|t]; try discriminate; simpl in *.
  - apply Qeq_bool_iff in Ha, Hb. change (isPositive (Fin (x - y)) = false).
    rewrite isPositive_Fin_false. lra.
  - apply Bool.eqb_prop in Ha, Hb. subst. now rewrite Bool.eqb_reflx.
Qed.

Lemma byStudents_positive (a b : Course) :
  isPositive (byStudents a b) = true <-> (students a < students b)%Z.
Proof.
  unfold byStudents, ofZ. simpl sub. rewrite isPositive_Fin.
  rewrite Zlt_Qlt. lra.
Qed.

Lemma byRating_positive (a b : Course) :
  isPositive (byRating a b) = true <-> (rating a < rating b)%Q.
Proof.
  unfold byRating. simpl sub. rewrite isPositive_Fin. lra.
Qed.

(** A whole number below 2^53 in size needs no rounding. *)
Lemma exact_ofZ (z : Z) : (Z.abs z < 2 ^ 53)%Z -> exact (ofZ z).
Proof.
  intros H. exists z, 0%Z. repeat split; try lia.
  change (Qpower 2 0) with 1%Q. now rewrite Qmult_1_r.
Qed.


End NumberFacts.

(** ** The filter and sort pipeline *)

Module PipelineFacts.

Import Js Index Ordering SortFacts NumberFacts.

Lemma filter_and {A} (p q : A -> bool) (l : list A) :
  List.filter q (List.filter p l) = List.filter (fun x => p x && q x) l.
Proof.
  induction l as [|x l IH]; [reflexivity|]. simpl.
  destruct (p x); simpl; [destruct (q x)|]; now rewrite IH.
Qed.

Lemma filter_true {A} (l : list A) : List.filter (fun _ => true) l = l.
Proof. induction l as [|x l IH]; [reflexivity|]. simpl. now rewrite IH. Qed.

Lemma filter_fixed {A} (p : A -> bool) (l : list A) :
  Forall (fun x => p x = true) l -> List.filter p l = l.
Proof.
  induction 1 as [|x l Hx _ IH]; [reflexivity|]. simpl. now rewrite Hx, IH.
Qed.

(** The three steps are one filter by [passes]. *)
Lemma filterCourses_passes courses q lang lvl :
  filterCourses courses q lang lvl = List.filter (passes q lang lvl) courses.
Proof.
  unfold filterCourses, passes.
  destruct (truthy q), (isSet lang), (isSet lvl); simpl;
    rewrite ?filter_and;
    first [ symmetry; apply filter_true
          | apply List.filter_ext; intros c;
            destruct (matchesQuery q c), (matchesLanguage lang c),
              (matchesLevel lvl c); reflexivity ].
Qed.

Lemma filterCourses_Forall courses q lang lvl :
  Forall (fun c => passes q lang lvl c = true) (filterCourses courses q lang lvl).
Proof.
  rewrite filterCourses_passes. apply List.Forall_forall. intros c Hc.
  now apply List.filter_In in Hc.
Qed.

Lemma sortCourses_perm sortBy l : Permutation (sortCourses sortBy l) l.
Proof.
  unfold sortCourses.
  repeat match goal with
         | |- context [if ?b then _ else _] => destruct b
         end; try reflexivity; apply sort_perm.
Qed.

Lemma sortCourses_idempotent sortBy l :
  sortCourses sortBy (sortCourses sortBy l) = sortCourses sortBy l.
Proof.
  unfold sortCourses.
  repeat match goal with
         | |- context [if ?b then _ else _] => destruct b
         end; try reflexivity; apply sort_idempotent; intros a b;
    apply sub_asym.
Qed.

Lemma sortCourses_singleton sortBy c : sortCourses sortBy [c] = [c].
Proof.
  unfold sortCourses.
  repeat match goal with
         | |- context [if ?b then _ else _] => destruct b
         end; reflexivity.
Qed.

Lemma truthy_true (s : string) : truthy s = true <-> s <> "".
Proof. destruct s; unfold truthy; simpl; split; intros H; done. Qed.

Lemma isSet_true (s : string) : isSet s = true <-> s <> "" /\ s <> "all".
Proof.
  unfold isSet. rewrite andb_true_iff, truthy_true, negb_true_iff.
  rewrite <- not_true_iff_false, String.eqb_eq. tauto.
Qed.

Lemma implb_spec (b c : bool) (P : Prop) :
  (b = true <-> P) -> (negb b || c = true <-> (P -> c = true)).
Proof.
  intros H. destruct b, c; simpl; intuition congruence.
Qed.

Lemma passes_spec q lang lvl c :
  passes q lang lvl c = true <->
  (q <> "" ->
     includes (toLowerCase (title c)) (toLowerCase q) = true \/
     includes (toLowerCase (instructor c)) (toLowerCase q) = true \/
     includes (toLowerCase (language c)) (toLowerCase q) = true) /\
  (lang <> "" -> lang <> "all" ->
     toLowerCase (language c) = toLowerCase lang) /\
  (lvl <> "" -> lvl <> "all" -> toLowerCase (level c) = toLowerCase lvl).
Proof.
  unfold passes. rewrite !andb_true_iff.
  rewrite (implb_spec _ _ _ (truthy_true q)).
  rewrite (implb_spec _ _ _ (isSet_true lang)).
  rewrite (implb_spec _ _ _ (isSet_true lvl)).
  unfold matchesQuery, matchesLanguage, matchesLevel.
  rewrite !orb_true_iff, !String.eqb_eq. tauto.
Qed.

(** The three steps over any folding keep the courses that pass each
    step that is taken. *)
Lemma filterCoursesWith_In lower courses q lang lvl c :
  In c (filterCoursesWith lower courses q lang lvl) <->
  In c courses /\
  (truthy q = true -> matchesQueryWith lower q c = true) /\
  (isSet lang = true -> matchesLanguageWith lower lang c = true) /\
  (isSet lvl = true -> matchesLevelWith lower lvl c = true).
Proof.
  unfold filterCoursesWith.
  destruct (truthy q), (isSet lang), (isSet lvl); simpl;
    rewrite ?List.filter_In; intuition congruence.
Qed.

Lemma applyFiltersWith_toLowerCase courses q lang lvl sortBy :
  applyFiltersWith toLowerCase courses q lang lvl sortBy =
  applyFilters courses q lang lvl sortBy.
Proof. reflexivity. Qed.

(** C3.  Whatever the case folding [lower] of the engine does beyond
    ASCII, a course is displayed exactly when it is in the catalogue and
    passes every filter that is set: a non-empty query must occur, with
    case folded, in the title, the instructor's name or the language; a
    language (level) filter that is neither empty nor "all" must equal the
    course's language (level) with case folded.  With the query "yoruba"
    over a Yoruba course and an Igbo course that matches nowhere else,
    only the Yoruba course is displayed; this needs of the folding only
    that it folds ASCII text as [toLowerCase] does.  Over the ASCII folding
    the pipeline is [applyFilters]. *)
Theorem filtered_iff_passes_every_filter :
  (forall (lower : string -> string) courses q lang lvl sortBy c,
     In c (applyFiltersWith lower courses q lang lvl sortBy) <->
     In c courses /\
     (q <> "" ->
        includes (lower (title c)) (lower q) = true \/
        includes (lower (instructor c)) (lower q) = true \/
        includes (lower (language c)) (lower q) = true) /\
     (lang <> "" -> lang <> "all" -> lower (language c) = lower lang) /\
     (lvl <> "" -> lvl <> "all" -> lower (level c) = lower lvl)) /\
  (forall (lower : string -> string) yoruba igbo sortBy,
     foldsAscii lower ->
     language yoruba = "Yoruba" -> language igbo = "Igbo" ->
     includes (lower (title igbo)) "yoruba" = false ->
     includes (lower (instructor igbo)) "yoruba" = false ->
     applyFiltersWith lower [yoruba; igbo] "yoruba" "" "" sortBy = [yoruba] /\
     applyFiltersWith lower [igbo; yoruba] "yoruba" "" "" sortBy = [yoruba]) /\
  (forall courses q lang lvl sortBy,
     applyFiltersWith toLowerCase courses q lang lvl sortBy =
     applyFilters courses q lang lvl sortBy).
Proof.
  split; [|split].
  - intros lower courses q lang lvl sortBy c. unfold applyFiltersWith.
    assert (S : In c (sortCourses sortBy
                        (filterCoursesWith lower courses q lang lvl)) <->
                In c (filterCoursesWith lower courses q lang lvl)).
    { split; apply Permutation_in;
        [|symmetry]; apply sortCourses_perm. }
    rewrite S, filterCoursesWith_In, truthy_true, !isSet_true.
    unfold matchesQueryWith, matchesLanguageWith, matchesLevelWith.
    rewrite !orb_true_iff, !String.eqb_eq. tauto.
  - intros lower yoruba igbo sortBy L Hy Hi Ht Hn.
    assert (Q : lower "yoruba" = "yoruba") by (now rewrite L).
    assert (Y : lower "Yoruba" = "yoruba") by (now rewrite L).
    assert (I : lower "Igbo" = "igbo") by (now rewrite L).
    assert (My : matchesQueryWith lower "yoruba" yoruba = true).
    { unfold matchesQueryWith. rewrite Hy, Q, Y. apply orb_true_r. }
    assert (Mi : matchesQueryWith lower "yoruba" igbo = false).
    { unfold matchesQueryWith. rewrite Q, Ht, Hn, Hi, I. reflexivity. }
    unfold applyFiltersWith, filterCoursesWith.
    cbn -[matchesQueryWith sortCourses].
    rewrite My, Mi. split; apply sortCourses_singleton.
  - intros. reflexivity.
Qed.

Lemma filtered_iff_passes_every_filter_witness :
  applyFiltersWith toLowerCase (firstn 2 mockCourses) "yoruba" "" "" "popular"
    = firstn 1 mockCourses.
Proof.
  apply (proj1 (proj2 filtered_iff_passes_every_filter) toLowerCase
           (nth 0 mockCourses (mkCourse 0 "" "" "" "" "" 0 0 "" ""))
           (nth 1 mockCourses (mkCourse 0 "" "" "" "" "" 0 0 "" ""))
           "popular"); try reflexivity.
  intros s _. reflexivity.
Defined.

(** Re-applying the filters to a displayed list removes nothing, whatever
    order the sort gave it; when the comparator of the key is consistent on
    the filtered courses (for a price key: every price parses to a number)
    running the whole pipeline on its own output, with the same query,
    filters and sort key, gives that output again. *)
Theorem applyFilters_idempotent_when_consistent courses q lang lvl sortBy :
  filterCourses (applyFilters courses q lang lvl sortBy) q lang lvl =
    applyFilters courses q lang lvl sortBy /\
  ((isPriceKey sortBy = true ->
    Forall parses (filterCourses courses q lang lvl)) ->
   applyFilters (applyFilters courses q lang lvl sortBy) q lang lvl sortBy =
   applyFilters courses q lang lvl sortBy).
Proof.
  assert (F : filterCourses (applyFilters courses q lang lvl sortBy) q lang lvl =
              applyFilters courses q lang lvl sortBy).
  { unfold applyFilters. rewrite (filterCourses_passes (sortCourses _ _)).
    apply filter_fixed. eapply Permutation_Forall.
    - symmetry. apply sortCourses_perm.
    - apply filterCourses_Forall. }
  split; [exact F|]. intros _.
  unfold applyFilters at 1. rewrite F. apply sortCourses_idempotent.
Qed.

Lemma applyFilters_idempotent_when_consistent_witness :
  applyFilters (applyFilters mockCourses "" "all" "all" "price-low")
    "" "all" "all" "price-low" =
  applyFilters mockCourses "" "all" "all" "price-low".
Proof.
  apply (applyFilters_idempotent_when_consistent mockCourses "" "all" "all"
           "price-low").
  intros _. repeat constructor; discriminate.
Defined.

End PipelineFacts.

(** ** Permutation, order and stability of the displayed list *)

Module OrderFacts.

Import Js Index Ordering SortFacts NumberFacts PipelineFacts.

Lemma sorted_byStudents l :
  StronglySorted (fun a b => (students b <= students a)%Z) (sort byStudents l).
Proof.
  apply (sort_sorted byStudents (fun _ => True)).
  - intros a b _ _ H. apply not_true_iff_false in H.
    rewrite byStudents_positive in H. lia.
  - intros a b _ _ H. apply byStudents_positive in H. lia.
  - intros a b c. lia.
  - apply List.Forall_forall. auto.
Qed.

Lemma sorted_byRating l :
  StronglySorted (fun a b => (rating b <= rating a)%Q) (sort byRating l).
Proof.
  apply (sort_sorted byRating (fun _ => True)).
  - intros a b _ _ H. apply not_true_iff_false in H.
    rewrite byRating_positive in H. lra.
  - intros a b _ _ H. apply byRating_positive in H. lra.
  - intros a b c. lra.
  - apply List.Forall_forall. auto.
Qed.

Lemma sorted_byPriceLow l :
  Forall parses l ->
  StronglySorted (fun a b => le (parsePrice (price a)) (parsePrice (price b)))
    (sort byPriceLow l).
Proof.
  apply (sort_sorted byPriceLow parses).
  - intros a b Pa Pb. apply sub_keep; assumption.
  - intros a b _ _. apply sub_move.
  - intros a b c. apply le_trans.
Qed.

Lemma sorted_byPriceHigh l :
  Forall parses l ->
  StronglySorted (fun a b => le (parsePrice (price b)) (parsePrice (price a)))
    (sort byPriceHigh l).
Proof.
  apply (sort_sorted byPriceHigh parses).
  - intros a b Pa Pb. apply sub_keep; assumption.
  - intros a b _ _. apply sub_move.
  - intros a b c H1 H2. eapply le_trans; eassumption.
Qed.

Lemma sortCourses_stable sortBy l : stable sortBy l (sortCourses sortBy l).
Proof.
  unfold stable, sortCourses, keyOf. intros k.
  destruct (String.eqb sortBy "popular").
  { apply sort_stable. intros a b Ha Hb. apply sub_tie. eauto. }
  destruct (String.eqb sortBy "rating").
  { apply sort_stable. intros a b Ha Hb. apply sub_tie. eauto. }
  destruct (String.eqb sortBy "newest"); [reflexivity|].
  destruct (String.eqb sortBy "price-low").
  { apply sort_stable. intros a b Ha Hb. apply sub_tie. eauto. }
  destruct (String.eqb sortBy "price-high"); [|reflexivity].
  apply sort_stable. intros a b Ha Hb. apply sub_tie. eauto.
Qed.

Lemma sortCourses_ordered sortBy l :
  (isPriceKey sortBy = true -> Forall parses l) ->
  ordered sortBy l (sortCourses sortBy l).
Proof.
  unfold ordered, sortCourses, isPriceKey. intros H.
  destruct (String.eqb sortBy "popular"); [apply sorted_byStudents|].
  destruct (String.eqb sortBy "rating"); [apply sorted_byRating|].
  destruct (String.eqb sortBy "newest"); [reflexivity|].
  destruct (String.eqb sortBy "price-low");
    [apply sorted_byPriceLow, H; reflexivity|].
  destruct (String.eqb sortBy "price-high"); [|reflexivity].
  apply sorted_byPriceHigh, H. reflexivity.
Qed.




End OrderFacts.

(** ** The price parse *)

Module PriceFacts.

Import Js Index Ordering SortFacts NumberFacts PipelineFacts.

Ltac digit_cases d :=
  destruct d as [|[|[|[|[|[|[|[|[|[|?]]]]]]]]]];
  [ | | | | | | | | | | exfalso; simpl in *; lia ].

(** Stripping leaves the digits. *)
Lemma strip_render (ts : list PriceToken) :
  wellFormed ts ->
  stripNairaComma (render ts) = render (List.filter isDigitToken ts).
Proof.
  induction 1 as [|t ts Ht _ IH]; [reflexivity|].
  destruct t as [| |d].
  - simpl. exact IH.
  - simpl. exact IH.
  - change (render (Digit d :: ts))
      with (String (ascii_of_nat (48 + d)) (render ts)).
    change (render (List.filter isDigitToken (Digit d :: ts)))
      with (String (ascii_of_nat (48 + d))
              (render (List.filter isDigitToken ts))).
    rewrite <- IH. clear IH.
    digit_cases d; reflexivity.
Qed.

Lemma tokenDigits_filter (ts : list PriceToken) :
  tokenDigits (List.filter isDigitToken ts) = tokenDigits ts.
Proof.
  induction ts as [|[| |d] ts IH]; simpl; auto. now rewrite IH.
Qed.

Lemma digits_render (ts : list PriceToken) :
  wellFormed ts -> Forall (fun t => isDigitToken t = true) ts ->
  digits (render ts) = (tokenDigits ts, EmptyString).
Proof.
  induction 1 as [|t ts Ht _ IH]; [reflexivity|].
  intros D. inversion D as [|? ? Dt Dts]; subst.
  destruct t as [| |d]; try discriminate.
  change (render (Digit d :: ts))
    with (String (ascii_of_nat (48 + d)) (render ts)).
  change (tokenDigits (Digit d :: ts)) with (Z.of_nat d :: tokenDigits ts).
  specialize (IH Dts).
  digit_cases d; cbn [digits]; rewrite IH; reflexivity.
Qed.

(** A string that starts with a digit has no white space, sign or
    "Infinity" for [parseFloat] to take off. *)
Lemma digit_head (c : ascii) (d : Z) (r : string) :
  digitOf c = Some d ->
  trimStart (String c r) = String c r /\
  sign (String c r) = (false, String c r) /\
  startsWith (String c r) "Infinity" = false.
Proof.
  destruct c as [[] [] [] [] [] [] [] []]; intros H;
    try (vm_compute in H; discriminate H); repeat split.
Qed.

Lemma digitOf_render (d : nat) :
  (d <= 9)%nat -> digitOf (ascii_of_nat (48 + d)) = Some (Z.of_nat d).
Proof. intros H. digit_cases d; reflexivity. Qed.

Lemma parseFloat_digits (ts : list PriceToken) :
  wellFormed ts -> Forall (fun t => isDigitToken t = true) ts ->
  parseFloat (render ts) =
  match tokenDigits ts with
  | [] => NaN
  | ds => Fin (Qred (inject_Z (decimal ds) * 1))
  end.
Proof.
  intros W D. destruct ts as [|t ts]; [reflexivity|].
  pose proof (digits_render _ W D) as E.
  inversion W as [|? ? Ht _]; subst. inversion D as [|? ? Dt _]; subst.
  destruct t as [| |d]; try discriminate.
  change (render (Digit d :: ts))
    with (String (ascii_of_nat (48 + d)) (render ts)) in *.
  change (tokenDigits (Digit d :: ts))
    with (Z.of_nat d :: tokenDigits ts) in *.
  destruct (digit_head _ _ (render ts) (digitOf_render d Ht)) as (T & S & I).
  unfold parseFloat. rewrite T, S, I, E.
  cbv beta iota. rewrite List.app_nil_r. reflexivity.
Qed.

(** C2, as the code has it.  "Free" is 0.  Only the naira sign and the
    comma are stripped: a price written with naira signs, commas and at
    least one digit is the number its digits spell when that number needs
    no rounding (a binary64 holds it, as it does every whole number up to
    2^53), and one without a digit is NaN, not 0.  A NaN price makes both price comparators NaN on
    every pair with it, which the sort takes for a tie.  Nothing fails:
    whatever the prices, the displayed list is a permutation of the
    filtered one. *)
Theorem parsePrice_strips_naira_and_comma :
  parsePrice "Free" = ofZ 0 /\
  (forall ts, wellFormed ts -> tokenDigits ts <> [] ->
     exact (ofZ (decimal (tokenDigits ts))) ->
     eqb (parsePrice (render ts)) (ofZ (decimal (tokenDigits ts))) = true) /\
  (forall ts, wellFormed ts -> tokenDigits ts = [] ->
     parsePrice (render ts) = NaN) /\
  (forall a b, parsePrice (price a) = NaN ->
     isPositive (byPriceLow a b) = false /\
     isPositive (byPriceLow b a) = false /\
     isPositive (byPriceHigh a b) = false /\
     isPositive (byPriceHigh b a) = false) /\
  (forall courses q lang lvl sortBy,
     Permutation (applyFilters courses q lang lvl sortBy)
       (filterCourses courses q lang lvl)).
Proof.
  assert (NotFree : forall ts, wellFormed ts ->
            String.eqb (render ts) "Free" = false).
  { intros ts W. destruct ts as [|t ts]; [reflexivity|].
    inversion W as [|? ? Ht _]; subst.
    destruct t as [| |d]; try reflexivity.
    change (render (Digit d :: ts))
      with (String (ascii_of_nat (48 + d)) (render ts)).
    digit_cases d; reflexivity. }
  assert (Parse : forall ts, wellFormed ts ->
            parsePrice (render ts) =
            match tokenDigits ts with
            | [] => NaN
            | ds => Fin (Qred (inject_Z (decimal ds) * 1))
            end).
  { intros ts W. unfold parsePrice. rewrite (NotFree ts W).
    rewrite (strip_render ts W), <- (tokenDigits_filter ts).
    apply parseFloat_digits.
    - unfold wellFormed in *. rewrite List.Forall_forall in *.
      intros t Ht. apply List.filter_In in Ht. now apply W.
    - apply List.Forall_forall. intros t Ht.
      now apply List.filter_In in Ht. }
  split; [reflexivity|]. split; [|split; [|split]].
  - intros ts W N _. rewrite (Parse ts W).
    destruct (tokenDigits ts) as [|d ds] eqn:E; [congruence|].
    simpl eqb. apply Qeq_bool_iff. rewrite Qred_correct. ring.
  - intros ts W N. rewrite (Parse ts W), N. reflexivity.
  - intros a b N. unfold byPriceLow, byPriceHigh. rewrite N.
    destruct (parsePrice (price b)); auto.
  - intros. apply sortCourses_perm.
Qed.

Lemma parsePrice_strips_naira_and_comma_witness :
  eqb (parsePrice "₦15,000") (ofZ 15000) = true /\
  parsePrice "₦" = NaN /\
  isPositive (byPriceLow unpriced naira200) = false.
Proof.
  pose proof parsePrice_strips_naira_and_comma as [_ [D [N [T _]]]].
  split; [|split].
  - apply (D [Naira; Digit 1; Digit 5; Comma; Digit 0; Digit 0; Digit 0]).
    + repeat constructor.
    + discriminate.
    + apply (exact_ofZ 15000). reflexivity.
  - apply (N [Naira]); [repeat constructor | reflexivity].
  - apply (T unpriced naira200). reflexivity.
Defined.

(** C2 fails as stated: the price "N/A" is NaN where the specification
    has 0, and the two parses sort the same list differently. *)
Lemma unparsable_price_is_not_zero :
  parsePrice "N/A" = NaN /\
  specParsePrice "N/A" = ofZ 0 /\
  sort byPriceLow [naira200; unpriced] = [naira200; unpriced] /\
  sort specByPriceLow [naira200; unpriced] = [unpriced; naira200].
Proof. repeat split; reflexivity. Qed.

End PriceFacts.

(** ** The pipeline on the store *)

Module StoreFacts.

Import Js Index IndexState.

Lemma bind_Some {A B} (m : M A) (k : A -> M B) h a h' :
  m h = Some (a, h') -> bind m k h = k a h'.
Proof. unfold bind. now intros ->. Qed.

Lemma fresh_unallocated (h : gmap nat (list Course)) : h !! fresh (dom h) = None.
Proof. apply not_elem_of_dom, is_fresh. Qed.

Lemma alloc_extends (h0 h : gmap nat (list Course)) l :
  (forall r' v, h0 !! r' = Some v -> h !! r' = Some v) ->
  exists res, alloc l h = Some res /\ working h0 l res.
Proof.
  intros Ext. eexists. split; [reflexivity|]. unfold working.
  pose proof (fresh_unallocated h) as F.
  split; [apply lookup_insert_eq|]. split.
  - destruct (h0 !! fresh (dom h)) as [v|] eqn:E; [|reflexivity].
    apply Ext in E. congruence.
  - intros r' v Hr. rewrite lookup_insert_ne; [now apply Ext|].
    intros <-. apply Ext in Hr. congruence.
Qed.

Lemma spread_working (h0 : gmap nat (list Course)) c l :
  h0 !! c = Some l ->
  exists res, spread c h0 = Some res /\ working h0 l res.
Proof.
  intros Hc. destruct (alloc_extends h0 h0 l) as [res [E W]]; [auto|].
  exists res. split; [|exact W].
  unfold spread. erewrite bind_Some; [exact E|].
  unfold read. now rewrite Hc.
Qed.

Lemma filterArray_working (h0 : gmap nat (list Course)) p l res :
  working h0 l res ->
  exists res', filterArray p (fst res) (snd res) = Some res' /\
               working h0 (List.filter p l) res'.
Proof.
  destruct res as [r h]. intros (Hr & _ & Ext). simpl.
  destruct (alloc_extends h0 h (List.filter p l) Ext) as [res' [E W]].
  exists res'. split; [|exact W].
  unfold filterArray. erewrite bind_Some; [exact E|].
  unfold read. now rewrite Hr.
Qed.

Lemma step_working (h0 : gmap nat (list Course)) (b : bool) p l res :
  working h0 l res ->
  exists res',
    (if b then filterArray p (fst res) else ret (fst res)) (snd res) = Some res' /\
    working h0 (if b then List.filter p l else l) res'.
Proof.
  intros W. destruct b; [now apply filterArray_working|].
  exists res. split; [now destruct res|exact W].
Qed.

Lemma sortArray_working (h0 : gmap nat (list Course)) comparefn l res :
  working h0 l res ->
  exists res', sortArray comparefn (fst res) (snd res) = Some res' /\
               working h0 (sort comparefn l) res'.
Proof.
  destruct res as [r h]. intros (Hr & Hn & Ext). simpl.
  exists (r, <[r := sort comparefn l]> h). split.
  - unfold sortArray, bind, read, write, ret. rewrite Hr. simpl.
    rewrite Hr. reflexivity.
  - split; [apply lookup_insert_eq|]. split; [exact Hn|].
    intros r' v Hr'. rewrite lookup_insert_ne; [now apply Ext|].
    intros <-. congruence.
Qed.

Lemma sortStep_working (h0 : gmap nat (list Course)) sortBy l res :
  working h0 l res ->
  exists res',
    (if String.eqb sortBy "popular" then sortArray byStudents (fst res)
     else if String.eqb sortBy "rating" then sortArray byRating (fst res)
     else if String.eqb sortBy "newest" then ret (fst res)
     else if String.eqb sortBy "price-low" then sortArray byPriceLow (fst res)
     else if String.eqb sortBy "price-high" then sortArray byPriceHigh (fst res)
     else ret (fst res)) (snd res) = Some res' /\
    working h0 (sortCourses sortBy l) res'.
Proof.
  intros W. unfold sortCourses.
  repeat match goal with
         | |- context [String.eqb sortBy ?k] => destruct (String.eqb sortBy k)
         end;
    first [ now apply sortArray_working
          | exists res; split; [now destruct res | exact W] ].
Qed.

(** [applyFiltersM] computes what the function on lists computes, in an
    array of its own. *)
Lemma applyFiltersM_working (h0 : gmap nat (list Course)) c l q lang lvl sortBy :
  h0 !! c = Some l ->
  exists res, applyFiltersM c q lang lvl sortBy h0 = Some res /\
              working h0 (Index.applyFilters l q lang lvl sortBy) res.
Proof.
  intros Hc. unfold applyFiltersM.
  destruct (spread_working h0 c l Hc) as [[r1 h1] [E1 W1]].
  destruct (step_working h0 (truthy q) (matchesQuery q) _ _ W1)
    as [[r2 h2] [E2 W2]].
  destruct (step_working h0 (isSet lang) (matchesLanguage lang) _ _ W2)
    as [[r3 h3] [E3 W3]].
  destruct (step_working h0 (isSet lvl) (matchesLevel lvl) _ _ W3)
    as [[r4 h4] [E4 W4]].
  destruct (sortStep_working h0 sortBy _ _ W4) as [[r5 h5] [E5 W5]].
  exists (r5, h5). split.
  - erewrite bind_Some by exact E1.
    erewrite bind_Some by exact E2.
    erewrite bind_Some by exact E3.
    erewrite bind_Some by exact E4.
    erewrite bind_Some by exact E5. reflexivity.
  - exact W5.
Qed.

(** C10.  From a state whose [courses] is an array, [applyFilters] ends,
    [courses] is the same reference and holds the same records in the same
    order, every other array of the store is untouched, and
    [filteredCourses] is an array that did not exist before, holding the
    filtered and sorted list. *)
Theorem applyFilters_never_mutates_input st q lang lvl sortBy l :
  store st !! courses st = Some l ->
  exists st',
    IndexState.applyFilters st q lang lvl sortBy = Some st' /\
    courses st' = courses st /\
    store st' !! courses st' = Some l /\
    (forall r v, store st !! r = Some v -> store st' !! r = Some v) /\
    store st !! filteredCourses st' = None /\
    store st' !! filteredCourses st' =
      Some (Index.applyFilters l q lang lvl sortBy).
Proof.
  intros Hc.
  destruct (applyFiltersM_working (store st) (courses st) l q lang lvl sortBy Hc)
    as [[r h] [E (Hr & Hn & Ext)]].
  exists (mkState h (courses st) r). unfold IndexState.applyFilters.
  rewrite E. simpl. repeat split; auto.
Qed.

Lemma applyFilters_never_mutates_input_witness :
  exists st',
    IndexState.applyFilters (mkState {[ 0%nat := mockCourses ]} 0%nat 0%nat)
      "" "" "" "price-high" = Some st' /\
    store st' !! courses st' = Some mockCourses.
Proof.
  destruct (applyFilters_never_mutates_input
              (mkState {[ 0%nat := mockCourses ]} 0%nat 0%nat)
              "" "" "" "price-high" mockCourses)
    as [st' (E & Ec & Hl & _)].
  - apply lookup_singleton_eq.
  - exists st'. split; [exact E | exact Hl].
Defined.

End StoreFacts.

(** ** Uploads *)

Module UploadFacts.

Import Js FileUploader.

Lemma validateFile_None props f :
  validateFile props f = None <->
  (size f <= maxSize props * 1024 * 1024)%Z /\ inAcceptedSet props f = true.
Proof.
  unfold validateFile, inAcceptedSet.
  destruct (Z.ltb_spec (maxSize props * 1024 * 1024) (size f)).
  - split; [discriminate|]. intros [H' _]. lia.
  - destruct (String.eqb (accept props) "*/*"); simpl.
    + split; auto.
    + destruct (isAccepted (accept props) f); simpl; split; auto;
        try discriminate. intros [_ H']. discriminate.
Qed.

(** What [validateFile] rejects.  A file that is larger than [maxSize] MB,
    or that fails the check of the type, is rejected with a reason that
    names the limit or the accepted types; [uploadFile] then shows the
    reason, reports it, and ends: the tracked list is the one it started
    from and no transfer is started.  A file of 150 MB under the limit of
    100 MB is rejected in this way with "File size exceeds 100MB limit". *)
Lemma rejected_before_transfer :
  (forall props f random result tracked,
     (maxSize props * 1024 * 1024 < size f)%Z \/ inAcceptedSet props f = false ->
     exists reason,
       validateFile props f = Some reason /\
       (reason = ("File size exceeds " ++ showZ (maxSize props)
                  ++ "MB limit")%string \/
        reason = ("File type not supported. Accepted types: "
                  ++ accept props)%string) /\
       uploadFile props f random result tracked =
         (tracked, [ToastError reason; OnUploadError reason]) /\
       existsb isTransfer (snd (uploadFile props f random result tracked))
         = false) /\
  (forall props f random result tracked,
     maxSize props = 100%Z -> size f = (150 * 1024 * 1024)%Z ->
     uploadFile props f random result tracked =
       (tracked, [ToastError "File size exceeds 100MB limit";
                  OnUploadError "File size exceeds 100MB limit"])).
Proof.
  split.
  - intros props f random result tracked H.
    destruct (validateFile props f) as [reason|] eqn:V.
    + exists reason. split; [reflexivity|]. split.
      * unfold validateFile in V.
        destruct (maxSize props * 1024 * 1024 <? size f)%Z;
          [left; congruence|].
        destruct (negb (String.eqb (accept props) "*/*")); [|discriminate].
        destruct (negb (isAccepted (accept props) f)); [|discriminate].
        right. congruence.
      * unfold uploadFile. rewrite V. split; reflexivity.
    + apply validateFile_None in V. destruct V as [V1 V2].
      destruct H as [H|H]; [lia|congruence].
  - intros props f random result tracked Hm Hs.
    unfold uploadFile, validateFile. rewrite Hm, Hs. reflexivity.
Qed.

Lemma oversized_file_rejected :
  let props := mkProps "course-videos" "lessons" "*/*" 100 in
  let f := mkFile 1 "lecture.mp4" (150 * 1024 * 1024) "video/mp4" in
  uploadFile props f "k3x9" (Stored "https://cdn/lessons/k3x9.mp4") [] =
    ([], [ToastError "File size exceeds 100MB limit";
          OnUploadError "File size exceeds 100MB limit"]).
Proof.
  cbv zeta.
  apply (proj2 rejected_before_transfer); reflexivity.
Defined.

Lemma existsb_pointwise {A} (p q : A -> bool) (l : list A) :
  (forall x, p x = q x) -> existsb p l = existsb q l.
Proof.
  intros E. induction l as [|x l IH]; [reflexivity|].
  simpl. now rewrite E, IH.
Qed.

(** On a name with a dot the check is membership in the accepted set. *)
Lemma inAcceptedSet_dotted props f :
  includes (name f) "." = true ->
  inAcceptedSet props f = inConfiguredSet props f.
Proof.
  intros D. unfold inAcceptedSet, inConfiguredSet, isAccepted, extension.
  rewrite D. f_equal. apply existsb_pointwise. intros t.
  destruct (pop (split "." (name f))) as [ext|] eqn:P; [reflexivity|].
  exfalso. unfold pop in P.
  destruct (name f) as [|c r]; [discriminate D|].
  cbn [split] in P. destruct (Ascii.eqb c "."); [|destruct (split "." r)].
  - now rewrite last_cons in P; destruct (last (split "." r)).
  - discriminate P.
  - now rewrite last_cons in P; destruct (last l).
Qed.

(** So a file whose name has a dot is rejected, before any transfer and
    with the tracked list unchanged, whenever it is too large or neither
    its MIME type nor its extension is in the accepted set. *)
Lemma dotted_name_rejected props f random result tracked :
  includes (name f) "." = true ->
  (maxSize props * 1024 * 1024 < size f)%Z \/ inConfiguredSet props f = false ->
  exists reason,
    validateFile props f = Some reason /\
    uploadFile props f random result tracked =
      (tracked, [ToastError reason; OnUploadError reason]).
Proof.
  intros D H. rewrite <- (inAcceptedSet_dotted props f D) in H.
  destruct (proj1 rejected_before_transfer props f random result tracked H)
    as (reason & V & _ & U & _).
  now exists reason.
Qed.

(** C5.  The check takes a name without a dot for its own extension:
    [name.split('.').pop()] is then the whole name.  A file named "pdf",
    which has no extension and no MIME type, is outside the accepted set
    ".pdf,.docx"; [validateFile] passes it, and [uploadFile] tracks it and
    starts the transfer.  The same file under the name "notes.txt" is
    rejected, as is every file whose name has a dot and whose type is
    outside the set. *)
Theorem dotless_name_passes_for_its_extension :
  extension dotless = None /\
  inConfiguredSet documents dotless = false /\
  validateFile documents dotless = None /\
  uploadFile documents dotless "k3x9" (Stored "https://cdn/docs/k3x9.pdf") [] =
    ([mkUploadingFile dotless 100 completed
        (Some "https://cdn/docs/k3x9.pdf") None],
     [StorageUpload "course-materials" "docs/k3x9.pdf" dotless;
      GetPublicUrl "course-materials" "docs/k3x9.pdf";
      ToastSuccess "pdf uploaded successfully";
      OnUploadComplete "https://cdn/docs/k3x9.pdf" "pdf"]) /\
  uploadFile documents (mkFile 1 "notes.txt" 2048 "") "k3x9"
    (Stored "https://cdn/docs/k3x9.txt") [] =
    ([], [ToastError "File type not supported. Accepted types: .pdf,.docx";
          OnUploadError "File type not supported. Accepted types: .pdf,.docx"]).
Proof. repeat split; reflexivity. Qed.

End UploadFacts.

(** ** Quiz drafts *)

Module QuizFacts.

Import Js QuizManager.

Lemma invalid_of_empty (q : Question) :
  question q = "" \/ In "" (options q) -> invalid q = true.
Proof.
  unfold invalid. intros [H|H].
  - rewrite H. reflexivity.
  - apply orb_true_iff. right. apply List.existsb_exists.
    exists "". split; [exact H | reflexivity].
Qed.

Lemma length_filter_zero {A} (p : A -> bool) (l : list A) :
  (0 <? List.length (List.filter p l))%nat = false <->
  Forall (fun x => p x = false) l.
Proof.
  induction l as [|x l IH]; simpl.
  - split; [constructor | reflexivity].
  - destruct (p x) eqn:E; simpl.
    + split; [discriminate|]. intros H. inversion H; congruence.
    + rewrite IH. split; [now constructor | intros H; now inversion H].
Qed.

(** A prompt or an option of white space only is blank, also when the
    white space is not ASCII: a prompt that is one no-break space stops the
    save. *)
Lemma white_space_prompt_is_blank :
  let q := mkQuestion "q1" noBreakSpace ["E kaaro"; "E kaasan"; "Bawo"; "O dabo"]
             0 None in
  trim (noBreakSpace ++ " ") = "" /\
  invalid q = true /\
  handleSubmit (mkForm "lesson-1" "Greetings" "" 70 None [q] None) false =
    [ToastError "Please fill in all question fields"].
Proof. repeat split; reflexivity. Qed.

(** C6.  A draft with no question, or with a question whose prompt or one
    of whose options is the empty string, is answered with one validation
    message and nothing else: no call reaches the data service.  A save
    (an update of the quiz being edited, or an insert) is sent only when
    there is a question and no question is invalid, and then it is sent
    exactly once, first. *)
Theorem invalid_draft_rejected_locally :
  (forall form serviceError,
     formQuestions form = [] \/
     (exists q, In q (formQuestions form) /\
                (question q = "" \/ In "" (options q))) ->
     (exists message, handleSubmit form serviceError = [ToastError message]) /\
     existsb isNetwork (handleSubmit form serviceError) = false) /\
  (forall form serviceError,
     existsb isSave (handleSubmit form serviceError) = true ->
     formQuestions form <> [] /\
     Forall (fun q => invalid q = false) (formQuestions form)) /\
  (forall form serviceError,
     formQuestions form <> [] ->
     Forall (fun q => invalid q = false) (formQuestions form) ->
     List.length (List.filter isSave (handleSubmit form serviceError)) = 1%nat /\
     exists save rest,
       handleSubmit form serviceError = save :: rest /\ isSave save = true).
Proof.
  split; [|split].
  - intros form serviceError H. unfold handleSubmit.
    destruct (formQuestions form) as [|q0 qs] eqn:Q.
    + split; [eexists|]; reflexivity.
    + destruct H as [H|[q [Hin Hq]]]; [discriminate|].
      cbn [List.length Nat.eqb].
      assert (L : (0 <? List.length (List.filter invalid (q0 :: qs)))%nat = true).
      { apply not_false_iff_true. rewrite length_filter_zero.
        rewrite List.Forall_forall. intros F. specialize (F q Hin).
        rewrite (invalid_of_empty q Hq) in F. discriminate. }
      rewrite L. split; [eexists|]; reflexivity.
  - intros form serviceError. unfold handleSubmit.
    destruct (formQuestions form) as [|q0 qs] eqn:Q; [discriminate|].
    cbn [List.length Nat.eqb].
    destruct (0 <? List.length (List.filter invalid (q0 :: qs)))%nat eqn:L;
      [discriminate|].
    intros _. split; [discriminate|]. now apply length_filter_zero.
  - intros form serviceError Hne Hv. unfold handleSubmit.
    destruct (formQuestions form) as [|q0 qs] eqn:Q; [congruence|].
    cbn [List.length Nat.eqb].
    apply length_filter_zero in Hv. rewrite Hv.
    destruct (editingQuiz form), serviceError; split;
      try reflexivity; eexists; eexists; split; reflexivity.
Qed.

Lemma invalid_draft_rejected_locally_witness :
  let q := mkQuestion "q1" "How do you greet an elder?"
             ["E kaaro"; ""; "Bawo"; "O dabo"] 0 None in
  let form := mkForm "lesson-1" "Greetings" "" 70 None [q] None in
  handleSubmit form false = [ToastError "Please fill in all question fields"] /\
  existsb isNetwork (handleSubmit form false) = false.
Proof.
  cbv zeta.
  destruct (proj1 invalid_draft_rejected_locally
              (mkForm "lesson-1" "Greetings" "" 70 None
                 [mkQuestion "q1" "How do you greet an elder?"
                    ["E kaaro"; ""; "Bawo"; "O dabo"] 0 None] None)
              false) as [_ N].
  - right. eexists. split; [left; reflexivity|]. right. simpl. auto.
  - split; [reflexivity | exact N].
Defined.

End QuizFacts.

(** ** Notifications *)

Module NotificationFacts.

Import NotificationCenter.

(** C9, as the code has it.  Every delivery puts the notification at the
    head of the list and adds one to the unread count, also when the same
    notification was delivered before: after two deliveries the list has
    it twice and the count is up by two, which is never the state after
    one delivery. *)
Theorem onInsert_twice_counts_twice (n : Notification) (st : State) :
  onInsert n (onInsert n st) =
    mkState (n :: n :: notifications st) (unreadCount st + 2) /\
  onInsert n (onInsert n st) <> onInsert n st.
Proof.
  split.
  - unfold onInsert. simpl. f_equal. lia.
  - unfold onInsert. simpl. intros E. inversion E. lia.
Qed.

(** C9 fails as stated: the same insert event delivered twice. *)
Lemma duplicate_delivery_is_not_idempotent :
  let n := mkNotification "5" system "Welcome" "Your account is ready" false
             "2025-01-01T00:00:00Z" None in
  let st := mkState [] 0 in
  notifications (onInsert n (onInsert n st)) = [n; n] /\
  notifications (onInsert n st) = [n] /\
  unreadCount (onInsert n (onInsert n st)) = 2%Z /\
  unreadCount (onInsert n st) = 1%Z /\
  onInsert n (onInsert n st) <> onInsert n st.
Proof.
  cbv zeta. repeat split. discriminate.
Qed.

End NotificationFacts.

(** ** Enrolment *)

Module EnrollmentFacts.

Import Js Enrollments.

Lemma rowsOf_app courseId studentId t1 t2 :
  rowsOf courseId studentId (t1 ++ t2) =
  rowsOf courseId studentId t1 ++ rowsOf courseId studentId t2.
Proof. apply List.filter_app. Qed.

Lemma existsb_rowsOf courseId studentId table :
  existsb (samePair courseId studentId) table = false <->
  rowsOf courseId studentId table = [].
Proof.
  unfold rowsOf. induction table as [|r t IH]; simpl; [tauto|].
  destruct (samePair courseId studentId r); simpl; [split; discriminate|].
  exact IH.
Qed.

(** The table keeps at most one row per pair, whatever is inserted. *)
Lemma insert_at_most_one fault values table courseId studentId :
  (List.length (rowsOf courseId studentId table) <= 1)%nat ->
  (List.length (rowsOf courseId studentId (fst (insert fault values table)))
   <= 1)%nat.
Proof.
  intros H. unfold insert. destruct fault; [exact H|].
  destruct (existsb _ table) eqn:E; [exact H|]. simpl.
  rewrite rowsOf_app, List.length_app.
  unfold rowsOf at 2. cbn [List.filter].
  destruct (samePair courseId studentId _) eqn:S; [|simpl; lia].
  unfold samePair in S. simpl in S.
  apply andb_true_iff in S. destruct S as [S1 S2].
  apply String.eqb_eq in S1, S2. subst courseId studentId.
  apply existsb_rowsOf in E. rewrite E. simpl. lia.
Qed.

(** X20.  The button creates a row only for a signed-in student, on a
    published course, when the pair has no row; the row is then the one
    new row of the table and has progress 0. *)
Lemma button_creates_only_when_guarded props fault table :
  fst (EnrollmentButton.handleEnroll props fault table) <> table ->
  exists profile,
    EnrollmentButton.user props = true /\
    EnrollmentButton.userProfile props = Some profile /\
    role profile = "student" /\
    EnrollmentButton.isPublished props = true /\
    rowsOf (EnrollmentButton.courseId props) (id profile) table = [] /\
    fst (EnrollmentButton.handleEnroll props fault table) =
      table ++ [mkRow (EnrollmentButton.courseId props) (id profile) 0].
Proof.
  unfold EnrollmentButton.handleEnroll.
  destruct (EnrollmentButton.user props); simpl; [|congruence].
  destruct (EnrollmentButton.userProfile props) as [profile|]; [|simpl; congruence].
  destruct (String.eqb_spec (role profile) "student") as [R|]; simpl;
    [|congruence].
  destruct (EnrollmentButton.isPublished props); simpl; [|congruence].
  unfold insert. destruct fault; simpl; [congruence|].
  destruct (existsb _ table) eqn:E; simpl; [congruence|].
  intros _. exists profile. apply existsb_rowsOf in E. auto 10.
Qed.

(** X21.  A second click on the button leaves the one row and shows the
    conflict: the service answers 23505 and the button toasts "You are
    already enrolled in this course". *)
Lemma button_second_attempt_conflicts props profile table :
  EnrollmentButton.user props = true ->
  EnrollmentButton.userProfile props = Some profile ->
  role profile = "student" ->
  EnrollmentButton.isPublished props = true ->
  rowsOf (EnrollmentButton.courseId props) (id profile) table = [] ->
  let first := EnrollmentButton.handleEnroll props None table in
  let second := EnrollmentButton.handleEnroll props None (fst first) in
  rowsOf (EnrollmentButton.courseId props) (id profile) (fst second) =
    [mkRow (EnrollmentButton.courseId props) (id profile) 0] /\
  fst second = fst first /\
  snd second = [ConsoleError "23505";
                ToastError "You are already enrolled in this course"].
Proof.
  intros U P R Pub Free. cbv zeta.
  assert (F : EnrollmentButton.handleEnroll props None table =
              (table ++ [mkRow (EnrollmentButton.courseId props) (id profile) 0],
               [ToastSuccess ("Successfully enrolled in "
                              ++ EnrollmentButton.courseName props ++ "!")%string;
                CheckEnrollment; GetEnrollmentCount; OnEnrollmentChange])).
  { unfold EnrollmentButton.handleEnroll. rewrite U, P, R, Pub. simpl.
    apply existsb_rowsOf in Free. rewrite Free. reflexivity. }
  rewrite F. simpl fst.
  assert (D : existsb (samePair (EnrollmentButton.courseId props) (id profile))
                (table ++ [mkRow (EnrollmentButton.courseId props) (id profile) 0])
              = true).
  { rewrite List.existsb_app. apply orb_true_iff. right. simpl.
    unfold samePair. simpl. now rewrite !String.eqb_refl. }
  unfold EnrollmentButton.handleEnroll. rewrite U, P, R, Pub. simpl.
  rewrite D. simpl. repeat split.
  rewrite rowsOf_app, Free. simpl. unfold samePair. simpl.
  now rewrite !String.eqb_refl.
Qed.

(** The course page never reads [is_published]. *)
Lemma course_page_ignores_is_published page published fault table :
  CourseDetail.handleEnroll
    (CourseDetail.mkPage (CourseDetail.courseId page)
       (CourseDetail.mkCourse (CourseDetail.id (CourseDetail.course page))
          (CourseDetail.teacher_id (CourseDetail.course page)) published)
       (CourseDetail.user page) (CourseDetail.userProfile page))
    fault table =
  CourseDetail.handleEnroll page fault table.
Proof. reflexivity. Qed.

(** C4, where the code departs from it.  [handleEnroll] of the course
    page has no guard on [is_published]: a student who clicks it on an
    unpublished course gets the row, where the button, given the same
    course and student, refuses; and a second click on the course page is
    answered "Failed to enroll in course", where the button answers "You
    are already enrolled in this course". *)
Theorem course_page_enrolls_in_unpublished_course :
  let student := mkProfile "student-1" "student" in
  let page := CourseDetail.mkPage "course-1"
                (CourseDetail.mkCourse "course-1" "teacher-1" false)
                true (Some student) in
  let props := EnrollmentButton.mkProps "course-1" "Complete Yoruba" false
                 true (Some student) in
  CourseDetail.handleEnroll page None [] =
    ([mkRow "course-1" "student-1" 0],
     [ToastSuccess "Successfully enrolled in course!"; CheckEnrollment]) /\
  EnrollmentButton.handleEnroll props None [] =
    ([], [ToastError "This course is not yet published"]) /\
  CourseDetail.handleEnroll page None [mkRow "course-1" "student-1" 0] =
    ([mkRow "course-1" "student-1" 0],
     [ToastError "Failed to enroll in course"]).
Proof. repeat split; reflexivity. Qed.

End EnrollmentFacts.

(** ** Lessons *)

Module LessonFacts.

Import Js LessonManagement.

(** A new lesson takes the number of lessons on the page as its index; an
    edited lesson keeps the index it had. *)
Lemma lessonData_order_index page form lid :
  order_index (lessonData page form lid) =
  match editingLesson page with
  | Some editing => order_index editing
  | None => Z.of_nat (List.length (lessons page))
  end.
Proof.
  unfold lessonData.
  destruct (String.eqb (f_type form) "video"); [reflexivity|].
  destruct (String.eqb (f_type form) "text"); reflexivity.
Qed.

(** C8, where the code departs from it.  [handleDelete] removes the row
    and fetches the lessons again; no index is rewritten.  From three
    lessons with the indexes 0, 1, 2, deleting the first leaves 1, 2,
    which do not start from 0; the lesson created next takes the index 2,
    the number of lessons on the page, which the last lesson already has.
    [reorderLessons], which would renumber them, is called nowhere. *)
Theorem delete_leaves_gap_and_create_duplicates :
  contiguous (indexes threeLessons) /\
  let afterDelete := handleDelete threeLessons "a" true false in
  indexes afterDelete = [1; 2]%Z /\
  ~ contiguous (indexes afterDelete) /\
  let afterCreate := handleSubmit afterDelete newLesson "d" false in
  indexes afterCreate = [1; 2; 2]%Z /\
  ~ NoDup (indexes afterCreate) /\
  indexes (reorderLessons afterCreate (lessons afterCreate)) = [0; 1; 2]%Z.
Proof.
  split; [reflexivity|]. cbv zeta.
  split; [reflexivity|]. split; [discriminate|].
  split; [reflexivity|]. split; [|reflexivity].
  change (indexes (handleSubmit (handleDelete threeLessons "a" true false)
                     newLesson "d" false)) with [1; 2; 2]%Z.
  intros N. inversion N as [|? ? _ N']; subst.
  inversion N' as [|? ? Hin _]; subst. apply Hin. now left.
Qed.

End LessonFacts.

(** ** The catalogue and the page handlers *)

Module CatalogFacts.

Import Js Index Ordering Catalog CatalogTokens.
Import SortFacts NumberFacts PipelineFacts OrderFacts PriceFacts.

Lemma decimal_snoc (ds : list Z) (d : Z) :
  decimal (ds ++ [d]) = (10 * decimal ds + d)%Z.
Proof. unfold decimal. now rewrite List.fold_left_app. Qed.

(** [digitsFuel] puts the digits of [n] in front of [acc]. *)
Lemma digitsFuel_spec (fuel : nat) : forall (n : Z) (acc : list nat),
  (0 <= n < 10 ^ Z.of_nat (S fuel))%Z ->
  exists ds,
    digitsFuel (S fuel) n acc = ds ++ acc /\
    decimal (map Z.of_nat ds) = n /\
    Forall (fun d => (d <= 9)%nat) ds /\ ds <> [].
Proof.
  induction fuel as [|fuel IH]; intros n acc Hn.
  - exists [Z.to_nat (n mod 10)].
    change (10 ^ Z.of_nat 1)%Z with 10%Z in Hn.
    assert (n / 10 = 0)%Z as E by (apply Z.div_small; lia).
    cbn [digitsFuel]. rewrite E. cbn [Z.eqb].
    rewrite Z.mod_small by lia.
    split; [reflexivity|]. split; [cbn; lia|].
    split; [|discriminate]. constructor; [lia|constructor].
  - cbn [digitsFuel]. destruct (Z.eqb_spec (n / 10) 0%Z) as [E | E].
    + exists [Z.to_nat (n mod 10)].
      assert (n < 10)%Z.
      { pose proof (Z.div_mod n 10). pose proof (Z.mod_pos_bound n 10). lia. }
      rewrite Z.mod_small by lia.
      split; [reflexivity|]. split; [cbn; lia|].
      split; [|discriminate]. constructor; [lia|constructor].
    + destruct (IH (n / 10)%Z (Z.to_nat (n mod 10) :: acc)) as (ds & Hd & Hv & Hf & _).
      { split; [apply Z.div_pos; lia|].
        apply Z.div_lt_upper_bound; [lia|].
        replace (Z.of_nat (S (S fuel))) with (Z.succ (Z.of_nat (S fuel))) in Hn
          by lia.
        rewrite Z.pow_succ_r in Hn by lia. lia. }
      exists (ds ++ [Z.to_nat (n mod 10)]).
      pose proof (Z.mod_pos_bound n 10 ltac:(lia)) as Hm.
      split; [|split; [|split]].
      * cbn [digitsFuel] in Hd. rewrite Hd. now rewrite <- List.app_assoc.
      * rewrite List.map_app. cbn [map]. rewrite decimal_snoc, Hv.
        rewrite Z2Nat.id by lia. pose proof (Z.div_mod n 10). lia.
      * apply List.Forall_app. split; [exact Hf|].
        constructor; [lia|constructor].
      * intros C. apply List.app_eq_nil in C. destruct C. discriminate.
Qed.

Lemma decimalDigits_spec (n : Z) :
  (0 <= n)%Z ->
  decimal (map Z.of_nat (decimalDigits n)) = n /\
  Forall (fun d => (d <= 9)%nat) (decimalDigits n) /\
  decimalDigits n <> [].
Proof.
  intros Hn. unfold decimalDigits.
  destruct (digitsFuel_spec (Z.to_nat (Z.log2 n)) n []) as (ds & Hd & Hv & Hf & Hne).
  - split; [exact Hn|].
    rewrite Nat2Z.inj_succ, Z2Nat.id by apply Z.log2_nonneg.
    destruct (Z.eq_dec n 0%Z) as [-> | Hz]; [reflexivity|].
    pose proof (Z.log2_spec n ltac:(lia)) as [_ Hl].
    eapply Z.lt_le_trans; [exact Hl|].
    apply Z.pow_le_mono_l. pose proof (Z.log2_nonneg n). lia.
  - rewrite Hd, List.app_nil_r. auto.
Qed.

Lemma grouped_render (ds : list nat) : grouped ds = render (groupTokens ds).
Proof.
  induction ds as [|d r IH]; [reflexivity|].
  cbn [grouped groupTokens].
  destruct ((0 <? List.length r)%nat && (List.length r mod 3 =? 0)%nat);
    cbn [render fold_right renderToken String.append]; now rewrite IH.
Qed.

Lemma groupTokens_digits (ds : list nat) :
  tokenDigits (groupTokens ds) = map Z.of_nat ds.
Proof.
  unfold tokenDigits. induction ds as [|d r IH]; [reflexivity|].
  cbn [groupTokens].
  destruct ((0 <? List.length r)%nat && (List.length r mod 3 =? 0)%nat);
    cbn [flat_map app map]; now rewrite IH.
Qed.

Lemma groupTokens_wellFormed (ds : list nat) :
  Forall (fun d => (d <= 9)%nat) ds -> wellFormed (groupTokens ds).
Proof.
  induction 1 as [|d r Hd _ IH]; [constructor|].
  cbn [groupTokens].
  unfold wellFormed in *.
  destruct ((0 <? List.length r)%nat && (List.length r mod 3 =? 0)%nat);
    repeat (apply List.Forall_cons; [first [exact Hd | exact I]|]); exact IH.
Qed.

(** The parse of a price made of naira signs, commas and digits. *)
Lemma parsePrice_render (ts : list PriceToken) :
  wellFormed ts ->
  parsePrice (render ts) =
  match tokenDigits ts with
  | [] => NaN
  | ds => Fin (Qred (inject_Z (decimal ds) * 1))
  end.
Proof.
  intros W. unfold parsePrice.
  assert (NotFree : String.eqb (render ts) "Free" = false).
  { destruct ts as [|t ts]; [reflexivity|].
    inversion W as [|? ? Ht _]; subst.
    destruct t as [| |d]; try reflexivity.
    change (render (Digit d :: ts))
      with (String (ascii_of_nat (48 + d)) (render ts)).
    digit_cases d; reflexivity. }
  rewrite NotFree, (strip_render ts W), <- (tokenDigits_filter ts).
  apply parseFloat_digits.
  - unfold wellFormed in *. rewrite List.Forall_forall in *.
    intros t Ht. apply List.filter_In in Ht. now apply W.
  - apply List.Forall_forall. intros t Ht. now apply List.filter_In in Ht.
Qed.

Lemma parsePrice_formatPrice (p : Z) :
  (0 <= p)%Z -> eqb (parsePrice (formatPrice p)) (ofZ p) = true.
Proof.
  intros Hp. unfold formatPrice.
  destruct (Z.eqb_spec p 0%Z) as [-> | Hz]; [reflexivity|].
  unfold toLocaleString. destruct (Z.ltb_spec p 0%Z) as [? | _]; [lia|].
  destruct (decimalDigits_spec p Hp) as (Hv & Hf & Hne).
  rewrite grouped_render.
  change ("₦" ++ render (groupTokens (decimalDigits p)))%string
    with (render (Naira :: groupTokens (decimalDigits p))).
  rewrite parsePrice_render
    by (constructor; [exact I | now apply groupTokens_wellFormed]).
  change (tokenDigits (Naira :: groupTokens (decimalDigits p)))
    with (tokenDigits (groupTokens (decimalDigits p))).
  rewrite groupTokens_digits.
  destruct (map Z.of_nat (decimalDigits p)) as [|d ds] eqn:E.
  - destruct (decimalDigits p); [congruence | discriminate].
  - rewrite Hv. simpl eqb. apply Qeq_bool_iff. rewrite Qred_correct.
    unfold ofZ. ring.
Qed.

End CatalogFacts.

Module PageFacts.

Import Js Index Ordering Catalog CatalogTokens IndexPage.
Import SortFacts NumberFacts PipelineFacts OrderFacts PriceFacts CatalogFacts.

(** X1.  The price column survives the page's formatting and parsing: a
    whole price of 0 or more, formatted by [fetchRealCourses] ("Free" for
    0, else the naira sign and the number grouped by commas), is parsed
    back by the price sort to the same number. *)
Theorem formatPrice_parsePrice_roundtrip (p : Z) :
  (0 <= p)%Z -> eqb (parsePrice (formatPrice p)) (ofZ p) = true.
Proof. apply parsePrice_formatPrice. Qed.

Lemma formatPrice_parsePrice_roundtrip_witness :
  formatPrice 1234567 = "₦1,234,567" /\
  eqb (parsePrice (formatPrice 1234567)) (ofZ 1234567) = true.
Proof.
  split; [reflexivity|].
  apply (formatPrice_parsePrice_roundtrip 1234567). lia.
Defined.

Lemma eqb_not_NaN (a b : number) : eqb a b = true -> a <> NaN.
Proof. destruct a; [discriminate | discriminate | discriminate]. Qed.

Lemma fetched_parses (data : option (list DbCourse)) :
  (forall rows, data = Some rows ->
     Forall (fun r => (0 <= db_price r)%Z) rows) ->
  Forall parses (fetchRealCourses data).
Proof.
  intros H. unfold fetchRealCourses.
  assert (M : Forall parses mockCourses)
    by (unfold parses; repeat constructor; discriminate).
  destruct data as [rows|]; [|exact M].
  destruct (0 <? List.length rows)%nat; [|exact M].
  specialize (H rows eq_refl). apply List.Forall_map.
  eapply List.Forall_impl; [|exact H]. intros r Hr. unfold parses. simpl.
  eapply eqb_not_NaN. now apply parsePrice_formatPrice.
Qed.

Lemma filterCourses_keeps (P : Course -> Prop) courses q lang lvl :
  Forall P courses -> Forall P (filterCourses courses q lang lvl).
Proof.
  rewrite filterCourses_passes, !List.Forall_forall. intros H c Hc.
  apply List.filter_In in Hc. now apply H.
Qed.

(** X2.  In a locale where [toLocaleString] groups the ASCII digits in
    thousands with commas (as [Catalog.toLocaleString] does), whatever rows
    the service returns (with whole prices of 0 or more), and also when it
    returns none or fails, every price of the catalogue that
    [fetchRealCourses] builds parses to a number; so for every query,
    filter and sort key the displayed list is in the key's order and the
    sort is stable, the price keys included.  (In a locale with other
    digits or separators the formatted price need not parse.) *)
Theorem fetched_catalogue_is_ordered data q lang lvl sortBy :
  (forall rows, data = Some rows ->
     Forall (fun r => (0 <= db_price r)%Z) rows) ->
  let input := filterCourses (fetchRealCourses data) q lang lvl in
  let out := applyFilters (fetchRealCourses data) q lang lvl sortBy in
  Forall (fun c => parsePrice (price c) <> NaN) input /\
  ordered sortBy input out /\ stable sortBy input out.
Proof.
  intros H input out.
  assert (P : Forall parses input)
    by (apply filterCourses_keeps, fetched_parses, H).
  split; [exact P|]. split.
  - apply sortCourses_ordered. intros _. exact P.
  - apply sortCourses_stable.
Qed.

Lemma fetched_catalogue_is_ordered_witness :
  let rows := [mkDbCourse 7 "Igbo Basics" (Some "Chioma Okafor") "Igbo"
                 "Beginner" 6 (Some 12%Z) 2500 "First steps.";
               mkDbCourse 8 "Hausa Basics" None "Hausa" "Beginner" 4 None 0
                 "First steps."] in
  map price (applyFilters (fetchRealCourses (Some rows)) "" "" "" "price-low")
    = ["Free"; "₦2,500"] /\
  ordered "price-low" (filterCourses (fetchRealCourses (Some rows)) "" "" "")
    (applyFilters (fetchRealCourses (Some rows)) "" "" "" "price-low").
Proof.
  cbv zeta. split; [reflexivity|].
  apply (fetched_catalogue_is_ordered
           (Some [mkDbCourse 7 "Igbo Basics" (Some "Chioma Okafor") "Igbo"
                    "Beginner" 6 (Some 12%Z) 2500 "First steps.";
                  mkDbCourse 8 "Hausa Basics" None "Hausa" "Beginner" 4 None 0
                    "First steps."]) "" "" "" "price-low").
  intros rows E. injection E as <-. repeat constructor; simpl; lia.
Defined.

(** X3.  The catalogue is never empty: when the service returns rows the
    catalogue has one course per row, in the same order and with the same
    ids; when it returns no row, no data, or fails, the catalogue is the
    three mock courses. *)
Theorem fetchRealCourses_never_empty (data : option (list DbCourse)) :
  fetchRealCourses data <> [] /\
  (forall rows, data = Some rows -> rows <> [] ->
     map id (fetchRealCourses data) = map db_id rows /\
     map students (fetchRealCourses data) =
       map (fun r => match enrollmentCount r with
                     | Some c => c
                     | None => 0%Z
                     end) rows) /\
  (data = None \/ data = Some [] -> fetchRealCourses data = mockCourses).
Proof.
  split; [|split].
  - unfold fetchRealCourses. destruct data as [[|r rows]|]; discriminate.
  - intros rows -> Hne. destruct rows as [|r rows]; [congruence|].
    unfold fetchRealCourses. cbn [List.length Nat.ltb Nat.leb].
    rewrite !List.map_map. split; reflexivity.
  - intros [-> | ->]; reflexivity.
Qed.

Lemma fetchRealCourses_never_empty_witness :
  fetchRealCourses (Some []) = mockCourses.
Proof.
  apply (proj2 (proj2 (fetchRealCourses_never_empty (Some [])))).
  right. reflexivity.
Defined.

(** X4.  No value of the sort menu of [SearchAndFilter] is a key that
    [applyFilters] sorts by: after any choice in the menu the displayed
    list is the filtered catalogue in the order it was fetched. *)
Theorem sort_menu_never_sorts (p : Page) (value : string) :
  In value SearchAndFilter.sortOptions ->
  displayed (onSort p value) =
  filterCourses (catalogue p) (searchQuery p) (selectedLanguage p)
    (selectedLevel p).
Proof.
  unfold SearchAndFilter.sortOptions, displayed, applyFilters. simpl.
  intros [<- | [<- | [<- | [<- | [<- | [<- | []]]]]]]; reflexivity.
Qed.

Lemma sort_menu_never_sorts_witness :
  map id (displayed (onSort (mkPage mockCourses "" "" "" "popular") "price_low"))
    = [1; 2; 3]%Z.
Proof.
  rewrite (sort_menu_never_sorts (mkPage mockCourses "" "" "" "popular")
             "price_low").
  - reflexivity.
  - simpl. auto 10.
Defined.

(** X5.  Through [SearchAndFilter] a filter can be replaced but not
    removed: choosing "all" in the language, level or price menu, or
    pressing its Clear button, leaves the page's query, language and level
    as they were; choosing any other non-empty language sets it. *)
Theorem search_filter_all_changes_nothing (p : Page) :
  onFilter p (SearchAndFilter.selectLanguage (filtersProp p) "all") = p /\
  onFilter p (SearchAndFilter.selectLevel (filtersProp p) "all") = p /\
  (forall value, onFilter p (SearchAndFilter.selectPrice (filtersProp p) value) = p) /\
  onFilter p SearchAndFilter.clearFilters = p /\
  (forall value, value <> "" -> value <> "all" ->
     onFilter p (SearchAndFilter.selectLanguage (filtersProp p) value) =
     onLanguageChange p value).
Proof.
  destruct p as [cat q lang lvl sb].
  unfold onFilter, filtersProp, onLanguageChange. simpl.
  repeat split.
  - destruct lvl; reflexivity.
  - destruct lang; reflexivity.
  - intros _. destruct lang, lvl; reflexivity.
  - intros value H1 H2. unfold SearchAndFilter.unlessAll.
    destruct (String.eqb_spec value "all"); [congruence|]. simpl.
    destruct value; [congruence|]. simpl. destruct lvl; reflexivity.
Qed.

Lemma search_filter_all_changes_nothing_witness :
  selectedLanguage
    (onFilter (mkPage mockCourses "" "yoruba" "" "popular")
       (SearchAndFilter.selectLanguage
          (filtersProp (mkPage mockCourses "" "yoruba" "" "popular")) "igbo"))
  = "igbo".
Proof.
  rewrite (proj2 (proj2 (proj2 (proj2
            (search_filter_all_changes_nothing
               (mkPage mockCourses "" "yoruba" "" "popular"))))) "igbo");
    [reflexivity | discriminate | discriminate].
Defined.

(** X6.  The "Clear Filters" button of the empty result shows the whole
    catalogue again: the displayed list is a permutation of the catalogue,
    whatever the query, filters and sort key were. *)
Theorem clearFilters_shows_everything (p : Page) :
  Permutation (displayed (clearFilters p)) (catalogue p).
Proof.
  unfold displayed, clearFilters, applyFilters. simpl.
  apply sortCourses_perm.
Qed.

End PageFacts.

(** ** More on uploads *)

Module UploadMoreFacts.

Import Js FileUploader UploadFacts.

Lemma lookup_map {A B} (g : A -> B) (l : list A) (i : nat) :
  map g l !! i = option_map g (l !! i).
Proof.
  revert i. induction l as [|x l IH]; intros [|i]; simpl; auto.
Qed.

Lemma sameFile_refl (f : File) : sameFile f f = true.
Proof. apply Nat.eqb_refl. Qed.

Lemma map_fixed {A} (g : A -> A) (l : list A) :
  Forall (fun x => g x = x) l -> map g l = l.
Proof. induction 1 as [|x l Hx _ IH]; simpl; [|rewrite Hx, IH]; reflexivity. Qed.

(** X7.  A file within the size limit whose extension or MIME type is
    accepted is tracked as exactly one new entry, the last: completed with
    the public URL and progress 100 when the storage service stores it, in
    error with the service's message (or "Upload failed") and progress 0
    when it does not.  Entries of other files keep their place and
    content.  One transfer is started, and [onUploadComplete] is called
    once on success and not at all on failure. *)
Theorem accepted_upload_tracks_one_entry props f random result tracked :
  (size f <= maxSize props * 1024 * 1024)%Z ->
  inAcceptedSet props f = true ->
  let out := uploadFile props f random result tracked in
  List.length (fst out) = S (List.length tracked) /\
  (exists u, last (fst out) = Some u /\ file u = f /\
     match result with
     | Stored publicUrl =>
         status u = completed /\ url u = Some publicUrl /\ progress u = 100%Z
     | Failed message =>
         status u = error /\ progress u = 0%Z /\
         errorText u = Some (if truthy message then message else "Upload failed")
     end) /\
  (forall i u, tracked !! i = Some u -> sameFile (file u) f = false ->
     fst out !! i = Some u) /\
  List.length (List.filter isTransfer (snd out)) = 1%nat /\
  List.length (List.filter isComplete (snd out)) =
    match result with Stored _ => 1%nat | Failed _ => 0%nat end.
Proof.
  intros Hs Ha out.
  assert (V : validateFile props f = None) by now apply validateFile_None.
  unfold out, uploadFile. rewrite V. clear out.
  destruct result as [publicUrl|message]; cbn [fst snd];
    (split; [now rewrite List.length_map, List.length_app, Nat.add_comm|]);
    (split; [|split; [|split; reflexivity]]).
  - eexists. rewrite List.map_app. cbn [map]. rewrite last_snoc.
    cbn [file]. rewrite sameFile_refl. split; [reflexivity|].
    repeat split.
  - intros i u Hi Hu. rewrite lookup_map, lookup_app_l
      by (eapply lookup_lt_Some; exact Hi).
    rewrite Hi. simpl. now rewrite Hu.
  - eexists. rewrite List.map_app. cbn [map]. rewrite last_snoc.
    cbn [file]. rewrite sameFile_refl. split; [reflexivity|].
    repeat split.
  - intros i u Hi Hu. rewrite lookup_map, lookup_app_l
      by (eapply lookup_lt_Some; exact Hi).
    rewrite Hi. simpl. now rewrite Hu.
Qed.

Lemma accepted_upload_tracks_one_entry_witness :
  let props := mkProps "course-materials" "" ".pdf, .docx" 100 in
  let f := mkFile 4 "Greetings.PDF" 2048 "" in
  List.length
    (fst (uploadFile props f "k3x9" (Stored "https://cdn/k3x9.PDF") []))
  = 1%nat.
Proof.
  cbv zeta.
  apply (accepted_upload_tracks_one_entry
           (mkProps "course-materials" "" ".pdf, .docx" 100)
           (mkFile 4 "Greetings.PDF" 2048 "")
           "k3x9" (Stored "https://cdn/k3x9.PDF") []).
  - simpl. lia.
  - reflexivity.
Defined.

(** X8.  Removing an upload undoes its tracking: when no tracked entry is
    of the file, uploading it (accepted, stored or not) and then removing
    it gives the tracked list back. *)
Theorem removeFile_undoes_upload props f random result tracked :
  (size f <= maxSize props * 1024 * 1024)%Z ->
  inAcceptedSet props f = true ->
  Forall (fun u => sameFile (file u) f = false) tracked ->
  removeFile f (fst (uploadFile props f random result tracked)) = tracked.
Proof.
  intros Hs Ha Hn.
  assert (V : validateFile props f = None) by now apply validateFile_None.
  assert (K : List.filter (fun u => negb (sameFile (file u) f)) tracked = tracked).
  { induction Hn as [|u l Hu _ IH]; [reflexivity|].
    simpl. now rewrite Hu, IH. }
  unfold removeFile, uploadFile. rewrite V.
  destruct result as [publicUrl|message]; cbn [fst];
    rewrite List.map_app, List.filter_app; cbn [map List.filter file];
    rewrite sameFile_refl; cbn [file negb];
    rewrite sameFile_refl; cbn [negb];
    rewrite List.app_nil_r;
    (rewrite map_fixed;
     [exact K
     | eapply List.Forall_impl; [|exact Hn]; intros u Hu; simpl;
       now rewrite Hu]).
Qed.

Lemma removeFile_undoes_upload_witness :
  let props := mkProps "course-videos" "lessons" "*/*" 100 in
  let f := mkFile 2 "intro.mp4" 4096 "video/mp4" in
  let other := mkUploadingFile (mkFile 1 "notes.pdf" 10 "application/pdf")
                 100 completed (Some "https://cdn/notes.pdf") None in
  removeFile f (fst (uploadFile props f "ab12" (Failed "") [other])) = [other].
Proof.
  cbv zeta.
  apply (removeFile_undoes_upload
           (mkProps "course-videos" "lessons" "*/*" 100)
           (mkFile 2 "intro.mp4" 4096 "video/mp4")).
  - simpl. lia.
  - reflexivity.
  - repeat constructor.
Defined.

Lemma lowerChar_not_upper (c : ascii) : isUpperCase (lowerChar c) = false.
Proof. destruct c as [[] [] [] [] [] [] [] []]; reflexivity. Qed.

Lemma toLowerCase_not_upper (s : string) : hasUpperCase (toLowerCase s) = false.
Proof.
  induction s as [|c r IH]; [reflexivity|].
  simpl. now rewrite lowerChar_not_upper, IH.
Qed.

Lemma fileExtension_not_upper (f : File) : hasUpperCase (fileExtension f) = false.
Proof.
  unfold fileExtension. destruct (pop (split "." (name f))) as [ext|].
  - simpl. apply toLowerCase_not_upper.
  - reflexivity.
Qed.

(** X9.  The extension of the file is compared in lower case with the
    accepted types as they are written: an accepted type that has a
    capital letter never matches an extension.  If every accepted type
    has one and none is the file's MIME type, the file is rejected. *)
Theorem capital_accept_type_rejects props f :
  accept props <> "*/*" ->
  (forall t, In t (map trim (split "," (accept props))) ->
     hasUpperCase t = true /\ t <> type f) ->
  exists reason, validateFile props f = Some reason.
Proof.
  intros Hw Ht.
  destruct (validateFile props f) as [reason|] eqn:V; [eauto|].
  apply validateFile_None in V. destruct V as [_ V].
  unfold inAcceptedSet in V. apply orb_true_iff in V.
  destruct V as [V|V]; [apply String.eqb_eq in V; congruence|].
  unfold isAccepted in V. apply List.existsb_exists in V.
  destruct V as (t & Hin & Hm). destruct (Ht t Hin) as [Hu Hne].
  apply orb_true_iff in Hm. destruct Hm as [Hm|Hm].
  - apply orb_true_iff in Hm. destruct Hm as [Hm|Hm].
    + apply String.eqb_eq in Hm. congruence.
    + apply String.eqb_eq in Hm.
      change (t = fileExtension f) in Hm.
      rewrite Hm, fileExtension_not_upper in Hu. discriminate.
  - apply String.eqb_eq in Hm. subst t. discriminate.
Qed.

Lemma capital_accept_type_rejects_witness :
  validateFile (mkProps "course-materials" "" ".PDF" 100)
    (mkFile 3 "notes.PDF" 1024 "")
  = Some "File type not supported. Accepted types: .PDF".
Proof.
  destruct (capital_accept_type_rejects
              (mkProps "course-materials" "" ".PDF" 100)
              (mkFile 3 "notes.PDF" 1024 "")) as [reason E].
  - discriminate.
  - simpl. intros t [<- | []]. split; [reflexivity | discriminate].
  - reflexivity.
Defined.

End UploadMoreFacts.

(** ** More on the quiz form *)

Module QuizMoreFacts.

Import Js QuizManager QuizFacts.

Lemma blank_invalid (newId : string) :
  invalid (mkQuestion newId "" [""; ""; ""; ""] 0 (Some "")) = true.
Proof. reflexivity. Qed.

(** X10.  A question that was just added is blank, and a blank question
    blocks the save: whatever else the form holds, submitting right after
    [addQuestion] is answered "Please fill in all question fields" and
    sends nothing. *)
Theorem blank_question_blocks_save (form : Form) (newId : string)
    (serviceError : bool) :
  handleSubmit (addQuestion form newId) serviceError =
  [ToastError "Please fill in all question fields"].
Proof.
  unfold handleSubmit, addQuestion. cbn [formQuestions withQuestions].
  rewrite List.length_app. cbn [List.length].
  replace (List.length (formQuestions form) + 1 =? 0)%nat with false
    by (symmetry; apply Nat.eqb_neq; lia).
  rewrite List.filter_app. cbn [List.filter]. rewrite blank_invalid.
  rewrite List.length_app. cbn [List.length].
  replace (0 <? _ + 1)%nat with true
    by (symmetry; apply Nat.ltb_lt; lia).
  reflexivity.
Qed.

(** [map] with an index that replaces one position is an insert. *)
Lemma imap_replace {A} (k : nat) (v : A) (l : list A) :
  imap (fun i x => if Nat.eqb i k then v else x) l = <[k := v]> l.
Proof.
  apply list_eq. intros i. rewrite list_lookup_imap.
  destruct (Nat.eqb_spec i k) as [->|Hne].
  - destruct (l !! k) as [x|] eqn:E; simpl.
    + symmetry. apply list_lookup_insert_eq. eapply lookup_lt_Some. exact E.
    + apply lookup_ge_None in E. rewrite list_insert_ge by exact E.
      symmetry. now apply lookup_ge_None.
  - rewrite list_lookup_insert_ne by congruence.
    destruct (l !! i); reflexivity.
Qed.

(** X11.  [updateQuestionOption] changes one option of one question: the
    number of questions is the same, every other question is untouched,
    and the question at the index keeps its id, prompt, correct answer and
    explanation while its options are the old ones with the one at the
    option index replaced (and unchanged when that index is out of
    range). *)
Theorem updateQuestionOption_changes_one_option (form : Form)
    (questionIndex optionIndex : nat) (value : string) :
  let qs := formQuestions form in
  let qs' := formQuestions
               (updateQuestionOption form questionIndex optionIndex value) in
  List.length qs' = List.length qs /\
  (forall j, j <> questionIndex -> qs' !! j = qs !! j) /\
  (qs !! questionIndex = None -> qs' = qs) /\
  (forall q, qs !! questionIndex = Some q ->
     exists q', qs' !! questionIndex = Some q' /\
       qid q' = qid q /\ question q' = question q /\
       correctAnswer q' = correctAnswer q /\ explanation q' = explanation q /\
       options q' = <[optionIndex := value]> (options q) /\
       List.length (options q') = List.length (options q)).
Proof.
  cbv zeta. unfold updateQuestionOption. cbn [formQuestions withQuestions].
  split; [apply length_imap|]. split; [|split].
  - intros j Hj. rewrite list_lookup_imap.
    destruct (Nat.eqb_spec j questionIndex); [congruence|].
    destruct (formQuestions form !! j); reflexivity.
  - intros Hn. apply list_eq. intros j. rewrite list_lookup_imap.
    destruct (Nat.eqb_spec j questionIndex) as [->|];
      [rewrite Hn | destruct (formQuestions form !! j)]; reflexivity.
  - intros q Hq. eexists. rewrite list_lookup_imap, Hq. cbn [fmap option_fmap option_map].
    rewrite Nat.eqb_refl. split; [reflexivity|]. cbn.
    rewrite imap_replace. repeat split. apply length_insert.
Qed.

Lemma updateQuestionOption_changes_one_option_witness :
  let form := addQuestion (mkForm "lesson-1" "Quiz" "" 70 None [] None) "q1" in
  exists q', formQuestions (updateQuestionOption form 0 2 "Bawo") !! 0%nat
             = Some q' /\
             options q' = [""; ""; "Bawo"; ""].
Proof.
  cbv zeta.
  destruct (proj2 (proj2 (proj2 (updateQuestionOption_changes_one_option
              (addQuestion (mkForm "lesson-1" "Quiz" "" 70 None [] None) "q1")
              0 2 "Bawo")))
              (mkQuestion "q1" "" [""; ""; ""; ""] 0 (Some "")) eq_refl)
    as (q' & Hq & _ & _ & _ & _ & Ho & _).
  exists q'. split; [exact Hq | exact Ho].
Defined.

Lemma filterIndex_later {A} (k : nat) (l : list A) : forall start,
  (k < start)%nat ->
  filterIndex (fun i => negb (Nat.eqb i k)) start l = l.
Proof.
  induction l as [|x l IH]; intros start H; [reflexivity|].
  cbn [filterIndex]. destruct (Nat.eqb_spec start k); [lia|]. cbn [negb].
  rewrite IH by lia. reflexivity.
Qed.

Lemma filterIndex_remove {A} (l : list A) : forall (start index : nat),
  filterIndex (fun i => negb (Nat.eqb i (start + index))) start l =
  take index l ++ drop (S index) l.
Proof.
  induction l as [|x l IH]; intros start index; [now destruct index|].
  cbn [filterIndex]. destruct index as [|index].
  - rewrite Nat.add_0_r, Nat.eqb_refl. cbn [negb take drop app].
    apply filterIndex_later. lia.
  - destruct (Nat.eqb_spec start (start + S index)); [lia|]. cbn [negb].
    specialize (IH (S start) index).
    replace (S start + index)%nat with (start + S index)%nat in IH by lia.
    rewrite IH. reflexivity.
Qed.

(** X12.  [removeQuestion] removes the question at the index and no
    other: what is left is the questions before it followed by the
    questions after it, one fewer when the index is in range and the same
    list when it is not. *)
Theorem removeQuestion_removes_one (form : Form) (index : nat) :
  let qs := formQuestions form in
  let qs' := formQuestions (removeQuestion form index) in
  qs' = take index qs ++ drop (S index) qs /\
  ((index < List.length qs)%nat -> S (List.length qs') = List.length qs) /\
  ((List.length qs <= index)%nat -> qs' = qs).
Proof.
  cbv zeta. unfold removeQuestion. cbn [formQuestions withQuestions].
  pose proof (filterIndex_remove (formQuestions form) 0 index) as E.
  cbn [Nat.add] in E. rewrite E. clear E.
  split; [reflexivity|]. split.
  - intros H. rewrite List.length_app, length_take, length_drop. lia.
  - intros H. rewrite take_ge, drop_ge by lia. apply List.app_nil_r.
Qed.

Lemma removeQuestion_removes_one_witness :
  let q := fun n => mkQuestion n n ["a"; "b"; "c"; "d"] 0 None in
  let form := mkForm "lesson-1" "Quiz" "" 70 None [q "1"; q "2"; q "3"] None in
  List.length (formQuestions (removeQuestion form 1)) = 2%nat.
Proof.
  cbv zeta.
  pose proof (proj1 (proj2 (removeQuestion_removes_one
    (mkForm "lesson-1" "Quiz" "" 70 None
       [mkQuestion "1" "1" ["a"; "b"; "c"; "d"] 0 None;
        mkQuestion "2" "2" ["a"; "b"; "c"; "d"] 0 None;
        mkQuestion "3" "3" ["a"; "b"; "c"; "d"] 0 None] None) 1))) as H.
  cbv zeta in H. apply eq_add_S. apply H. simpl. lia.
Defined.

Lemma setField_options (q : Question) (fv : FieldValue) :
  (forall v, fv <> SetOptions v) -> options (setField q fv) = options q.
Proof. destruct fv; intros H; try reflexivity. now destruct (H value). Qed.

Lemma filterIndex_Forall {A} (P : A -> Prop) keep (l : list A) : forall start,
  Forall P l -> Forall P (filterIndex keep start l).
Proof.
  induction l as [|x l IH]; intros start H; [constructor|].
  inversion H; subst. cbn [filterIndex].
  destruct (keep start); [constructor|]; auto.
Qed.

(** X13.  Four options for every question is an invariant of the form:
    adding a question, removing one, editing an option and editing any
    field but the option list itself all keep it. *)
Theorem four_options_invariant (form : Form) :
  fourOptions form ->
  (forall newId, fourOptions (addQuestion form newId)) /\
  (forall index, fourOptions (removeQuestion form index)) /\
  (forall qi oi value, fourOptions (updateQuestionOption form qi oi value)) /\
  (forall index fv, (forall v, fv <> SetOptions v) ->
     fourOptions (updateQuestion form index fv)).
Proof.
  unfold fourOptions. intros H. split; [|split; [|split]].
  - intros newId. cbn. apply List.Forall_app. split; [exact H|].
    repeat constructor.
  - intros index. cbn. now apply filterIndex_Forall.
  - intros qi oi value. cbn. apply Forall_lookup. intros i q Hq.
    rewrite list_lookup_imap in Hq.
    destruct (formQuestions form !! i) as [q0|] eqn:E; [|discriminate].
    cbn in Hq. injection Hq as <-.
    pose proof (Forall_lookup_1 _ _ _ _ H E) as H0.
    destruct (Nat.eqb i qi); [|exact H0].
    cbn. now rewrite length_imap.
  - intros index fv Hfv. cbn. apply Forall_lookup. intros i q Hq.
    rewrite list_lookup_imap in Hq.
    destruct (formQuestions form !! i) as [q0|] eqn:E; [|discriminate].
    cbn in Hq. injection Hq as <-.
    pose proof (Forall_lookup_1 _ _ _ _ H E) as H0.
    destruct (Nat.eqb i index); [|exact H0].
    now rewrite setField_options.
Qed.

Lemma four_options_invariant_witness :
  fourOptions (updateQuestionOption
                 (addQuestion (mkForm "lesson-1" "Quiz" "" 70 None [] None) "q1")
                 0 2 "Bawo").
Proof.
  apply (four_options_invariant
           (addQuestion (mkForm "lesson-1" "Quiz" "" 70 None [] None) "q1")).
  repeat constructor.
Defined.

Lemma orNullNumber_idem (n : option Z) :
  orNullNumber (orNullNumber n) = orNullNumber n.
Proof.
  destruct n as [z|]; [|reflexivity]. simpl.
  destruct (Z.eqb_spec z 0); [reflexivity|]. simpl.
  destruct (Z.eqb_spec z 0); [congruence | reflexivity].
Qed.

(** X14.  Opening a quiz for editing and saving it unchanged sends one
    update of that quiz, with its title, questions and passing score as
    they were; an empty description and a time limit of 0 are sent as
    null.  The draft must have a question and no invalid one, as for any
    save. *)
Theorem edit_unchanged_quiz_sends_update (form : Form) (quiz : Quiz) :
  questions quiz <> [] ->
  Forall (fun q => invalid q = false) (questions quiz) ->
  handleSubmit (openEditDialog form quiz) false =
  [Update (id quiz)
     (mkQuizData (lessonId form) (title quiz)
        (match description quiz with
         | Some d => orNullString d
         | None => None
         end)
        (questions quiz) (passing_score quiz)
        (orNullNumber (time_limit_minutes quiz)));
   ToastSuccess "Quiz updated successfully";
   SetDialogOpen false; FetchQuizzes; OnQuizCreated].
Proof.
  intros Hne Hv. unfold handleSubmit, openEditDialog.
  cbn [formQuestions lessonId formTitle formDescription passingScore
       timeLimit editingQuiz].
  destruct (questions quiz) as [|q0 qs] eqn:Q; [congruence|].
  cbn [List.length Nat.eqb].
  apply length_filter_zero in Hv. rewrite Hv.
  rewrite orNullNumber_idem.
  destruct (description quiz); reflexivity.
Qed.

Lemma edit_unchanged_quiz_sends_update_witness :
  let quiz := mkQuiz "quiz-9" "Greetings" (Some "") 
                [mkQuestion "q1" "Good morning?" ["E kaaro"; "E kaasan"; "E kaale"; "O dabo"] 0 None]
                70 (Some 0%Z) in
  hd_error (handleSubmit (openEditDialog (mkForm "lesson-1" "" "" 70 None [] None) quiz) false)
  = Some (Update "quiz-9"
            (mkQuizData "lesson-1" "Greetings" None (questions quiz) 70 None)).
Proof.
  cbv zeta.
  rewrite (edit_unchanged_quiz_sends_update
             (mkForm "lesson-1" "" "" 70 None [] None)
             (mkQuiz "quiz-9" "Greetings" (Some "")
                [mkQuestion "q1" "Good morning?"
                   ["E kaaro"; "E kaasan"; "E kaale"; "O dabo"] 0 None]
                70 (Some 0%Z))).
  - reflexivity.
  - discriminate.
  - repeat constructor.
Defined.

End QuizMoreFacts.

(** ** More on notifications *)

Module NotificationMoreFacts.

Import NotificationCenter.

Local Open Scope Z_scope.

Lemma unread_find_delete (i : string) (l : list Notification) :
  List.NoDup (map id l) ->
  Z.of_nat (List.length (List.filter isUnread
              (List.filter (fun n => negb (String.eqb (id n) i)) l))) =
  Z.of_nat (List.length (List.filter isUnread l)) -
  match List.find (fun n => String.eqb (id n) i) l with
  | Some n => if isUnread n then 1 else 0
  | None => 0
  end.
Proof.
  induction l as [|n r IH]; intros N; [reflexivity|].
  inversion N as [|? ? Hn Nr]; subst. specialize (IH Nr).
  cbn [List.filter List.find].
  destruct (String.eqb_spec (id n) i) as [E|E]; cbn [negb].
  - assert (K : List.filter (fun m => negb (String.eqb (id m) i)) r = r).
    { apply PipelineFacts.filter_fixed. apply List.Forall_forall.
      intros m Hm. apply negb_true_iff, String.eqb_neq. intros E'.
      apply Hn. rewrite E, <- E'. now apply List.in_map. }
    rewrite K. destruct (isUnread n); cbn [List.length]; lia.
  - cbn [List.filter]. destruct (isUnread n); cbn [List.length]; lia.
Qed.

Lemma unread_mark (i : string) (l : list Notification) :
  List.NoDup (map id l) ->
  Z.of_nat (List.length (List.filter isUnread
              (map (fun n => if String.eqb (id n) i then markRead n else n) l))) =
  Z.of_nat (List.length (List.filter isUnread l)) -
  match List.find (fun n => String.eqb (id n) i) l with
  | Some n => if isUnread n then 1 else 0
  | None => 0
  end.
Proof.
  induction l as [|n r IH]; intros N; [reflexivity|].
  inversion N as [|? ? Hn Nr]; subst. specialize (IH Nr).
  cbn [map List.filter List.find].
  destruct (String.eqb_spec (id n) i) as [E|E].
  - assert (K : map (fun m => if String.eqb (id m) i then markRead m else m) r = r).
    { apply UploadMoreFacts.map_fixed. apply List.Forall_forall.
      intros m Hm. destruct (String.eqb_spec (id m) i) as [E'|]; [|reflexivity].
      exfalso. apply Hn. rewrite E, <- E'. now apply List.in_map. }
    rewrite K. change (isUnread (markRead n)) with false.
    destruct (isUnread n); cbn [List.length]; lia.
  - destruct (isUnread n); cbn [List.length]; lia.
Qed.

(** X15.  After [markAllAsRead] every notification is read, the list has
    the same notifications in the same order (each one with its id, type,
    title, message, time and link as before, and read), the unread count,
    0, is the number of unread notifications, and calling it again changes
    nothing. *)
Theorem markAllAsRead_is_consistent (st : State) :
  consistent (markAllAsRead st) /\
  Forall (fun n => read n = true) (notifications (markAllAsRead st)) /\
  Forall2 (fun before after =>
             id after = id before /\ type after = type before /\
             title after = title before /\ message after = message before /\
             created_at after = created_at before /\
             action_url after = action_url before /\ read after = true)
    (notifications st) (notifications (markAllAsRead st)) /\
  markAllAsRead (markAllAsRead st) = markAllAsRead st.
Proof.
  unfold consistent, unread, markAllAsRead. cbn [notifications unreadCount].
  assert (F : forall l : list Notification,
            List.filter (fun n => negb (read n)) (map markRead l) = []).
  { induction l as [|n l IH]; [reflexivity|]. simpl. exact IH. }
  split; [|split; [|split]].
  - change (fun n => mkNotification (id n) (type n) (title n) (message n) true
                       (created_at n) (action_url n)) with markRead.
    now rewrite F.
  - apply List.Forall_map. apply List.Forall_forall. reflexivity.
  - induction (notifications st) as [|n l IH]; constructor;
      [repeat split|exact IH].
  - f_equal. rewrite List.map_map. reflexivity.
Qed.

(** X16.  When the ids of the notifications are distinct, deleting a
    notification keeps the unread count equal to the number of unread
    notifications, and no notification of that id is left. *)
Theorem deleteNotification_keeps_count (notificationId : string) (st : State) :
  List.NoDup (map id (notifications st)) ->
  consistent st ->
  consistent (deleteNotification notificationId st) /\
  ~ In notificationId (map id (notifications (deleteNotification notificationId st))).
Proof.
  intros N C. split.
  - unfold consistent, unread in *. unfold deleteNotification.
    cbn [notifications unreadCount].
    pose proof (unread_find_delete notificationId (notifications st) N) as U.
    unfold isUnread in U. rewrite U, C.
    destruct (List.find _ (notifications st)) as [n|] eqn:F; [|lia].
    destruct (negb (read n)) eqn:R; [|lia].
    apply List.find_some in F. destruct F as [Hin _].
    assert (In n (List.filter (fun n => negb (read n)) (notifications st)))
      by (apply List.filter_In; auto).
    destruct (List.filter (fun n => negb (read n)) (notifications st));
      [contradiction|]. cbn [List.length]. lia.
  - unfold deleteNotification. cbn [notifications].
    rewrite List.in_map_iff. intros (n & E & Hin).
    apply List.filter_In in Hin. destruct Hin as [_ Hne].
    apply negb_true_iff, String.eqb_neq in Hne. congruence.
Qed.

Lemma deleteNotification_keeps_count_witness :
  consistent (deleteNotification "1"
                (mkState [sampleNotification "1" false;
                          sampleNotification "2" true] 1)).
Proof.
  apply (deleteNotification_keeps_count "1"
           (mkState [sampleNotification "1" false;
                     sampleNotification "2" true] 1)).
  - simpl. repeat constructor; simpl; intuition discriminate.
  - reflexivity.
Defined.

(** X17.  When the ids are distinct, marking an unread notification as
    read keeps the unread count equal to the number of unread
    notifications. *)
Theorem markAsRead_unread_keeps_count (notificationId : string) (st : State) :
  List.NoDup (map id (notifications st)) ->
  consistent st ->
  (exists n, In n (notifications st) /\ id n = notificationId /\ read n = false) ->
  consistent (markAsRead notificationId st).
Proof.
  intros N C (n & Hin & Hid & Hr).
  unfold consistent, unread in *. unfold markAsRead.
  cbn [notifications unreadCount].
  pose proof (unread_mark notificationId (notifications st) N) as U.
  unfold isUnread, markRead in U. rewrite U, C.
  assert (In n (List.filter (fun n => negb (read n)) (notifications st)))
    by (apply List.filter_In; rewrite Hr; auto).
  destruct (List.find _ (notifications st)) as [m|] eqn:F.
  - apply List.find_some in F. destruct F as [Hm Em].
    apply String.eqb_eq in Em.
    assert (m = n).
    { clear - N Hin Hm Em Hid. induction (notifications st) as [|x l IH];
        [contradiction|].
      inversion N as [|? ? Hx Nl]; subst.
      destruct Hin as [<-|Hin], Hm as [<-|Hm]; auto.
      - exfalso. apply Hx. rewrite <- Em. now apply List.in_map.
      - exfalso. apply Hx. rewrite Em. now apply List.in_map. }
    subst m. rewrite Hr. cbn [negb].
    destruct (List.filter (fun n => negb (read n)) (notifications st));
      [contradiction|]. cbn [List.length]. lia.
  - exfalso. eapply List.find_none in F; [|exact Hin].
    apply String.eqb_neq in F. congruence.
Qed.

Lemma markAsRead_unread_keeps_count_witness :
  consistent (markAsRead "1"
                (mkState [sampleNotification "1" false;
                          sampleNotification "2" false] 2)).
Proof.
  apply (markAsRead_unread_keeps_count "1"
           (mkState [sampleNotification "1" false;
                     sampleNotification "2" false] 2)).
  - simpl. repeat constructor; simpl; intuition discriminate.
  - reflexivity.
  - eexists. split; [left; reflexivity|]. split; reflexivity.
Defined.

(** X18.  [markAsRead] lowers the unread count whether or not it marks
    anything: called for a notification that is already read, or for an
    id that is not in the list, it leaves the list's unread notifications
    as they are and still takes one off a positive count, so a count that
    was right is one too low afterwards. *)
Theorem markAsRead_read_lowers_count (notificationId : string) (st : State) :
  consistent st ->
  0 < unreadCount st ->
  (forall n, In n (notifications st) -> id n = notificationId -> read n = true) ->
  unread (markAsRead notificationId st) = unread st /\
  unreadCount (markAsRead notificationId st) = unread st - 1 /\
  ~ consistent (markAsRead notificationId st).
Proof.
  intros C P H.
  assert (U : unread (markAsRead notificationId st) = unread st).
  { unfold unread, markAsRead. cbn [notifications]. do 2 f_equal.
    induction (notifications st) as [|n l IH]; [reflexivity|].
    cbn [map List.filter].
    rewrite IH by (intros m Hm; apply H; now right).
    destruct (String.eqb_spec (id n) notificationId) as [E|E]; [|reflexivity].
    rewrite (H n (or_introl eq_refl) E). reflexivity. }
  assert (K : unreadCount (markAsRead notificationId st) = unread st - 1).
  { unfold markAsRead. cbn [unreadCount]. rewrite <- C. lia. }
  split; [exact U|]. split; [exact K|].
  unfold consistent. rewrite U, K. lia.
Qed.

Lemma markAsRead_read_lowers_count_witness :
  unreadCount (markAsRead "2"
                 (mkState [sampleNotification "1" false;
                           sampleNotification "2" true] 1)) = 0.
Proof.
  destruct (markAsRead_read_lowers_count "2"
              (mkState [sampleNotification "1" false;
                        sampleNotification "2" true] 1)) as (_ & K & _).
  - reflexivity.
  - simpl. lia.
  - simpl. intros n [<- | [<- | []]]; [discriminate | reflexivity].
  - exact K.
Defined.

(** X19.  [formatTimeAgo] in milliseconds: a date less than a minute ago,
    or in the future, is "Just now"; up to an hour it is 1 to 59 minutes,
    up to a day 1 to 23 hours, up to a week 1 to 6 days; from a week on it
    is the locale's date. *)
Theorem formatTimeAgo_buckets (nowMs dateMs : Z) (localeDate : string) :
  let elapsed := nowMs - dateMs in
  let shown := formatTimeAgo nowMs dateMs localeDate in
  (elapsed < 60000 -> shown = "Just now") /\
  (60000 <= elapsed < 3600000 ->
     exists k, 1 <= k <= 59 /\
       shown = (NilZero.string_of_int (Z.to_int k) ++ " minutes ago")%string) /\
  (3600000 <= elapsed < 86400000 ->
     exists k, 1 <= k <= 23 /\
       shown = (NilZero.string_of_int (Z.to_int k) ++ " hours ago")%string) /\
  (86400000 <= elapsed < 604800000 ->
     exists k, 1 <= k <= 6 /\
       shown = (NilZero.string_of_int (Z.to_int k) ++ " days ago")%string) /\
  (604800000 <= elapsed -> shown = localeDate).
Proof.
  cbv zeta. unfold formatTimeAgo.
  set (d := (nowMs - dateMs) / 1000).
  assert (D : 1000 * d <= nowMs - dateMs < 1000 * d + 1000).
  { unfold d. Z.to_euclidean_division_equations. lia. }
  repeat split.
  - intros H. destruct (Z.ltb_spec d 60); [reflexivity | lia].
  - intros H. destruct (Z.ltb_spec d 60); [lia|].
    destruct (Z.ltb_spec d 3600); [|lia].
    exists (d / 60). split; [|reflexivity].
    Z.to_euclidean_division_equations. lia.
  - intros H. destruct (Z.ltb_spec d 60); [lia|].
    destruct (Z.ltb_spec d 3600); [lia|].
    destruct (Z.ltb_spec d 86400); [|lia].
    exists (d / 3600). split; [|reflexivity].
    Z.to_euclidean_division_equations. lia.
  - intros H. destruct (Z.ltb_spec d 60); [lia|].
    destruct (Z.ltb_spec d 3600); [lia|].
    destruct (Z.ltb_spec d 86400); [lia|].
    destruct (Z.ltb_spec d 604800); [|lia].
    exists (d / 86400). split; [|reflexivity].
    Z.to_euclidean_division_equations. lia.
  - intros H. destruct (Z.ltb_spec d 60); [lia|].
    destruct (Z.ltb_spec d 3600); [lia|].
    destruct (Z.ltb_spec d 86400); [lia|].
    destruct (Z.ltb_spec d 604800); [lia | reflexivity].
Qed.

Lemma formatTimeAgo_buckets_witness :
  formatTimeAgo 1800000 0 "1/1/2025" = "30 minutes ago" /\
  formatTimeAgo 0 5000 "1/1/2025" = "Just now".
Proof.
  split; [reflexivity|].
  apply (proj1 (formatTimeAgo_buckets 0 5000 "1/1/2025")). lia.
Defined.

End NotificationMoreFacts.

(** ** More on enrolment *)

Module EnrollmentMoreFacts.

Import Js Enrollments EnrollmentFacts.

Lemma button_creates_only_when_guarded_witness :
  exists profile,
    EnrollmentButton.userProfile
      (EnrollmentButton.mkProps "course-1" "Complete Yoruba" true true
         (Some (mkProfile "student-1" "student"))) = Some profile /\
    role profile = "student".
Proof.
  destruct (button_creates_only_when_guarded
              (EnrollmentButton.mkProps "course-1" "Complete Yoruba" true true
                 (Some (mkProfile "student-1" "student")))
              None []) as (profile & _ & P & R & _).
  - discriminate.
  - exists profile. split; [exact P | exact R].
Defined.

Lemma button_second_attempt_conflicts_witness :
  let props := EnrollmentButton.mkProps "course-1" "Complete Yoruba" true true
                 (Some (mkProfile "student-1" "student")) in
  snd (EnrollmentButton.handleEnroll props None
         (fst (EnrollmentButton.handleEnroll props None []))) =
  [ConsoleError "23505"; ToastError "You are already enrolled in this course"].
Proof.
  cbv zeta.
  apply (button_second_attempt_conflicts
           (EnrollmentButton.mkProps "course-1" "Complete Yoruba" true true
              (Some (mkProfile "student-1" "student")))
           (mkProfile "student-1" "student") []); reflexivity.
Defined.

(** X22.  The button that calls [handleEnroll] is shown enabled exactly
    when the state is loaded, the viewer is signed in and is not a
    teacher, the component holds no enrolment of theirs, no click is in
    progress and the course is published.  A signed-in teacher sees the
    teacher badge, whatever the course and its enrolments. *)
Theorem enroll_button_enabled_iff (props : EnrollmentButton.Props)
    (st : EnrollmentButton.Local) :
  ((exists label,
      EnrollmentButton.view props st = EnrollmentButton.EnrollButton false label) <->
   EnrollmentButton.loading st = false /\
   EnrollmentButton.user props = true /\
   EnrollmentButton.isTeacher (EnrollmentButton.userProfile props) = false /\
   EnrollmentButton.enrollment st = None /\
   EnrollmentButton.enrolling st = false /\
   EnrollmentButton.isPublished props = true) /\
  (EnrollmentButton.loading st = false ->
   EnrollmentButton.user props = true ->
   EnrollmentButton.isTeacher (EnrollmentButton.userProfile props) = true ->
   EnrollmentButton.view props st = EnrollmentButton.TeacherView).
Proof.
  unfold EnrollmentButton.view. split.
  - destruct (EnrollmentButton.loading st), (EnrollmentButton.user props),
      (EnrollmentButton.isTeacher (EnrollmentButton.userProfile props)),
      (EnrollmentButton.enrollment st), (EnrollmentButton.enrolling st),
      (EnrollmentButton.isPublished props); simpl;
      (split;
       [ intros [label H]; first [discriminate H | repeat split; reflexivity]
       | intros (? & ? & ? & ? & ? & ?);
         first [congruence | eexists; reflexivity] ]).
  - intros -> -> ->. reflexivity.
Qed.

Lemma enroll_button_enabled_iff_witness :
  EnrollmentButton.view
    (EnrollmentButton.mkProps "course-1" "Complete Yoruba" true true
       (Some (mkProfile "teacher-1" "teacher")))
    (EnrollmentButton.mkLocal false false None None 15000)
  = EnrollmentButton.TeacherView.
Proof.
  apply (proj2 (enroll_button_enabled_iff
                  (EnrollmentButton.mkProps "course-1" "Complete Yoruba" true
                     true (Some (mkProfile "teacher-1" "teacher")))
                  (EnrollmentButton.mkLocal false false None None 15000)));
    reflexivity.
Defined.

(** X23.  On the course page the "Enroll Now" button is shown only to a
    signed-in student who is not the owner and has no enrolment on the
    page, and who therefore cannot open the lessons.  Behind that button
    [handleEnroll] always goes to the insert: none of its guards can
    fire. *)
Theorem enroll_now_always_inserts (page : CourseDetail.Page)
    (enrollment : option Row) (enrolling disabled : bool)
    (fault : option string) (table : list Row) :
  CourseDetail.view page enrollment enrolling = CourseDetail.EnrollNow disabled ->
  exists profile,
    CourseDetail.userProfile page = Some profile /\
    role profile = "student" /\
    enrollment = None /\
    CourseDetail.canAccessLessons page enrollment = false /\
    CourseDetail.handleEnroll page fault table =
      match insert fault (mkValues (CourseDetail.courseId page) (id profile) None)
              table with
      | (table', Some _) => (table', [ToastError "Failed to enroll in course"])
      | (table', None) =>
          (table', [ToastSuccess "Successfully enrolled in course!";
                    CheckEnrollment])
      end.
Proof.
  unfold CourseDetail.view, CourseDetail.canAccessLessons,
    CourseDetail.handleEnroll, CourseDetail.isOwner, CourseDetail.isStudent.
  destruct (CourseDetail.user page); simpl; [|discriminate].
  destruct (CourseDetail.userProfile page) as [profile|]; [|discriminate].
  destruct (String.eqb (id profile) (CourseDetail.teacher_id (CourseDetail.course page)));
    [discriminate|].
  destruct (String.eqb_spec (role profile) "student") as [R|]; simpl;
    [|discriminate].
  destruct enrollment; [discriminate|]. intros _.
  exists profile. repeat split; try assumption.
Qed.

Lemma enroll_now_always_inserts_witness :
  exists profile,
    CourseDetail.userProfile
      (CourseDetail.mkPage "course-1"
         (CourseDetail.mkCourse "course-1" "teacher-1" false) true
         (Some (mkProfile "student-1" "student"))) = Some profile /\
    role profile = "student".
Proof.
  destruct (enroll_now_always_inserts
              (CourseDetail.mkPage "course-1"
                 (CourseDetail.mkCourse "course-1" "teacher-1" false) true
                 (Some (mkProfile "student-1" "student")))
              None false false None [] eq_refl)
    as (profile & P & R & _).
  exists profile. split; [exact P | exact R].
Defined.

End EnrollmentMoreFacts.

(** ** Sorting and filtering commute *)

Module CommuteFacts.

Import Js Index Ordering SortFacts NumberFacts PipelineFacts OrderFacts.

Section Commute.
Context {A : Type} (comparefn : A -> A -> number).

Lemma insert_front (p : A -> bool) (x : A) (l : list A) :
  Forall (fun z => isPositive (comparefn x z) = false) l ->
  insert comparefn x (List.filter p l) = x :: List.filter p l.
Proof.
  intros H. destruct (List.filter p l) as [|z r] eqn:E; [reflexivity|].
  assert (Hz : In z l).
  { eapply proj1, List.filter_In. rewrite E. now left. }
  rewrite List.Forall_forall in H. simpl. now rewrite (H z Hz).
Qed.

Lemma filter_insert (R : A -> A -> Prop) (p : A -> bool) (x : A) (l : list A) :
  (forall a b c, isPositive (comparefn a b) = false -> R b c ->
                 isPositive (comparefn a c) = false) ->
  StronglySorted R l ->
  List.filter p (insert comparefn x l) =
  if p x then insert comparefn x (List.filter p l) else List.filter p l.
Proof.
  intros H S. induction S as [|y l S IH Hy]; [simpl; now destruct (p x)|].
  cbn [insert]. destruct (isPositive (comparefn x y)) eqn:E.
  - cbn [List.filter]. rewrite IH.
    destruct (p y), (p x); try reflexivity.
    cbn [insert]. now rewrite E.
  - change (List.filter p (x :: y :: l))
      with (if p x then x :: List.filter p (y :: l) else List.filter p (y :: l)).
    destruct (p x); [|reflexivity].
    symmetry. apply insert_front. constructor; [exact E|].
    eapply List.Forall_impl; [|exact Hy]. intros z Rz. now apply (H x y z).
Qed.

Lemma filter_sort (P : A -> Prop) (R : A -> A -> Prop) (p : A -> bool)
    (l : list A) :
  (forall a b, P a -> P b -> isPositive (comparefn a b) = false -> R a b) ->
  (forall a b, P a -> P b -> isPositive (comparefn a b) = true -> R b a) ->
  (forall a b c, R a b -> R b c -> R a c) ->
  (forall a b c, isPositive (comparefn a b) = false -> R b c ->
                 isPositive (comparefn a c) = false) ->
  Forall P l ->
  List.filter p (sort comparefn l) = sort comparefn (List.filter p l).
Proof.
  intros keep move trans H Pl.
  induction Pl as [|x l Px Pl IH]; [reflexivity|].
  cbn [sort fold_right].
  rewrite (filter_insert R p x _ H)
    by (apply (sort_sorted comparefn P R); assumption).
  fold (sort comparefn l). rewrite IH.
  cbn [List.filter]. destruct (p x); reflexivity.
Qed.
End Commute.

Lemma isPositive_sub_le (a b : number) : le a b -> isPositive (sub a b) = false.
Proof.
  destruct a as [|x|s], b as [|y|t]; simpl; try contradiction; intros H.
  - change (isPositive (Fin (x - y)) = false).
    rewrite isPositive_Fin_false. lra.
  - subst t. reflexivity.
  - subst s. reflexivity.
  - destruct s, t; try reflexivity; destruct H; discriminate.
Qed.

Lemma sub_le_trans (a b c : number) :
  isPositive (sub a b) = false -> le b c -> isPositive (sub a c) = false.
Proof.
  intros H L. destruct a as [|x|s] eqn:Ea; [reflexivity| |].
  - apply isPositive_sub_le. eapply le_trans; [|exact L].
    apply sub_keep; [discriminate| |exact H].
    destruct b; [contradiction|discriminate|discriminate].
  - apply isPositive_sub_le. eapply le_trans; [|exact L].
    apply sub_keep; [discriminate| |exact H].
    destruct b; [contradiction|discriminate|discriminate].
Qed.

Lemma sub_positive_le (a b c : number) :
  isPositive (sub c a) = true -> le c b -> isPositive (sub b a) = true.
Proof.
  destruct a as [|x|s], b as [|y|t], c as [|z|u]; intros H1 H2;
    cbn [sub] in *;
    try (simpl in *; discriminate); try (simpl in *; contradiction);
    first
      [ rewrite isPositive_Fin in *; simpl in H2; lra
      | simpl in *;
        repeat match goal with
               | v : bool |- _ => destruct v
               end;
        simpl in *; try reflexivity; try discriminate;
        try (destruct H2; discriminate) ].
Qed.

Lemma filter_sortCourses sortBy (p : Course -> bool) (l : list Course) :
  (isPriceKey sortBy = true -> Forall parses l) ->
  List.filter p (sortCourses sortBy l) = sortCourses sortBy (List.filter p l).
Proof.
  unfold sortCourses, isPriceKey. intros H.
  destruct (String.eqb sortBy "popular").
  { apply (filter_sort byStudents (fun _ => True)
             (fun a b => (students b <= students a)%Z)).
    - intros a b _ _ E. apply not_true_iff_false in E.
      rewrite byStudents_positive in E. lia.
    - intros a b _ _ E. apply byStudents_positive in E. lia.
    - intros a b c. lia.
    - intros a b c E Hb. apply not_true_iff_false in E.
      rewrite byStudents_positive in E. apply not_true_iff_false.
      rewrite byStudents_positive. lia.
    - apply List.Forall_forall. auto. }
  destruct (String.eqb sortBy "rating").
  { apply (filter_sort byRating (fun _ => True)
             (fun a b => (rating b <= rating a)%Q)).
    - intros a b _ _ E. apply not_true_iff_false in E.
      rewrite byRating_positive in E. lra.
    - intros a b _ _ E. apply byRating_positive in E. lra.
    - intros a b c. lra.
    - intros a b c E Hb. apply not_true_iff_false in E.
      rewrite byRating_positive in E. apply not_true_iff_false.
      rewrite byRating_positive. lra.
    - apply List.Forall_forall. auto. }
  destruct (String.eqb sortBy "newest"); [reflexivity|].
  destruct (String.eqb sortBy "price-low").
  { apply (filter_sort byPriceLow parses
             (fun a b => le (parsePrice (price a)) (parsePrice (price b)))).
    - intros a b Pa Pb. apply sub_keep; assumption.
    - intros a b _ _. apply sub_move.
    - intros a b c. apply le_trans.
    - intros a b c. apply sub_le_trans.
    - apply H. reflexivity. }
  destruct (String.eqb sortBy "price-high"); [|reflexivity].
  apply (filter_sort byPriceHigh parses
           (fun a b => le (parsePrice (price b)) (parsePrice (price a)))).
  - intros a b Pa Pb. apply sub_keep; assumption.
  - intros a b _ _. apply sub_move.
  - intros a b c H1 H2. eapply le_trans; eassumption.
  - intros a b c E L. unfold byPriceHigh in *.
    destruct (isPositive (sub (parsePrice (price c)) (parsePrice (price a))))
      eqn:E'; [|reflexivity].
    rewrite (sub_positive_le _ _ _ E' L) in E. discriminate E.
  - apply H. reflexivity.
Qed.

(** X24.  Filtering does not reorder: when, for a price key, every price
    of the catalogue parses to a number, the displayed list is the whole
    catalogue sorted by the key with the courses that fail a filter taken
    out.  Two courses that are both displayed are in the same order under
    every query and filter. *)
Theorem filters_do_not_reorder courses q lang lvl sortBy :
  (isPriceKey sortBy = true ->
   Forall (fun c => parsePrice (price c) <> NaN) courses) ->
  applyFilters courses q lang lvl sortBy =
  List.filter (passes q lang lvl) (applyFilters courses "" "" "" sortBy).
Proof.
  intros H. unfold applyFilters.
  rewrite (filterCourses_passes courses q lang lvl).
  change (filterCourses courses "" "" "") with courses.
  symmetry. now apply filter_sortCourses.
Qed.

Lemma filters_do_not_reorder_witness :
  applyFilters mockCourses "" "" "intermediate" "price-low" =
  List.filter (passes "" "" "intermediate")
    (applyFilters mockCourses "" "" "" "price-low").
Proof.
  apply (filters_do_not_reorder mockCourses "" "" "intermediate" "price-low").
  intros _. repeat constructor; discriminate.
Defined.

End CommuteFacts.

(** ** More on lessons *)

Module LessonMoreFacts.

Import Js Index LessonManagement SortFacts NumberFacts PipelineFacts
  CommuteFacts LessonFacts.

Section SortMore.
Context {A : Type} (comparefn : A -> A -> number).

Lemma insert_snoc (x y : A) (s : list A) :
  isPositive (comparefn y x) = false ->
  insert comparefn y (s ++ [x]) = insert comparefn y s ++ [x].
Proof.
  intros H. induction s as [|z s IH]; simpl; [now rewrite H|].
  destruct (isPositive (comparefn y z)); [now rewrite IH | reflexivity].
Qed.

Lemma sort_snoc (x : A) (l : list A) :
  Forall (fun y => isPositive (comparefn y x) = false) l ->
  sort comparefn (l ++ [x]) = sort comparefn l ++ [x].
Proof.
  induction 1 as [|y l Hy _ IH]; [reflexivity|].
  change (sort comparefn ((y :: l) ++ [x]))
    with (insert comparefn y (sort comparefn (l ++ [x]))).
  rewrite IH. now apply insert_snoc.
Qed.

Lemma insert_map (g : A -> A) (x : A) (l : list A) :
  (forall a b, comparefn (g a) (g b) = comparefn a b) ->
  insert comparefn (g x) (map g l) = map g (insert comparefn x l).
Proof.
  intros H. induction l as [|y l IH]; [reflexivity|].
  simpl. rewrite H, IH. now destruct (isPositive (comparefn x y)).
Qed.

Lemma sort_map (g : A -> A) (l : list A) :
  (forall a b, comparefn (g a) (g b) = comparefn a b) ->
  sort comparefn (map g l) = map g (sort comparefn l).
Proof.
  intros H. induction l as [|x l IH]; [reflexivity|].
  simpl. rewrite IH. now apply insert_map.
Qed.
End SortMore.

Lemma byOrderIndex_positive (a b : Lesson) :
  isPositive (byOrderIndex a b) = true <-> (order_index b < order_index a)%Z.
Proof.
  unfold byOrderIndex, ofZ. simpl sub. rewrite isPositive_Fin.
  rewrite Zlt_Qlt. lra.
Qed.

Lemma byOrderIndex_false (a b : Lesson) :
  isPositive (byOrderIndex a b) = false <-> (order_index a <= order_index b)%Z.
Proof.
  rewrite <- not_true_iff_false, byOrderIndex_positive. lia.
Qed.

Lemma filter_comm {A} (p q : A -> bool) (l : list A) :
  List.filter p (List.filter q l) = List.filter q (List.filter p l).
Proof.
  rewrite !filter_and. apply List.filter_ext. intros x. apply andb_comm.
Qed.

(** Taking lessons out of the table takes them out of the fetched list
    and moves no other. *)
Lemma filter_selectLessons (p : Lesson -> bool) courseId (t : list Lesson) :
  List.filter p (selectLessons courseId t) =
  selectLessons courseId (List.filter p t).
Proof.
  unfold selectLessons.
  rewrite (filter_sort byOrderIndex (fun _ => True)
             (fun a b => (order_index a <= order_index b)%Z)).
  - now rewrite filter_comm.
  - intros a b _ _. apply byOrderIndex_false.
  - intros a b _ _ H. apply byOrderIndex_positive in H. lia.
  - intros a b c. lia.
  - intros a b c H1 H2. apply byOrderIndex_false.
    apply byOrderIndex_false in H1. lia.
  - apply List.Forall_forall. auto.
Qed.

Lemma In_selectLessons courseId (t : list Lesson) (l : Lesson) :
  In l (selectLessons courseId t) <->
  In l t /\ course_id l = courseId.
Proof.
  unfold selectLessons. split.
  - intros H. apply (Permutation_in _ (sort_perm _ _)) in H.
    apply List.filter_In in H. now rewrite String.eqb_eq in H.
  - intros [H E]. apply (Permutation_in _ (Permutation_sym (sort_perm _ _))).
    apply List.filter_In. now rewrite String.eqb_eq.
Qed.

Lemma lessonData_course_id page form lid :
  course_id (lessonData page form lid) = courseId page.
Proof.
  unfold lessonData.
  destruct (String.eqb (f_type form) "video"); [reflexivity|].
  destruct (String.eqb (f_type form) "text"); reflexivity.
Qed.

Lemma contiguous_bound (l : list Z) (z : Z) :
  contiguous l -> In z l -> (0 <= z < Z.of_nat (List.length l))%Z.
Proof.
  unfold contiguous. intros C H. rewrite C in H.
  apply List.in_map_iff in H. destruct H as (k & <- & Hk).
  apply List.in_seq in Hk. lia.
Qed.

(** X25.  On a page that shows what the table holds, with contiguous
    indexes, creating a lesson appends it: the new lesson takes the next
    index and comes last, the other indexes are as before, and the indexes
    are contiguous again. *)
Theorem create_appends_lesson (page : Page) (form : FormData) (newId : string) :
  inSync page -> editingLesson page = None -> contiguous (indexes page) ->
  let page' := handleSubmit page form newId false in
  indexes page' = indexes page ++ [Z.of_nat (List.length (lessons page))] /\
  contiguous (indexes page') /\
  inSync page' /\
  last (lessons page') = Some (lessonData page form newId).
Proof.
  intros S E C page'.
  set (new := lessonData page form newId).
  assert (Hn : order_index new = Z.of_nat (List.length (lessons page))).
  { unfold new. rewrite lessonData_order_index, E. reflexivity. }
  assert (L : List.length (indexes page) = List.length (lessons page)).
  { unfold indexes. rewrite List.length_map. now rewrite S. }
  assert (F : selectLessons (courseId page) (table page ++ [new]) =
              selectLessons (courseId page) (table page) ++ [new]).
  { unfold selectLessons. rewrite List.filter_app. cbn [List.filter].
    unfold new at 1. rewrite lessonData_course_id, String.eqb_refl.
    apply sort_snoc. apply List.Forall_forall. intros y Hy.
    apply byOrderIndex_false. rewrite Hn, <- L.
    assert (In (order_index y) (indexes page)).
    { unfold indexes. apply List.in_map. apply In_selectLessons.
      apply List.filter_In in Hy. now rewrite String.eqb_eq in Hy. }
    pose proof (contiguous_bound _ _ C H). lia. }
  assert (I : indexes page' =
              indexes page ++ [Z.of_nat (List.length (lessons page))]).
  { unfold page', handleSubmit, indexes. rewrite E.
    cbn [fetchLessons table courseId]. fold new. rewrite F.
    now rewrite List.map_app, <- Hn. }
  split; [exact I|]. split; [|split].
  - unfold contiguous in *. rewrite I, List.length_app, L. cbn [List.length].
    rewrite Nat.add_1_r, List.seq_S, List.map_app. cbn [map Nat.add].
    rewrite L in C. now rewrite <- C.
  - unfold page', handleSubmit. rewrite E. reflexivity.
  - unfold page', handleSubmit. rewrite E.
    cbn [fetchLessons lessons table courseId]. fold new. rewrite F.
    apply last_snoc.
Qed.

Lemma create_appends_lesson_witness :
  indexes (handleSubmit threeLessons newLesson "d" false) = [0; 1; 2; 3]%Z.
Proof.
  apply (create_appends_lesson threeLessons newLesson "d");
    reflexivity.
Defined.

(** X26.  Deleting a lesson takes it, and nothing else, out of the page:
    on a page that shows what the table holds and whose lessons have
    distinct indexes (so that the index order is one order), the lessons
    after a confirmed delete are the lessons before without the ones of
    that id, in the same order and each with the index it had.  A delete
    that is not confirmed, or that the service refuses, changes nothing. *)
Theorem delete_keeps_the_others (page : Page) (lessonId : string) :
  (inSync page -> List.NoDup (indexes page) ->
   lessons (handleDelete page lessonId true false) =
   List.filter (fun l => negb (String.eqb (id l) lessonId)) (lessons page)) /\
  (forall serviceError, handleDelete page lessonId false serviceError = page) /\
  handleDelete page lessonId true true = page.
Proof.
  split; [|split; reflexivity].
  intros S _. unfold handleDelete. cbn [negb fetchLessons lessons table courseId].
  rewrite S. symmetry. apply filter_selectLessons.
Qed.

Lemma delete_keeps_the_others_witness :
  map id (lessons (handleDelete threeLessons "b" true false)) = ["a"; "c"].
Proof.
  rewrite (proj1 (delete_keeps_the_others threeLessons "b")).
  - reflexivity.
  - reflexivity.
  - repeat constructor; simpl; intuition discriminate.
Defined.

Lemma filter_length_lt {A} (p : A -> bool) (l : list A) (x : A) :
  In x l -> p x = false ->
  (List.length (List.filter p l) < List.length l)%nat.
Proof.
  intros Hin Hp. induction l as [|y l IH]; [contradiction|].
  simpl. pose proof (List.filter_length_le p l).
  destruct Hin as [->|Hin].
  - rewrite Hp. lia.
  - specialize (IH Hin). destruct (p y); simpl; lia.
Qed.

(** X27.  Only the last lesson can be deleted without leaving a gap: on a
    page that shows what the table holds, with contiguous indexes,
    deleting a lesson whose index is not the highest leaves indexes that
    are not contiguous from 0. *)
Theorem delete_before_last_leaves_gap (page : Page) (lessonId : string) :
  inSync page -> contiguous (indexes page) ->
  (exists l, In l (lessons page) /\ id l = lessonId) ->
  (forall l, In l (lessons page) -> id l = lessonId ->
     (order_index l < Z.of_nat (List.length (lessons page)) - 1)%Z) ->
  ~ contiguous (indexes (handleDelete page lessonId true false)).
Proof.
  intros S C (d & Hd & Ed) Hlt Cn.
  set (keep := fun l : Lesson => negb (String.eqb (id l) lessonId)) in *.
  assert (I : indexes (handleDelete page lessonId true false) =
              map order_index (List.filter keep (lessons page))).
  { unfold indexes, handleDelete. cbn [negb fetchLessons table courseId].
    rewrite S. now rewrite filter_selectLessons. }
  assert (L : indexes page = map order_index (lessons page)).
  { unfold indexes. now rewrite S. }
  set (n := List.length (lessons page)) in *.
  assert (Hn : (0 < n)%nat).
  { unfold n. destruct (lessons page); [contradiction | simpl; lia]. }
  assert (Hlast : In (Z.of_nat (n - 1)) (indexes page)).
  { unfold contiguous in C. rewrite C. apply List.in_map, List.in_seq.
    rewrite L, List.length_map. fold n. lia. }
  rewrite L in Hlast. apply List.in_map_iff in Hlast.
  destruct Hlast as (z & Hz & Hin).
  assert (Kz : keep z = true).
  { unfold keep. apply negb_true_iff, String.eqb_neq. intros Ez.
    specialize (Hlt z Hin Ez). fold n in Hlt. lia. }
  assert (In (order_index z) (indexes (handleDelete page lessonId true false))).
  { rewrite I. apply List.in_map, List.filter_In. auto. }
  pose proof (contiguous_bound _ _ Cn H) as B.
  rewrite I, List.length_map in B.
  assert (List.length (List.filter keep (lessons page)) < n)%nat.
  { apply (filter_length_lt keep _ d Hd). unfold keep.
    apply negb_false_iff, String.eqb_eq. exact Ed. }
  lia.
Qed.

Lemma delete_before_last_leaves_gap_witness :
  ~ contiguous (indexes (handleDelete threeLessons "b" true false)).
Proof.
  apply (delete_before_last_leaves_gap threeLessons "b").
  - reflexivity.
  - reflexivity.
  - exists (lessonAt "b" 1). split; [right; left; reflexivity | reflexivity].
  - simpl. intros l [<- | [<- | [<- | []]]] E; simpl in *;
      first [discriminate E | lia].
Defined.

(** X28.  Editing a lesson changes no ordering index: when every row of
    the edited lesson's id is a lesson of this course with the index the
    form was opened with, the indexes after the update are the indexes
    before. *)
Theorem edit_keeps_indexes (page : Page) (form : FormData) (newId : string)
    (editing : Lesson) :
  editingLesson page = Some editing ->
  (forall l, In l (table page) -> id l = id editing ->
     course_id l = courseId page /\ order_index l = order_index editing) ->
  indexes (handleSubmit page form newId false) = indexes page.
Proof.
  intros E H. unfold handleSubmit, indexes. rewrite E.
  cbn [fetchLessons table courseId].
  set (g := fun l : Lesson =>
              if String.eqb (id l) (id editing)
              then lessonData page form (id l) else l).
  assert (G : forall l, In l (table page) ->
              course_id (g l) = course_id l /\
              order_index (g l) = order_index l).
  { intros l Hl. unfold g.
    destruct (String.eqb_spec (id l) (id editing)) as [Ei|]; [|auto].
    destruct (H l Hl Ei) as [Hc Ho].
    rewrite lessonData_course_id, lessonData_order_index, E. auto. }
  clearbody g. revert G. generalize (table page) as t. intros t G.
  unfold selectLessons.
  assert (K : forall s : list Lesson,
            (forall l, In l s -> order_index (g l) = order_index l) ->
            map order_index (sort byOrderIndex (map g s)) =
            map order_index (sort byOrderIndex s)).
  { induction s as [|x s IH]; intros Hs; [reflexivity|].
    cbn [map sort fold_right].
    fold (sort byOrderIndex (map g s)). fold (sort byOrderIndex s).
    assert (IH' := IH (fun l Hl => Hs l (or_intror Hl))).
    assert (Hx := Hs x (or_introl eq_refl)).
    clear IH Hs.
    revert IH'. generalize (sort byOrderIndex (map g s)) as u.
    generalize (sort byOrderIndex s) as v.
    induction v as [|b v IHv]; intros [|a u] Hu; try discriminate;
      [cbn; now rewrite Hx|].
    cbn [map] in Hu. injection Hu as Hab Hu.
    cbn [insert]. unfold byOrderIndex at 1 3. rewrite Hx, Hab.
    destruct (isPositive _); cbn [map]; rewrite ?Hab, ?Hx, ?Hu;
      [f_equal; now apply IHv | reflexivity]. }
  assert (Fl : List.filter (fun l => String.eqb (course_id l) (courseId page))
                 (map g t) =
               map g (List.filter (fun l => String.eqb (course_id l) (courseId page)) t)).
  { induction t as [|x t IH]; [reflexivity|].
    cbn [map List.filter].
    destruct (G x (or_introl eq_refl)) as [Gc _]. rewrite Gc.
    rewrite IH by (intros l Hl; apply G; now right).
    now destruct (String.eqb (course_id x) (courseId page)). }
  rewrite Fl. apply K. intros l Hl. apply List.filter_In in Hl.
  now apply G.
Qed.

Lemma edit_keeps_indexes_witness :
  indexes (handleSubmit
             (mkPage (table threeLessons) "course-1" (lessons threeLessons)
                (Some (lessonAt "b" 1)))
             newLesson "unused" false) = [0; 1; 2]%Z.
Proof.
  rewrite (edit_keeps_indexes
             (mkPage (table threeLessons) "course-1" (lessons threeLessons)
                (Some (lessonAt "b" 1)))
             newLesson "unused" (lessonAt "b" 1) eq_refl).
  - reflexivity.
  - simpl. intros l [<- | [<- | [<- | []]]] E; simpl in *;
      first [discriminate E | split; reflexivity].
Defined.

End LessonMoreFacts.

(** ** Reordering lessons *)

Module ReorderFacts.

Import Js Index LessonManagement SortFacts NumberFacts PipelineFacts
  CommuteFacts LessonFacts LessonMoreFacts.

Lemma position_None (i : string) (ids : list string) : forall start,
  ~ In i ids -> position i ids start = None.
Proof.
  induction ids as [|j r IH]; intros start H; [reflexivity|].
  simpl. destruct (String.eqb_spec j i) as [->|].
  - exfalso. apply H. now left.
  - apply IH. intros Hr. apply H. now right.
Qed.

Lemma position_self (ids : list string) : forall start,
  List.NoDup ids ->
  map (fun i => position i ids start) ids =
  map Some (seq start (List.length ids)).
Proof.
  induction ids as [|j r IH]; intros start N; [reflexivity|].
  inversion N as [|? ? Hj Nr]; subst.
  cbn [map List.length seq position]. rewrite String.eqb_refl. f_equal.
  rewrite <- (IH (S start) Nr). apply List.map_ext_in. intros i Hi.
  destruct (String.eqb_spec j i) as [->|]; [contradiction | reflexivity].
Qed.

(** The updates of [reorderLessons], one after the other, renumber each
    row by the place of its id. *)
Lemma fold_renumber (ids : list string) : forall (start : nat) (t : list Lesson),
  List.NoDup ids ->
  fold_left (fun t update => setOrderIndex (fst update) (snd update) t)
    (combine ids (map Z.of_nat (seq start (List.length ids)))) t =
  map (renumber ids start) t.
Proof.
  induction ids as [|i r IH]; intros start t N.
  - simpl. symmetry. apply UploadMoreFacts.map_fixed.
    apply List.Forall_forall. reflexivity.
  - inversion N as [|? ? Hi Nr]; subst.
    cbn [List.length seq map combine fold_left fst snd].
    rewrite (IH (S start) _ Nr). unfold setOrderIndex.
    rewrite List.map_map. apply List.map_ext. intros l.
    unfold renumber. cbn [position].
    rewrite (String.eqb_sym i (id l)).
    destruct (String.eqb_spec (id l) i) as [E|E].
    + change (mkLesson (id l) (course_id l) (title l) (description l) (type l)
                (Z.of_nat start) (video_url l) (duration_minutes l) (content l))
        with (withIndex l (Z.of_nat start)).
      change (id (withIndex l (Z.of_nat start))) with (id l).
      rewrite (position_None (id l) r (S start)) by (rewrite E; exact Hi).
      reflexivity.
    + reflexivity.
Qed.

Lemma renumber_course_id ids start l :
  course_id (renumber ids start l) = course_id l.
Proof. unfold renumber. now destruct (position (id l) ids start). Qed.

Lemma filter_renumber ids start c (t : list Lesson) :
  List.filter (fun l => String.eqb (course_id l) c) (map (renumber ids start) t) =
  map (renumber ids start)
    (List.filter (fun l => String.eqb (course_id l) c) t).
Proof.
  induction t as [|x t IH]; [reflexivity|].
  cbn [map List.filter]. rewrite renumber_course_id, IH.
  now destruct (String.eqb (course_id x) c).
Qed.

(** A sorted list is fixed by what it holds. *)
Lemma sorted_unique (l1 : list Z) : forall l2,
  StronglySorted Z.le l1 -> StronglySorted Z.le l2 -> Permutation l1 l2 ->
  l1 = l2.
Proof.
  induction l1 as [|a l1 IH]; intros l2 S1 S2 P.
  - apply Permutation_nil in P. now subst.
  - destruct l2 as [|b l2].
    + apply Permutation_sym, Permutation_nil in P. discriminate.
    + inversion S1 as [|? ? S1' F1]; subst.
      inversion S2 as [|? ? S2' F2]; subst.
      assert (a = b).
      { assert (Ha : In a (b :: l2))
          by (eapply Permutation_in; [exact P | now left]).
        assert (Hb : In b (a :: l1))
          by (eapply Permutation_in; [symmetry; exact P | now left]).
        rewrite List.Forall_forall in F1, F2.
        destruct Ha as [Ha|Ha]; [congruence|].
        destruct Hb as [Hb|Hb]; [congruence|].
        specialize (F1 b Hb). specialize (F2 a Ha). lia. }
      subst b. f_equal. apply IH; auto.
      eapply Permutation_cons_inv. exact P.
Qed.

Lemma seq_sorted (n : nat) : forall start,
  StronglySorted Z.le (map Z.of_nat (seq start n)).
Proof.
  induction n as [|n IH]; intros start; [constructor|].
  cbn [seq map]. constructor; [apply IH|].
  apply List.Forall_forall. intros z Hz.
  apply List.in_map_iff in Hz. destruct Hz as (k & <- & Hk).
  apply List.in_seq in Hk. lia.
Qed.

Lemma selectLessons_sorted courseId (t : list Lesson) :
  StronglySorted Z.le (map order_index (selectLessons courseId t)).
Proof.
  unfold selectLessons.
  assert (S : StronglySorted (fun a b => (order_index a <= order_index b)%Z)
                (sort byOrderIndex
                   (List.filter (fun l => String.eqb (course_id l) courseId) t))).
  { apply (sort_sorted byOrderIndex (fun _ => True)).
    - intros a b _ _. apply byOrderIndex_false.
    - intros a b _ _ H. apply byOrderIndex_positive in H. lia.
    - intros a b c. lia.
    - apply List.Forall_forall. auto. }
  induction S as [|x l S IH F]; [constructor|].
  cbn [map]. constructor; [exact IH|].
  apply List.Forall_map. exact F.
Qed.

(** X29.  [reorderLessons] renumbers: when its argument names each lesson
    of the course once (the ids are distinct and are the ids of the
    course's rows), the indexes afterwards are contiguous from 0, and the
    page shows what the table holds. *)
Theorem reorderLessons_renumbers (page : Page) (ordered : list Lesson) :
  List.NoDup (map id ordered) ->
  Permutation
    (map id (List.filter (fun l => String.eqb (course_id l) (courseId page))
               (table page)))
    (map id ordered) ->
  contiguous (indexes (reorderLessons page ordered)) /\
  List.length (indexes (reorderLessons page ordered)) = List.length ordered /\
  inSync (reorderLessons page ordered).
Proof.
  intros N P.
  set (ids := map id ordered) in *.
  set (c := courseId page).
  set (rows := List.filter (fun l => String.eqb (course_id l) c) (table page)) in *.
  assert (T : table (reorderLessons page ordered) = map (renumber ids 0) (table page)).
  { unfold reorderLessons. cbn [fetchLessons table].
    rewrite <- (fold_renumber ids 0 (table page) N).
    unfold ids. now rewrite List.length_map. }
  assert (I : indexes (reorderLessons page ordered) =
              map order_index (selectLessons c (map (renumber ids 0) (table page)))).
  { unfold indexes. rewrite T. reflexivity. }
  assert (Fl : List.filter (fun l => String.eqb (course_id l) c)
                 (map (renumber ids 0) (table page)) =
               map (renumber ids 0) rows).
  { apply filter_renumber. }
  set (posZ := fun i => match position i ids 0 with
                        | Some k => Z.of_nat k
                        | None => 0%Z
                        end).
  assert (M : map order_index (map (renumber ids 0) rows) = map posZ (map id rows)).
  { rewrite !List.map_map. apply List.map_ext_in. intros l Hl.
    unfold renumber, posZ.
    destruct (position (id l) ids 0) as [k|] eqn:E; [reflexivity|].
    exfalso.
    assert (Hin : In (id l) ids).
    { eapply Permutation_in; [exact P|]. now apply List.in_map. }
    clear - E Hin. revert E. generalize 0%nat.
    induction ids as [|j r IH]; intros s E; [contradiction|].
    simpl in E. destruct (String.eqb_spec j (id l)); [discriminate|].
    destruct Hin as [Hj|Hin]; [congruence|]. now apply (IH Hin (S s)). }
  assert (Q : map posZ ids = map Z.of_nat (seq 0 (List.length ids))).
  { unfold posZ.
    rewrite <- (List.map_map (fun i => position i ids 0)
                  (fun o => match o with
                            | Some k => Z.of_nat k
                            | None => 0%Z
                            end)).
    rewrite (position_self ids 0 N), List.map_map. reflexivity. }
  assert (E : indexes (reorderLessons page ordered) =
              map Z.of_nat (seq 0 (List.length ids))).
  { rewrite I. apply sorted_unique.
    - apply selectLessons_sorted.
    - apply seq_sorted.
    - unfold selectLessons. rewrite Fl.
      rewrite (Permutation_map order_index (sort_perm byOrderIndex _)).
      rewrite M, <- Q. now apply Permutation_map. }
  split; [|split].
  - unfold contiguous. rewrite E at 1.
    now rewrite E, List.length_map, List.length_seq.
  - rewrite E, List.length_map, List.length_seq. unfold ids.
    apply List.length_map.
  - reflexivity.
Qed.

Lemma reorderLessons_renumbers_witness :
  let gapped := handleDelete threeLessons "a" true false in
  indexes gapped = [1; 2]%Z /\
  contiguous (indexes (reorderLessons gapped (lessons gapped))).
Proof.
  cbv zeta. split; [reflexivity|].
  apply (reorderLessons_renumbers (handleDelete threeLessons "a" true false)
           (lessons (handleDelete threeLessons "a" true false))).
  - repeat constructor; simpl; intuition discriminate.
  - reflexivity.
Defined.

End ReorderFacts.
